(** * openff-docs: the notebook pre-processing script

    A shallow embedding of [source/_ext/proc_examples.py] and of the
    constants of [source/_ext/cookbook/globals.py], with the properties
    of the file-set resolver, of the clean-up of processed notebooks, of
    the release-tag selection and of the orchestrator [main].

    Layout of the development:
    - [PurePath]: the fragment of [pathlib] the script relies on;
    - [Globals]: the constants of [cookbook/globals.py];
    - [Pydict]: insertion-ordered dictionaries;
    - [Resolver]: [needed_files];
    - [Filesystem], [Cleanup]: [clean_up_notebook] on a tree of paths;
    - [Releases]: [get_stable_tagname];
    - [Executor]: the thumbnail cell of [execute_notebook];
    - [Orchestrator]: [main] as a program over a world with a trace;
    - [Archiver]: [create_zip];
    - [CommandLine]: the flags of the script;
    - [Colab]: [create_colab_notebook]. *)

From Stdlib Require Import Ascii.
From stdpp Require Import base decidable option list strings countable gmap fin_maps fin_sets.


(** ** Exceptions and results *)

(** The Python exceptions the script can raise or let through. *)
Inductive exn : Type :=
  | ValueError (msg : string)
  | FileNotFoundError (filename : string)
  | IsADirectoryError (filename : string)
  | NotADirectoryError (filename : string)
  | FileExistsError (filename : string)
  | HTTPError
  | InvalidVersion (tag : string)
  | ExternalError (what : string).

(** A computation either raises or returns. *)
Definition result (A : Type) : Type := exn + A.

Definition ok {A} (x : A) : result A := inr x.
Definition raise {A} (e : exn) : result A := inl e.

Definition rbind {A B} (r : result A) (k : A -> result B) : result B :=
  match r with
  | inl e => inl e
  | inr x => k x
  end.

Declare Scope result_scope.
Delimit Scope result_scope with result.
Notation "x <- c ;;; k" := (rbind c (fun x => k))
  (at level 100, c at next level, right associativity) : result_scope.

(** ** Strings *)

Module Str.

(** The line feed of Python's ["\n"]. *)
Definition nl : string := String (ascii_of_nat 10) EmptyString.

(** [s.rfind(c)]: the index of the last occurrence of [c]. *)
Fixpoint rfind (c : ascii) (s : string) : option nat :=
  match s with
  | EmptyString => None
  | String a s' =>
      match rfind c s' with
      | Some i => Some (S i)
      | None => if Ascii.eqb a c then Some 0 else None
      end
  end.

(** [sep.join(l)]. *)
Fixpoint join (sep : string) (l : list string) : string :=
  match l with
  | [] => ""
  | [x] => x
  | x :: l' => x +:+ sep +:+ join sep l'
  end.

(** ["".join(l)]. *)
Definition concat (l : list string) : string := foldr String.append "" l.

(** [s.split(c)] on a single-character separator, as a list of the
    pieces (empty pieces kept). *)
Fixpoint split (c : ascii) (s : string) : list string :=
  match s with
  | EmptyString => [""]
  | String a s' =>
      if Ascii.eqb a c then "" :: split c s'
      else match split c s' with
           | [] => [String a ""]
           | w :: ws => String a w :: ws
           end
  end.

(** [s[-1]], when [s] is not empty. *)
Fixpoint last_char (s : string) : option ascii :=
  match s with
  | EmptyString => None
  | String a EmptyString => Some a
  | String _ s' => last_char s'
  end.


End Str.

(** ** Paths *)

(** A [pathlib.PurePosixPath]: whether it is rooted, and its components
    below the root.  [Path("/a/b")] is [{| root := true; parts := ["a";"b"] |}],
    [Path(".")] and [Path("")] are [{| root := false; parts := [] |}]. *)
Record Path : Type := MkPath { root : bool; parts : list string }.

Module PurePath.

#[global] Instance Path_eq_dec : EqDecision Path.
Proof. solve_decision. Defined.

#[global] Instance Path_countable : Countable Path.
Proof.
  refine (inj_countable' (fun p => (root p, parts p))
                         (fun t => MkPath t.1 t.2) _).
  by intros [].
Defined.

(** [Path(s)]: split on the separator, drop empty and ["."] pieces. *)
Definition of_string (s : string) : Path :=
  {| root := match s with String "/" _ => true | _ => false end;
     parts := filter (fun w => w <> "" /\ w <> ".") (Str.split "/" s) |}.

(** [str(p)]. *)
Definition str (p : Path) : string :=
  match root p, parts p with
  | false, [] => "."
  | false, l => Str.join "/" l
  | true, l => "/" +:+ Str.join "/" l
  end.

(** [p.name]: the final component, [""] when there is none. *)
Definition name (p : Path) : string := List.last (parts p) "".

(** [p.parent]; the root and the empty path are their own parents. *)
Definition parent (p : Path) : Path :=
  {| root := root p; parts := removelast (parts p) |}.

(** [p / q]: a rooted right operand replaces the left one. *)
Definition joinpath (p q : Path) : Path :=
  if root q then q
  else {| root := root p; parts := parts p ++ parts q |}.

(** [other] is [p] or one of its ancestors. *)
Definition is_under (other p : Path) : bool :=
  bool_decide (root p = root other) &&
  bool_decide (take (length (parts other)) (parts p) = parts other).

(** [p.relative_to(other)]; raises [ValueError] unless [other] is [p]
    or an ancestor of [p]. *)
Definition relative_to (p other : Path) : result Path :=
  if is_under other p
  then ok {| root := false; parts := drop (length (parts other)) (parts p) |}
  else raise (ValueError ("'" +:+ str p +:+ "' is not in the subpath of '"
                          +:+ str other +:+ "'")).

(** [p.suffix]: the final component from its last dot on, when that
    dot is neither its first nor its last character. *)
Definition suffix (p : Path) : string :=
  let n := name p in
  match Str.rfind "." n with
  | Some i =>
      if (0 <? i)%nat && (i <? String.length n - 1)%nat
      then String.substring i (String.length n - i) n
      else ""
  | None => ""
  end.

(** [p.with_suffix(sfx)]; raises [ValueError] on a suffix that holds a
    separator, does not start with a dot or is a lone dot, and on a
    path with an empty name. *)
Definition with_suffix (p : Path) (sfx : string) : result Path :=
  if bool_decide (Str.rfind "/" sfx <> None) then
    raise (ValueError ("Invalid suffix '" +:+ sfx +:+ "'"))
  else if bool_decide (sfx <> "" /\ String.get 0 sfx <> Some "."%char)
          || bool_decide (sfx = ".") then
    raise (ValueError ("Invalid suffix '" +:+ sfx +:+ "'"))
  else if bool_decide (name p = "") then
    raise (ValueError ("'" +:+ str p +:+ "' has an empty name"))
  else
    let n := name p in
    let stem := String.substring 0 (String.length n - String.length (suffix p)) n in
    ok {| root := root p; parts := removelast (parts p) ++ [stem +:+ sfx] |}.

(** [p.iterdir()] over the entry names [os.listdir(p)] gives: each
    name is appended to the components of [p] as it is. *)
Definition make_child (p : Path) (entry : string) : Path :=
  {| root := root p; parts := parts p ++ [entry] |}.

End PurePath.

Notation "p // q" := (PurePath.joinpath p q) (at level 40, left associativity).

(** ** Constants of [cookbook/globals.py] *)

Module Globals.
Section WithRoot.

(** [Path(__file__).parent.parent.parent.parent]: where the
    repository is checked out. *)
Variable OPENFF_DOCS_ROOT : Path.

Definition PACKAGED_ENV_NAME : Path := PurePath.of_string "environment.yaml".

Definition UNIVERSAL_ENV_PATH : Path :=
  OPENFF_DOCS_ROOT // PurePath.of_string "devtools/conda-envs/examples_env.yml".

Definition IGNORED_FILES : list string :=
  [".gitignore"; "Thumbs.db"; ".DS_Store"; "thumbnail.png"; "__pycache__"].

Definition GITHUB_REPOS : list string :=
  ["openforcefield/openff-toolkit"; "openforcefield/openff-interchange"].

Definition SRC_IPYNB_ROOT : Path :=
  OPENFF_DOCS_ROOT // PurePath.of_string "build/notebook-src".
Definition EXEC_IPYNB_ROOT : Path :=
  OPENFF_DOCS_ROOT // PurePath.of_string "source/notebooks".
Definition COLAB_IPYNB_ROOT : Path :=
  OPENFF_DOCS_ROOT // PurePath.of_string "source/_static/colab".
Definition ZIPPED_IPYNB_ROOT : Path :=
  OPENFF_DOCS_ROOT // PurePath.of_string "source/_static/examples".

End WithRoot.
End Globals.

(** ** Insertion-ordered dictionaries *)

(** A Python [dict] as the list of its items in insertion order. *)
Module Pydict.
Section Dict.
Context {K V : Type} `{EqDecision K}.

(** [d[k] = v]: an existing key keeps its place and takes the new
    value, a new key goes last. *)
Fixpoint set (k : K) (v : V) (d : list (K * V)) : list (K * V) :=
  match d with
  | [] => [(k, v)]
  | (k', v') :: d' =>
      if decide (k' = k) then (k, v) :: d' else (k', v') :: set k v d'
  end.

(** [d.get(k)]. *)
Fixpoint get (k : K) (d : list (K * V)) : option V :=
  match d with
  | [] => None
  | (k', v') :: d' => if decide (k' = k) then Some v' else get k d'
  end.

End Dict.
End Pydict.

(** ** The file-set resolver *)

Module Resolver.
Import PurePath Globals.
Local Open Scope result_scope.

Section Resolver.

Variable OPENFF_DOCS_ROOT : Path.

(** [cookbook.notebook.is_bare_notebook], which is not part of the
    sources at hand: any predicate on paths. *)
Variable is_bare_notebook : Path -> bool.

(** [os.listdir]: the entry names of a directory, in the order the
    operating system yields them. *)
Variable listdir : Path -> list string.

(** [p.iterdir()]. *)
Definition iterdir (p : Path) : list Path := make_child p <$> listdir p.

(** Lines 48-55. *)
Definition src_paths (notebook_path : Path) : list Path :=
  if is_bare_notebook notebook_path then [notebook_path]
  else filter (fun path => name path ∉ IGNORED_FILES)
              (iterdir (parent notebook_path)).

(** Lines 58-60, the dictionary comprehension; [relative_to] is
    evaluated path by path and the first failure is raised. *)
Fixpoint files_of (base : Path) (paths : list Path)
                  (files : list (Path * Path)) : result (list (Path * Path)) :=
  match paths with
  | [] => ok files
  | path :: rest =>
      rel <- relative_to path base ;;;
      files_of base rest (Pydict.set path rel files)
  end.

(** Lines 65-69, the condition of the second comprehension. *)
Definition is_candidate (path : Path) : result bool :=
  yaml <- with_suffix PACKAGED_ENV_NAME ".yaml" ;;;
  yml <- with_suffix PACKAGED_ENV_NAME ".yml" ;;;
  ok (bool_decide (of_string (name path) ∈ [yaml; yml])).

(** Lines 62-70. *)
Fixpoint environment_files_of (paths : list Path) : result (list Path) :=
  match paths with
  | [] => ok []
  | path :: rest =>
      keep <- is_candidate path ;;;
      envs <- environment_files_of rest ;;;
      ok (if keep : bool then path :: envs else envs)
  end.

(** The message of lines 86-90. *)
Definition ambiguous_message (environment_files : list Path) : string :=
  "Could not choose a Conda environment file from multiple candidates:"
  +:+ Str.concat ((fun path => Str.nl +:+ "  " +:+ str path) <$> environment_files)
  +:+ Str.nl +:+ "Name the intended Conda environment '"
  +:+ str PACKAGED_ENV_NAME +:+ "'.".

(** Lines 31-92. *)
Definition needed_files (notebook_path : Path) : result (list (Path * Path)) :=
  let src_paths := src_paths notebook_path in
  files <- files_of (parent notebook_path) src_paths [] ;;;
  environment_files <- environment_files_of src_paths ;;;
  match length environment_files with
  | 0 => ok (Pydict.set (UNIVERSAL_ENV_PATH OPENFF_DOCS_ROOT) PACKAGED_ENV_NAME files)
  | 1 =>
      match environment_files with
      | first :: _ => ok (Pydict.set first PACKAGED_ENV_NAME files)
      | [] => ok files
      end
  | _ =>
      if bool_decide (PACKAGED_ENV_NAME ∈ environment_files) then ok files
      else raise (ValueError (ambiguous_message environment_files))
  end.

(** *** Vocabulary of the resolution policy *)

(** A candidate environment file: a path whose name, read as a path,
    is one of the two accepted spellings (the test of lines 65-69). *)
Definition candidate (path : Path) : Prop :=
  of_string (name path) ∈
    [ {| root := false; parts := ["environment.yaml"] |};
      {| root := false; parts := ["environment.yml"] |} ].

(** A path that bears the canonical environment file name. *)
Definition canonically_named (path : Path) : Prop :=
  of_string (name path) = PACKAGED_ENV_NAME.

(** The candidates among the files that travel with a notebook. *)
Definition candidates (notebook_path : Path) : list Path :=
  filter candidate (src_paths notebook_path).

(** A notebook file: its name ends in [.ipynb]. *)
Definition is_ipynb (path : Path) : Prop :=
  exists stem, name path = stem +:+ ".ipynb".

End Resolver.

(** A checkout at [/docs] and a notebook directory under the source
    cache, used in the examples. *)
Module Sample.

Definition docs_root : Path := {| root := true; parts := ["docs"] |}.

Definition notebook_dir : Path :=
  SRC_IPYNB_ROOT docs_root // of_string "openforcefield/openff-toolkit/examples/demo".

Definition notebook : Path := notebook_dir // of_string "demo.ipynb".

Definition never_bare (_ : Path) : bool := false.

(** A directory that holds both spellings of the environment file. *)
Definition both_spellings (_ : Path) : list string :=
  ["demo.ipynb"; "environment.yaml"; "environment.yml"].

Definition only_yml (_ : Path) : list string :=
  ["demo.ipynb"; "molecule.sdf"; "environment.yml"].

Definition no_environment (_ : Path) : list string :=
  ["demo.ipynb"; "molecule.sdf"; "thumbnail.png"].

End Sample.

End Resolver.

(** ** Programs over a state *)

(** A command runs from a state to a result and a state; what it did
    before raising stays done. *)
Definition prog (S A : Type) : Type := S -> result A * S.

Module Prog.
Section Prog.
Context {S : Type}.

Definition ret {A} (x : A) : prog S A := fun s => (ok x, s).

Definition throw {A} (e : exn) : prog S A := fun s => (raise e, s).

Definition bind {A B} (c : prog S A) (k : A -> prog S B) : prog S B :=
  fun s =>
    match c s with
    | (inl e, s') => (inl e, s')
    | (inr x, s') => k x s'
    end.

(** A pure computation that may raise. *)
Definition lift {A} (r : result A) : prog S A := fun s => (r, s).

Definition get : prog S S := fun s => (ok s, s).

Definition modify (f : S -> S) : prog S unit := fun s => (ok tt, f s).

(** [for x in l: body(x)]. *)
Fixpoint for_each {A} (l : list A) (body : A -> prog S unit) : prog S unit :=
  match l with
  | [] => ret tt
  | x :: l' => bind (body x) (fun _ => for_each l' body)
  end.

(** [if b: body]. *)
Definition when (b : bool) (body : prog S unit) : prog S unit :=
  if b then body else ret tt.

End Prog.
End Prog.

Declare Scope prog_scope.
Delimit Scope prog_scope with prog.
Notation "x <- c ;; k" := (Prog.bind c (fun x => k))
  (at level 100, c at next level, right associativity) : prog_scope.
Notation "c ;; k" := (Prog.bind c (fun _ => k))
  (at level 100, right associativity) : prog_scope.

(** ** The file system *)

(** What a path leads to. *)
Inductive node : Type :=
  | File (content : string)
  | Directory.

Module Filesystem.
Import PurePath.
Local Open Scope prog_scope.

(** The paths that exist, each with what it leads to. *)
Abbreviation filesystem := (gmap Path node).

(** [Path.exists(p)]. *)
Definition exists_ (p : Path) (fs : filesystem) : bool :=
  bool_decide (is_Some (fs !! p)).

(** What is left when the tree rooted at [d] goes. *)
Definition without_tree (d : Path) (fs : filesystem) : filesystem :=
  filter (fun entry => is_under d entry.1 = false) fs.

(** [p.unlink()]. *)
Definition unlink (p : Path) : prog filesystem unit :=
  fun fs =>
    match fs !! p with
    | Some (File _) => (ok tt, delete p fs)
    | Some Directory => (raise (IsADirectoryError (str p)), fs)
    | None => (raise (FileNotFoundError (str p)), fs)
    end.

(** [shutil.rmtree(d)]. *)
Definition rmtree (d : Path) : prog filesystem unit :=
  fun fs =>
    match fs !! d with
    | Some Directory => (ok tt, without_tree d fs)
    | Some (File _) => (raise (NotADirectoryError (str d)), fs)
    | None => (raise (FileNotFoundError (str d)), fs)
    end.

(** [shutil.rmtree(d, ignore_errors=True)]. *)
Definition rmtree_ignore_errors (d : Path) : prog filesystem unit :=
  fun fs =>
    match fs !! d with
    | Some Directory => (ok tt, without_tree d fs)
    | _ => (ok tt, fs)
    end.

(** [open(p).read()]. *)
Definition read_text (p : Path) : prog filesystem string :=
  fun fs =>
    match fs !! p with
    | Some (File content) => (ok content, fs)
    | Some Directory => (raise (IsADirectoryError (str p)), fs)
    | None => (raise (FileNotFoundError (str p)), fs)
    end.

(** [open(p, "w").write(content)]: the directory of [p] has to be
    there, and [p] must not be a directory. *)
Definition write_text (p : Path) (content : string) : prog filesystem unit :=
  fun fs =>
    match fs !! parent p, fs !! p with
    | Some Directory, Some Directory => (raise (IsADirectoryError (str p)), fs)
    | Some Directory, _ => (ok tt, <[p := File content]> fs)
    | Some (File _), _ => (raise (NotADirectoryError (str p)), fs)
    | None, _ => (raise (FileNotFoundError (str p)), fs)
    end.

(** [d.mkdir(parents=True, exist_ok=True)], from the directory [base]
    down the components [names]: missing directories are made, a
    file in the way is an error. *)
Fixpoint mkdir_below (base : Path) (names : list string)
  : prog filesystem unit :=
  match names with
  | [] => Prog.ret tt
  | entry :: names' =>
      let d := make_child base entry in
      fun fs =>
        match fs !! d with
        | Some Directory => mkdir_below d names' fs
        | Some (File _) =>
            (raise (match names' with
                    | [] => FileExistsError (str d)
                    | _ => NotADirectoryError (str d)
                    end), fs)
        | None => mkdir_below d names' (<[d := Directory]> fs)
        end
  end.

Definition mkdir_parents (d : Path) : prog filesystem unit :=
  mkdir_below {| root := root d; parts := [] |} (parts d).

(** From [fs] to [fs'] nothing is created or changed, and only paths
    that satisfy [A] are removed. *)
Definition shrinks (A : Path -> Prop) (fs fs' : filesystem) : Prop :=
  forall p, fs' !! p = fs !! p \/ (fs' !! p = None /\ A p).

(** A command that, whether it returns or raises, removes nothing but
    paths that satisfy [A] and touches nothing else. *)
Definition only_removes {T} (A : Path -> Prop) (c : prog filesystem T) : Prop :=
  forall fs, shrinks A fs (c fs).2.

End Filesystem.

(** ** Cleaning up a removed notebook *)

Module Cleanup.
Import PurePath Globals Filesystem.
Local Open Scope prog_scope.

Section Cleanup.

Variable OPENFF_DOCS_ROOT : Path.

(** [cookbook.notebook.notebook_zip] and [notebook_colab], which are
    not part of the sources at hand: where the archive and the Colab
    copy of a notebook go; they may raise. *)
Variable notebook_zip : Path -> result Path.
Variable notebook_colab : Path -> result Path.

(** Lines 228-237. *)
Definition clean_up_notebook (notebook : Path) : prog filesystem unit :=
  zip <- Prog.lift (notebook_zip notebook) ;;
  unlink zip ;;
  colab <- Prog.lift (notebook_colab notebook) ;;
  rmtree (parent colab) ;;
  rel <- Prog.lift (relative_to notebook (SRC_IPYNB_ROOT OPENFF_DOCS_ROOT)) ;;
  let exec_notebook := EXEC_IPYNB_ROOT OPENFF_DOCS_ROOT // rel in
  unlink exec_notebook.

(** *** Vocabulary *)

(** The paths of the processed versions of a notebook: its archive,
    its Colab directory with all it holds, its executed copy. *)
Definition artifact (notebook p : Path) : Prop :=
  notebook_zip notebook = ok p \/
  (exists colab, notebook_colab notebook = ok colab /\
                 is_under (parent colab) p = true) \/
  (exists rel, relative_to notebook (SRC_IPYNB_ROOT OPENFF_DOCS_ROOT) = ok rel /\
               p = EXEC_IPYNB_ROOT OPENFF_DOCS_ROOT // rel).

(** The archive lies under the archive root and the Colab directory
    under the Colab root. *)
Definition in_output_roots (notebook : Path) : Prop :=
  (forall zip, notebook_zip notebook = ok zip ->
     is_under (ZIPPED_IPYNB_ROOT OPENFF_DOCS_ROOT) zip = true) /\
  (forall colab, notebook_colab notebook = ok colab ->
     is_under (COLAB_IPYNB_ROOT OPENFF_DOCS_ROOT) (parent colab) = true).

End Cleanup.

(** A layout of the outputs that mirrors the source cache, and a file
    system that holds a notebook with its three processed versions. *)
Module Sample.

Definition docs_root : Path := {| root := true; parts := ["docs"] |}.

Definition zip_of (notebook : Path) : result Path :=
  (rel <- relative_to notebook (SRC_IPYNB_ROOT docs_root) ;;;
   zipped <- with_suffix rel ".zip" ;;;
   ok (ZIPPED_IPYNB_ROOT docs_root // zipped))%result.

Definition colab_of (notebook : Path) : result Path :=
  (rel <- relative_to notebook (SRC_IPYNB_ROOT docs_root) ;;;
   ok (COLAB_IPYNB_ROOT docs_root // rel))%result.

Definition notebook : Path :=
  SRC_IPYNB_ROOT docs_root // of_string "repo/examples/demo/demo.ipynb".

Definition disk : filesystem :=
  list_to_map
    [ (notebook, File "source");
      (ZIPPED_IPYNB_ROOT docs_root // of_string "repo/examples/demo/demo.zip",
       File "archive");
      (COLAB_IPYNB_ROOT docs_root // of_string "repo/examples/demo", Directory);
      (COLAB_IPYNB_ROOT docs_root // of_string "repo/examples/demo/demo.ipynb",
       File "colab");
      (COLAB_IPYNB_ROOT docs_root // of_string "repo/examples/demo/environment.yaml",
       File "env");
      (EXEC_IPYNB_ROOT docs_root // of_string "repo/examples/demo/demo.ipynb",
       File "executed") ].

End Sample.

End Cleanup.

(** ** The latest release *)

Module Releases.
Local Open Scope result_scope.

(** What [requests.get] answered: whether [raise_for_status] passes,
    and the [tag_name] of each release of the decoded body. *)
Record response : Type := Response { status_ok : bool; tag_names : list string }.

(** The answers to a listing request: the first page, then the pages
    reached by following the [next] links, until a page has none. *)
Definition listing : Type := response * list response.

Section Releases.

(** [packaging.version.Version]: the parse of a tag, which raises
    [InvalidVersion], and the order [>] of parsed versions. *)
Context {K : Type}.
Variable Version : string -> result K.
Variable Version_gt : K -> K -> bool.

(** [requests.get] on the releases of a repository. *)
Variable releases : string -> listing.

(** Lines 220-223: follow the [next] links. *)
Fixpoint follow_next (pages : list response) (release_tags : list string)
  : result (list string) :=
  match pages with
  | [] => ok release_tags
  | r :: pages' =>
      if status_ok r then follow_next pages' (release_tags ++ tag_names r)
      else raise HTTPError
  end.

(** The loop of [max(iterable, key=...)]: a later item takes over
    only when its key is greater. *)
Fixpoint max_from (best : string) (best_key : K) (items : list string)
  : result string :=
  match items with
  | [] => ok best
  | item :: items' =>
      key <- Version item ;;;
      if Version_gt key best_key then max_from item key items'
      else max_from best best_key items'
  end.

(** [max(items, key=Version)]. *)
Definition max_by_Version (items : list string) : result string :=
  match items with
  | [] => raise (ValueError "max() arg is an empty sequence")
  | item :: items' => key <- Version item ;;; max_from item key items'
  end.

(** The address of lines 213-216. *)
Definition releases_url (repo : string) : string :=
  "https://api.github.com/repos/" +:+ repo +:+ "/releases".

(** Lines 209-225. *)
Definition get_stable_tagname (repo : string) : result string :=
  let '(r, pages) := releases (releases_url repo) in
  if status_ok r then
    release_tags <- follow_next pages (tag_names r) ;;;
    max_by_Version release_tags
  else raise HTTPError.

(** *** Vocabulary *)

(** The tags of all the pages of a listing. *)
Definition all_tags (l : listing) : list string :=
  tag_names l.1 ++ concat (tag_names <$> l.2).

(** Every page of the listing came with a success status. *)
Definition all_ok (l : listing) : Prop :=
  status_ok l.1 = true /\ Forall (fun r => status_ok r = true) l.2.

(** [>] is a strict order on versions. *)
Definition strict_order : Prop :=
  (forall a, Version_gt a a = false) /\
  (forall a b c, Version_gt a b = true -> Version_gt b c = true ->
                 Version_gt a c = true).

End Releases.

(** *** Final releases

    The tags of final releases, [N(.N)*] with an optional leading
    [v]: [Version] orders them by their release numbers, trailing
    zeros dropped.  Tags of other forms are outside this fragment of
    [packaging]; here they raise. *)

Definition digit (c : ascii) : option N :=
  let n := N_of_ascii c in
  if ((48 <=? n) && (n <=? 57))%N then Some (n - 48)%N else None.

Fixpoint number_from (acc : N) (s : string) : option N :=
  match s with
  | EmptyString => Some acc
  | String c s' =>
      match digit c with
      | Some d => number_from (10 * acc + d)%N s'
      | None => None
      end
  end.

Definition number (s : string) : option N :=
  match s with
  | EmptyString => None
  | _ => number_from 0%N s
  end.

Fixpoint numbers (pieces : list string) : option (list N) :=
  match pieces with
  | [] => Some []
  | piece :: pieces' =>
      match number piece, numbers pieces' with
      | Some n, Some ns => Some (n :: ns)
      | _, _ => None
      end
  end.

(** The release numbers without their trailing zeros. *)
Fixpoint strip_zeros (ns : list N) : list N :=
  match ns with
  | [] => []
  | n :: ns' =>
      match strip_zeros ns' with
      | [] => if (n =? 0)%N then [] else [n]
      | rest => n :: rest
      end
  end.

Definition release_Version (tag : string) : result (list N) :=
  let body :=
    match tag with
    | String "v" s | String "V" s => s
    | s => s
    end in
  match numbers (Str.split "." body) with
  | Some ns => ok (strip_zeros ns)
  | None => raise (InvalidVersion tag)
  end.

(** The order of Python tuples. *)
Fixpoint release_gt (a b : list N) : bool :=
  match a, b with
  | [], _ => false
  | _ :: _, [] => true
  | x :: a', y :: b' =>
      if (y <? x)%N then true
      else if (x =? y)%N then release_gt a' b'
      else false
  end.

(** One page that lists the releases [0.9.0] and [0.10.0]. *)
Definition two_releases (_ : string) : listing :=
  (Response true ["0.9.0"; "0.10.0"], []).

(** Three pages of releases. *)
Definition three_pages (_ : string) : listing :=
  (Response true ["0.11.4"; "v0.9.2"],
   [Response true ["0.10.6"; "0.14.0"]; Response true ["0.2"; "0.14"]]).

End Releases.

(** ** The world of the script *)

(** A notebook document: its cells, in order. *)
Inductive meta_value : Type :=
  | MetaStr (s : string)
  | MetaList (l : list string).

Record cell : Type := Cell {
  cell_type : string;
  source : list string;
  metadata : list (string * meta_value)
}.

Record notebook : Type := Notebook { cells : list cell }.

(** The calls the script makes to what lies outside it. *)
Inductive event : Type :=
  | Downloaded (repo refspec : string)
  | Searched (top : Path)
  | Cleared (output_root : Path)
  | CleanedUp (notebook_path : Path)
  | ColabCreated (notebook_path : Path)
  | Zipped (notebook_path : Path)
  | PoolMapped (notebook_paths : list Path)
  | Preprocessed (nb : notebook) (path : Path).

(** The file system and the calls made so far, oldest first. *)
Record world : Type := World { disk : Filesystem.filesystem; trace : list event }.

Module Script.
Import Filesystem.

(** A command on the file system, run as the call [ev]: the call is
    recorded whether it returns or raises. *)
Definition call {A} (ev : event) (c : prog filesystem A) : prog world A :=
  fun w =>
    let '(r, fs) := c (disk w) in
    (r, {| disk := fs; trace := trace w ++ [ev] |}).

(** A command on the file system that is not recorded. *)
Definition quiet {A} (c : prog filesystem A) : prog world A :=
  fun w =>
    let '(r, fs) := c (disk w) in
    (r, {| disk := fs; trace := trace w |}).

(** [try: c  except Exception: raise e]. *)
Definition reraise_as {S A} (e : exn) (c : prog S A) : prog S A :=
  fun s =>
    match c s with
    | (inl _, s') => (inl e, s')
    | (inr x, s') => (inr x, s')
    end.

(** The calls of [c] follow the plan: whatever the world, the calls
    it adds to the trace are the first calls of [plan], and all of
    them when [c] returns. *)
Definition follows {A} (plan : list event) (c : prog world A) : Prop :=
  forall w, exists T,
    trace (c w).2 = trace w ++ T /\
    T `prefix_of` plan /\
    (forall x, (c w).1 = ok x -> T = plan).

(** The calls that process a notebook. *)
Definition reprocessing (ev : event) : bool :=
  match ev with
  | ColabCreated _ | Zipped _ | PoolMapped _ | Preprocessed _ _ => true
  | _ => false
  end.

End Script.

(** ** The executor *)

Module Executor.
Import PurePath Globals Filesystem Script.
Local Open Scope prog_scope.

Section Executor.

Variable OPENFF_DOCS_ROOT : Path.

(** [nbformat.read] and [nbformat.write] on the text of a file. *)
Variable nbformat_read : string -> result notebook.
Variable nbformat_write : notebook -> string.

(** [ExecutePreprocessor(...).preprocess(nb, {"metadata": {"path": path}})]:
    the notebook as executed, or an exception; the code of the
    notebook runs in the directory [path]. *)
Variable preprocess : notebook -> Path -> prog filesystem notebook.

(** The arguments [cell_type] and [position] of
    [cookbook.notebook.insert_cell] when the caller gives none. *)
Variable default_cell_type : string.
Variable default_position : nat.

(** Modelled from the spec: [cookbook.notebook.insert_cell], which is
    not part of the sources at hand.  By sections 3 and 4.3 of the
    specification the notebook document is mutated by inserting
    cells, each at a fixed position; the value is the document the
    caller holds after the call. *)
Definition insert_cell (nb : notebook) (type : string) (position : nat)
    (src : list string) (meta : list (string * meta_value)) : notebook :=
  {| cells := take position (cells nb)
              ++ {| cell_type := type; source := src; metadata := meta |}
              :: drop position (cells nb) |}.

(** The cell of lines 171-175. *)
Definition thumbnail_cell : cell :=
  {| cell_type := default_cell_type;
     source := ["display(thumbnail.png)"];
     metadata := [("nbsphinx", MetaStr "hidden");
                  ("tags", MetaList ["nbsphinx-thumbnail"])] |}.

(** Lines 157-197; the messages printed are left out. *)
Definition execute_notebook (src : Path) : prog world unit :=
  src_rel <- Prog.lift (relative_to src (SRC_IPYNB_ROOT OPENFF_DOCS_ROOT)) ;;
  text <- quiet (read_text src) ;;
  nb <- Prog.lift (nbformat_read text) ;;
  thumbnail <- quiet (fun fs => (ok (exists_ (parent src // of_string "thumbnail.png") fs), fs)) ;;
  let nb :=
    if thumbnail : bool
    then insert_cell nb default_cell_type default_position
           (source thumbnail_cell) (metadata thumbnail_cell)
    else nb in
  executed <- reraise_as
                (ValueError ("Exception encountered while executing " +:+ str src_rel))
                (call (Preprocessed nb (parent src)) (preprocess nb (parent src))) ;;
  let dst := EXEC_IPYNB_ROOT OPENFF_DOCS_ROOT // src_rel in
  quiet (mkdir_parents (parent dst)) ;;
  quiet (write_text dst (nbformat_write executed)).

End Executor.

(** A notebook of one cell in the source cache, with and without a
    thumbnail next to it, and an engine that returns what it is given. *)
Module Sample.

Definition docs_root : Path := {| root := true; parts := ["docs"] |}.

Definition notebook_path : Path :=
  SRC_IPYNB_ROOT docs_root // of_string "repo/examples/demo/demo.ipynb".

Definition one_cell : notebook :=
  {| cells := [ {| cell_type := "code"; source := ["print(1)"]; metadata := [] |} ] |}.

Definition read (_ : string) : result notebook := ok one_cell.
Definition write (_ : notebook) : string := "executed".
Definition engine (nb : notebook) (_ : Path) : prog filesystem notebook :=
  Prog.ret nb.

Definition with_thumbnail : world :=
  {| disk := list_to_map
       [ (notebook_path, File "source");
         (parent notebook_path // of_string "thumbnail.png", File "png") ];
     trace := [] |}.

Definition without_thumbnail : world :=
  {| disk := list_to_map [ (notebook_path, File "source") ];
     trace := [] |}.

End Sample.

End Executor.

(** ** The orchestrator *)

Module Orchestrator.
Import PurePath Globals Filesystem Script.
Local Open Scope prog_scope.

(** Modelled from the spec: [cookbook.github.UpdatedNotebooks], which
    is not part of the sources at hand.  By section 3 of the
    specification an update report holds the notebooks to reprocess,
    the notebooks to clean up, and a flag that tells whether a full
    rebuild is required; [rebuild_all] is the truth value the script
    tests. *)
Record UpdatedNotebooks : Type := {
  rebuild_all : bool;
  reprocess : list Path;
  cleanup : list Path
}.

Section Orchestrator.

Variable OPENFF_DOCS_ROOT : Path.

(** The release listings and the versions of [get_stable_tagname]. *)
Context {K : Type}.
Variable Version : string -> result K.
Variable Version_gt : K -> K -> bool.
Variable releases : string -> Releases.listing.

(** [UpdatedNotebooks()] and [updates.extend(other)], the report
    after the call. *)
Variable no_updates : UpdatedNotebooks.
Variable extend : UpdatedNotebooks -> UpdatedNotebooks -> UpdatedNotebooks.

(** [cookbook.github.download_dir] and
    [cookbook.notebook.find_notebooks], which are not part of the
    sources at hand. *)
Variable download_dir :
  string -> string -> Path -> string -> prog filesystem UpdatedNotebooks.
Variable find_notebooks : Path -> prog filesystem (list Path).

Variable notebook_zip : Path -> result Path.
Variable notebook_colab : Path -> result Path.

(** What [create_colab_notebook] (lines 112-154) and [create_zip]
    (lines 95-109) do to the file system, with the work of [json],
    [yaml], [shutil] and [zipfile] in it. *)
Variable create_colab_notebook : Path -> prog filesystem unit.
Variable create_zip : Path -> prog filesystem unit.

(** What the pool of line 296 does to the file system:
    [execute_notebook] on every notebook it is given, in worker
    processes. *)
Variable pool_imap_unordered : list Path -> prog filesystem unit.

(** Lines 244-256. *)
Fixpoint fetch (repos : list string) (updates : UpdatedNotebooks)
  : prog world UpdatedNotebooks :=
  match repos with
  | [] => Prog.ret updates
  | repo :: repos' =>
      refspec <- Prog.lift
                   (Releases.get_stable_tagname Version Version_gt releases repo) ;;
      downloaded <- call (Downloaded repo refspec)
                      (download_dir repo "examples"
                         (SRC_IPYNB_ROOT OPENFF_DOCS_ROOT) refspec) ;;
      fetch repos' (extend updates downloaded)
  end.

(** Line 259. *)
Definition search : prog world (list Path) :=
  call (Searched (SRC_IPYNB_ROOT OPENFF_DOCS_ROOT))
    (find_notebooks (SRC_IPYNB_ROOT OPENFF_DOCS_ROOT)).

(** Lines 266-268. *)
Definition clear_outputs : prog world unit :=
  call (Cleared (EXEC_IPYNB_ROOT OPENFF_DOCS_ROOT))
    (rmtree_ignore_errors (EXEC_IPYNB_ROOT OPENFF_DOCS_ROOT)) ;;
  call (Cleared (COLAB_IPYNB_ROOT OPENFF_DOCS_ROOT))
    (rmtree_ignore_errors (COLAB_IPYNB_ROOT OPENFF_DOCS_ROOT)) ;;
  call (Cleared (ZIPPED_IPYNB_ROOT OPENFF_DOCS_ROOT))
    (rmtree_ignore_errors (ZIPPED_IPYNB_ROOT OPENFF_DOCS_ROOT)).

(** Lines 273-277: the set of the notebooks found, met with the
    notebooks to reprocess, as a list in the order of the set. *)
Definition changed_and_found (found : list Path) (updates : UpdatedNotebooks)
  : list Path :=
  elements ((list_to_set found : gset Path)
            ∩ list_to_set ((fun path => SRC_IPYNB_ROOT OPENFF_DOCS_ROOT // path)
                           <$> reprocess updates)).

(** Lines 260-280. *)
Definition select (redo_all : bool) (updates : UpdatedNotebooks)
    (found : list Path) : prog world (list Path) :=
  if rebuild_all updates || redo_all then
    clear_outputs ;;
    Prog.ret found
  else
    let notebooks := changed_and_found found updates in
    Prog.for_each (cleanup updates)
      (fun notebook =>
         call (CleanedUp notebook)
           (Cleanup.clean_up_notebook OPENFF_DOCS_ROOT notebook_zip notebook_colab
              notebook)) ;;
    Prog.ret notebooks.

(** Lines 283-296. *)
Definition package_and_execute (do_proc do_exec : bool) (notebooks : list Path)
  : prog world unit :=
  Prog.when do_proc
    (Prog.for_each notebooks
       (fun notebook =>
          call (ColabCreated notebook) (create_colab_notebook notebook) ;;
          call (Zipped notebook) (create_zip notebook))) ;;
  Prog.when do_exec
    (call (PoolMapped notebooks) (pool_imap_unordered notebooks)).

(** Lines 240-296; the messages printed are left out. *)
Definition main (do_proc do_exec redo_all : bool) : prog world unit :=
  updates <- fetch GITHUB_REPOS no_updates ;;
  found <- search ;;
  notebooks <- select redo_all updates found ;;
  package_and_execute do_proc do_exec notebooks.

(** *** Vocabulary *)

(** The calls that package and execute the given notebooks. *)
Definition planned (do_proc do_exec : bool) (notebooks : list Path) : list event :=
  (if do_proc
   then concat ((fun notebook => [ColabCreated notebook; Zipped notebook])
                <$> notebooks)
   else [])
  ++ (if do_exec then [PoolMapped notebooks] else []).

(** The three calls that clear the output roots. *)
Definition clearing : list event :=
  [ Cleared (EXEC_IPYNB_ROOT OPENFF_DOCS_ROOT);
    Cleared (COLAB_IPYNB_ROOT OPENFF_DOCS_ROOT);
    Cleared (ZIPPED_IPYNB_ROOT OPENFF_DOCS_ROOT) ].

End Orchestrator.

(** A run in which the fetcher reports one changed and one removed
    notebook, and a run in which it asks for a full rebuild. *)
Module Sample.

Definition docs_root : Path := {| root := true; parts := ["docs"] |}.

Definition changed : Path := of_string "repo/examples/new/new.ipynb".
Definition removed : Path :=
  SRC_IPYNB_ROOT docs_root // of_string "repo/examples/demo/demo.ipynb".

Definition nothing : UpdatedNotebooks :=
  {| rebuild_all := false; reprocess := []; cleanup := [] |}.

Definition merge (a b : UpdatedNotebooks) : UpdatedNotebooks :=
  {| rebuild_all := rebuild_all a || rebuild_all b;
     reprocess := reprocess a ++ reprocess b;
     cleanup := cleanup a ++ cleanup b |}.

(** The toolkit repository reports the change and the removal. *)
Definition download (rebuild : bool) (repo _ : string) (_ : Path) (_ : string)
  : prog filesystem UpdatedNotebooks :=
  Prog.ret (if bool_decide (repo = "openforcefield/openff-toolkit")
            then {| rebuild_all := rebuild;
                    reprocess := [changed]; cleanup := [removed] |}
            else nothing).

Definition find (_ : Path) : prog filesystem (list Path) :=
  Prog.ret [ SRC_IPYNB_ROOT docs_root // changed;
             SRC_IPYNB_ROOT docs_root // of_string "repo/examples/old/old.ipynb" ].

Definition do_nothing (_ : Path) : prog filesystem unit := Prog.ret tt.
Definition pool (_ : list Path) : prog filesystem unit := Prog.ret tt.

Definition start : world := {| disk := Cleanup.Sample.disk; trace := [] |}.

(** What the two downloads add up to. *)
Definition fetched (rebuild : bool) : UpdatedNotebooks :=
  merge (merge nothing
           {| rebuild_all := rebuild; reprocess := [changed]; cleanup := [removed] |})
        nothing.

Definition found : list Path :=
  [ SRC_IPYNB_ROOT docs_root // changed;
    SRC_IPYNB_ROOT docs_root // of_string "repo/examples/old/old.ipynb" ].

Definition after_fetch : world :=
  {| disk := disk start;
     trace := [ Downloaded "openforcefield/openff-toolkit" "0.14.0";
                Downloaded "openforcefield/openff-interchange" "0.14.0" ] |}.

Definition after_search : world :=
  {| disk := disk start;
     trace := trace after_fetch ++ [Searched (SRC_IPYNB_ROOT docs_root)] |}.

Definition run (rebuild do_proc do_exec redo_all : bool) : prog world unit :=
  main docs_root Releases.release_Version Releases.release_gt Releases.three_pages
    nothing merge (download rebuild) find Cleanup.Sample.zip_of Cleanup.Sample.colab_of
    do_nothing do_nothing pool do_proc do_exec redo_all.

End Sample.

End Orchestrator.

(** ** Orders of versions, continued *)

Module ReleasesOrder.

(** [>] is a strict weak order: what exceeds [b] exceeds [c] or is
    exceeded by nothing that [c] does not exceed; versions that do not
    exceed one another count as equal. *)
Definition weak_order {K} (Version_gt : K -> K -> bool) : Prop :=
  Releases.strict_order Version_gt /\
  (forall a b c, Version_gt a b = true ->
                 Version_gt a c = true \/ Version_gt c b = true).

End ReleasesOrder.

(** ** The executor, continued *)

Module ExecutorTerms.
Import Executor.

(** The notebook [execute_notebook] hands to the engine (lines
    170-175): the notebook as read, with the thumbnail cell when a
    thumbnail is there. *)
Definition handed_over (default_cell_type : string) (default_position : nat)
    (thumbnail : bool) (original : notebook) : notebook :=
  if thumbnail
  then insert_cell original default_cell_type default_position
         (source (thumbnail_cell default_cell_type))
         (metadata (thumbnail_cell default_cell_type))
  else original.

(** The message of line 189. *)
Definition failure_message (src_rel : Path) : string :=
  "Exception encountered while executing " +:+ PurePath.str src_rel.

End ExecutorTerms.

(** ** Calls, continued *)

Module ScriptTerms.

(** Every call [c] adds to the trace satisfies [E], whether [c]
    returns or raises. *)
Definition emits {A} (E : event -> Prop) (c : prog world A) : Prop :=
  forall w, exists T, trace (c w).2 = trace w ++ T /\ Forall E T.

(** A download. *)
Definition download (ev : event) : Prop :=
  exists repo refspec, ev = Downloaded repo refspec.

(** What the flags of [main] allow: packaging only with [do_proc],
    the pool only with [do_exec], and no call of the engine by [main]
    itself. *)
Definition allowed (do_proc do_exec : bool) (ev : event) : Prop :=
  match ev with
  | ColabCreated _ | Zipped _ => do_proc = true
  | PoolMapped _ => do_exec = true
  | Preprocessed _ _ => False
  | _ => True
  end.

End ScriptTerms.

(** ** The archiver *)

Module Archiver.
Import PurePath Globals Filesystem.
Local Open Scope prog_scope.

(** A member of an archive: its name and its data. *)
Definition member : Type := (string * string)%type.

Section Archiver.

Variable OPENFF_DOCS_ROOT : Path.
Variable is_bare_notebook : Path -> bool.
Variable listdir : Path -> list string.
Variable notebook_zip : Path -> result Path.

(** [zipfile]: the bytes of the archive that holds the given members,
    in order. *)
Variable zip_bytes : list member -> string.

(** [zip_file.write(path, arcname=arcname)]: a file gives a member
    with its data, a directory a member without data whose name ends
    in a separator, a path that is not there raises. *)
Definition zip_member (path arcname : Path) (fs : filesystem) : result member :=
  match fs !! path with
  | Some (File data) => ok (str arcname, data)
  | Some Directory => ok (str arcname +:+ "/", "")
  | None => raise (FileNotFoundError (str path))
  end.

(** Lines 108-109: the loop stops at the first path that raises, with
    the members written so far. *)
Fixpoint zip_write_all (files : list (Path * Path)) (fs : filesystem)
    (members : list member) : result unit * list member :=
  match files with
  | [] => (ok tt, members)
  | (path, arcname) :: rest =>
      match zip_member path arcname fs with
      | inl e => (inl e, members)
      | inr m => zip_write_all rest fs (members ++ [m])
      end
  end.

(** Lines 95-109.  [ZipFile(mode="w")] truncates the file when it is
    opened, before [needed_files] is called, and the [with] block
    closes the archive with the members written so far, also when the
    block raises. *)
Definition create_zip (notebook_path : Path) : prog filesystem unit :=
  zip_path <- Prog.lift (notebook_zip notebook_path) ;;
  mkdir_parents (parent zip_path) ;;
  write_text zip_path "" ;;
  fun fs =>
    let '(r, members) :=
      match Resolver.needed_files OPENFF_DOCS_ROOT is_bare_notebook listdir
              notebook_path with
      | inl e => (inl e, [])
      | inr files => zip_write_all files fs []
      end in
    match write_text zip_path (zip_bytes members) fs with
    | (inl e, fs') => (inl e, fs')
    | (inr _, fs') => (r, fs')
    end.

(** *** Vocabulary *)

(** The member a pair of the file set gives on a file system that
    holds its source. *)
Definition member_of (fs : filesystem) (entry : Path * Path) : member :=
  match fs !! entry.1 with
  | Some Directory => (str entry.2 +:+ "/", "")
  | Some (File data) => (str entry.2, data)
  | None => (str entry.2, "")
  end.

End Archiver.

(** An archive format for the examples: the names of the members. *)
Module Sample.

Definition names (members : list member) : string :=
  Str.join "," (fst <$> members).

Definition disk : filesystem :=
  list_to_map
    [ ({| root := true; parts := ["docs"] |} // of_string "devtools/conda-envs/examples_env.yml",
       File "env");
      (Resolver.Sample.notebook, File "notebook");
      (Resolver.Sample.notebook_dir // of_string "molecule.sdf", File "sdf");
      (Resolver.Sample.notebook_dir // of_string "thumbnail.png", File "png");
      (ZIPPED_IPYNB_ROOT Resolver.Sample.docs_root // of_string "demo.zip",
       File "previous archive");
      (ZIPPED_IPYNB_ROOT Resolver.Sample.docs_root, Directory) ].

Definition zip_of (_ : Path) : result Path :=
  ok (ZIPPED_IPYNB_ROOT Resolver.Sample.docs_root // of_string "demo.zip").

End Sample.

End Archiver.

(** ** The command line *)

Module CommandLine.

Section CommandLine.

Variable OPENFF_DOCS_ROOT : Path.
Context {K : Type}.
Variable Version : string -> result K.
Variable Version_gt : K -> K -> bool.
Variable releases : string -> Releases.listing.
Variable no_updates : Orchestrator.UpdatedNotebooks.
Variable extend :
  Orchestrator.UpdatedNotebooks -> Orchestrator.UpdatedNotebooks ->
  Orchestrator.UpdatedNotebooks.
Variable download_dir :
  string -> string -> Path -> string ->
  prog Filesystem.filesystem Orchestrator.UpdatedNotebooks.
Variable find_notebooks : Path -> prog Filesystem.filesystem (list Path).
Variable notebook_zip : Path -> result Path.
Variable notebook_colab : Path -> result Path.
Variable create_colab_notebook : Path -> prog Filesystem.filesystem unit.
Variable create_zip : Path -> prog Filesystem.filesystem unit.
Variable pool_imap_unordered : list Path -> prog Filesystem.filesystem unit.

(** Lines 299-310, for the arguments [sys.argv]; the environment
    variable of line 304 acts on the notebooks the engine runs and is
    not part of the world. *)
Definition script (argv : list string) : prog world unit :=
  Orchestrator.main OPENFF_DOCS_ROOT Version Version_gt releases no_updates extend
    download_dir find_notebooks notebook_zip notebook_colab
    create_colab_notebook create_zip pool_imap_unordered
    (negb (bool_decide ("--skip-proc" ∈ argv)))
    (negb (bool_decide ("--skip-exec" ∈ argv)))
    (bool_decide ("--redo-all" ∈ argv)).

End CommandLine.

(** The flags the script knows. *)
Definition flags : list string := ["--skip-proc"; "--skip-exec"; "--redo-all"].

End CommandLine.

(** ** The Colab bundle *)

Module Colab.
Import PurePath Globals Filesystem.
Local Open Scope prog_scope.

(** Every path keeps its kind from [fs] to [fs']: a directory stays a
    directory and a file stays a file, whatever becomes of its text. *)
Definition grows (fs fs' : filesystem) : Prop :=
  forall p,
    match fs !! p with
    | Some Directory => fs' !! p = Some Directory
    | Some (File _) => exists data, fs' !! p = Some (File data)
    | None => True
    end.

(** From [fs] to [fs'] nothing changes but for directories that are
    new. *)
Definition only_new_directories (fs fs' : filesystem) : Prop :=
  forall p, fs' !! p = fs !! p \/ (fs !! p = None /\ fs' !! p = Some Directory).

(** Where [shutil.copy] writes: into [dst] under the name of [src]
    when [dst] is a directory, to [dst] otherwise. *)
Definition copy_target (src dst : Path) (fs : filesystem) : Path :=
  match fs !! dst with
  | Some Directory => if bool_decide (name src = "") then dst else make_child dst (name src)
  | _ => dst
  end.

(** [shutil.copy(src, dst)] on a file system without links: copying a
    path onto itself is refused, then the source is opened for
    reading, then the target for writing.  The permission bits, which
    it copies as well, are not part of the file system here. *)
Definition copy (src dst : Path) : prog filesystem unit :=
  fun fs =>
    let target := copy_target src dst fs in
    match fs !! src with
    | Some node =>
        if bool_decide (src = target)
        then (raise (ExternalError "shutil.SameFileError"), fs)
        else match node with
             | File data => write_text target data fs
             | Directory => (raise (IsADirectoryError (str src)), fs)
             end
    | None => (raise (FileNotFoundError (str src)), fs)
    end.

Section Colab.

Variable OPENFF_DOCS_ROOT : Path.
Variable is_bare_notebook : Path -> bool.
Variable listdir : Path -> list string.

(** [cookbook.notebook.notebook_colab], which is not part of the
    sources at hand: any function on paths that may raise. *)
Variable notebook_colab : Path -> result Path.

(** [json.load] and [json.dump] on the text of a notebook. *)
Variable json_load : string -> result notebook.
Variable json_dump : notebook -> string.

(** The arguments [position] and [metadata] of
    [cookbook.notebook.insert_cell] when the caller gives none. *)
Variable default_position : nat.
Variable default_metadata : list (string * meta_value).

(** Lines 142-147 on the text of the environment file:
    [yaml.safe_load], the test for a name and, when there is one,
    [yaml.dump] of the document without it; [None] when the document
    has no name and the file is left as it is.  Whatever raises does so
    before anything is written. *)
Variable without_name : string -> result (option string).

(** The cell of lines 123-133. *)
Definition install_cell : cell :=
  {| cell_type := "code";
     source := [ "# Execute this cell to make this notebook's dependencies available";
                 "!pip install -q condacolab";
                 "import condacolab";
                 "condacolab.install_mambaforge()";
                 "!mamba env update -q -n base -f " +:+ str PACKAGED_ENV_NAME ];
     metadata := default_metadata |}.

(** Lines 120-133: the document [insert_cell] returns. *)
Definition with_install_cell (nb : notebook) : notebook :=
  Executor.insert_cell nb (cell_type install_cell) default_position
    (source install_cell) (metadata install_cell).

(** Lines 141-147: the file is opened for update, so it has to be
    there, and is rewritten in place. *)
Definition strip_name (env_path : Path) : prog filesystem unit :=
  fun fs =>
    match fs !! env_path with
    | Some (File text) =>
        match without_name text with
        | inl e => (inl e, fs)
        | inr None => (ok tt, fs)
        | inr (Some text') => (ok tt, <[env_path := File text']> fs)
        end
    | Some Directory => (raise (IsADirectoryError (str env_path)), fs)
    | None => (raise (FileNotFoundError (str env_path)), fs)
    end.

(** Lines 137-138. *)
Definition copy_all (files : list (Path * Path)) (bundle : Path)
    : prog filesystem unit :=
  Prog.for_each files (fun entry => copy entry.1 (bundle // entry.2)).

(** Lines 112-154. *)
Definition create_colab_notebook (src : Path) : prog filesystem unit :=
  text <- read_text src ;;
  nb <- Prog.lift (json_load text) ;;
  let nb := with_install_cell nb in
  dst <- Prog.lift (notebook_colab src) ;;
  mkdir_parents (parent dst) ;;
  files <- Prog.lift (Resolver.needed_files OPENFF_DOCS_ROOT is_bare_notebook
                        listdir src) ;;
  copy_all files (parent dst) ;;
  strip_name (parent dst // PACKAGED_ENV_NAME) ;;
  write_text dst (json_dump nb).

End Colab.

(** A notebook with a data file and a directory of inputs next to it,
    and a bundle directory that holds a file of an earlier run. *)
Module Sample.

Definition bundle : Path :=
  COLAB_IPYNB_ROOT Resolver.Sample.docs_root // of_string "demo".

Definition colab_of (_ : Path) : result Path := ok (bundle // of_string "demo.ipynb").

Definition with_inputs (_ : Path) : list string :=
  ["demo.ipynb"; "molecule.sdf"; "inputs"].

Definition load (_ : string) : result notebook :=
  ok {| cells := [ {| cell_type := "code"; source := ["print(1)"]; metadata := [] |} ] |}.

Definition dump (nb : notebook) : string :=
  Str.join "," (cell_type <$> cells nb).

(** The one environment with a name is the universal one. *)
Definition unnamed (text : string) : result (option string) :=
  ok (if bool_decide (text = "name: examples") then Some "{}" else None).

Definition disk : filesystem :=
  list_to_map
    [ (Resolver.Sample.docs_root // of_string "devtools/conda-envs/examples_env.yml",
       File "name: examples");
      (Resolver.Sample.notebook, File "notebook");
      (Resolver.Sample.notebook_dir // of_string "molecule.sdf", File "sdf");
      (Resolver.Sample.notebook_dir // of_string "inputs", Directory);
      (bundle // of_string "stale.txt", File "stale") ].

End Sample.

End Colab.

(** * Properties *)

(** ** Strings and paths *)

Module StrFacts.
Import Str.

Lemma append_cons a s t : String a s +:+ t = String a (s +:+ t).
Proof. reflexivity. Qed.







Lemma last_char_app s t : t <> "" -> last_char (s +:+ t) = last_char t.
Proof.
  intros Ht. induction s as [|a s IH]; [reflexivity|].
  rewrite append_cons. cbn [last_char]. rewrite IH.
  destruct (s +:+ t) eqn:E; [|done].
  destruct s; [|discriminate]. by destruct t.
Qed.

(** A string without the separator is a single piece. *)
Lemma split_no_sep c t : rfind c t = None -> split c t = [t].
Proof.
  induction t as [|a t IH]; [reflexivity|]. cbn [rfind split].
  destruct (rfind c t); [discriminate|].
  destruct (Ascii.eqb a c); [discriminate|]. intros _. by rewrite IH.
Qed.

(** Text without the separator, put after a string, extends its last
    piece. *)
Lemma split_app_no_sep c s t :
  rfind c t = None ->
  exists init piece,
    split c s = init ++ [piece] /\ split c (s +:+ t) = init ++ [piece +:+ t].
Proof.
  intros Ht. induction s as [|a s (init & piece & Hs & Hst)].
  - exists [], "". split; [reflexivity|]. by apply split_no_sep.
  - rewrite append_cons. cbn [split]. rewrite Hs, Hst.
    destruct (Ascii.eqb a c).
    + by exists ("" :: init), piece.
    + destruct init as [|w init]; cbn [app].
      * by exists [], (String a piece).
      * by exists (String a w :: init), piece.
Qed.

End StrFacts.

Module PurePathFacts.
Import PurePath.

Lemma take_removelast {A} (l : list A) :
  take (length (removelast l)) l = removelast l.
Proof.
  induction l as [|a [|b l] IH]; [done..|].
  change (removelast (a :: b :: l)) with (a :: removelast (b :: l)).
  cbn [length take]. by rewrite IH.
Qed.

(** A path lies under its parent. *)
Lemma is_under_parent p : is_under (parent p) p = true.
Proof.
  unfold is_under, parent; cbn [root parts].
  rewrite take_removelast. by rewrite !bool_decide_eq_true_2.
Qed.

(** An entry of a directory lies under the directory. *)
Lemma is_under_make_child p entry : is_under p (make_child p entry) = true.
Proof.
  unfold is_under, make_child; cbn [root parts].
  rewrite take_app_length. by rewrite !bool_decide_eq_true_2.
Qed.

Lemma relative_to_ok p other rel :
  relative_to p other = ok rel ->
  is_under other p = true /\
  rel = {| root := false; parts := drop (length (parts other)) (parts p) |}.
Proof.
  unfold relative_to. destruct (is_under other p); [|discriminate].
  intros [= <-]. done.
Qed.

(** Two paths under the same directory with the same relative path
    are the same path. *)
Lemma relative_to_inj p q other rel :
  relative_to p other = ok rel -> relative_to q other = ok rel -> p = q.
Proof.
  intros [Hp ->]%relative_to_ok [Hq [= Hd]]%relative_to_ok.
  unfold is_under in Hp, Hq.
  apply andb_true_iff in Hp as [Hp1%bool_decide_eq_true Hp2%bool_decide_eq_true].
  apply andb_true_iff in Hq as [Hq1%bool_decide_eq_true Hq2%bool_decide_eq_true].
  destruct p as [rp lp], q as [rq lq]; cbn [root parts] in *.
  f_equal; [congruence|].
  rewrite <- (take_drop (length (parts other)) lp).
  rewrite <- (take_drop (length (parts other)) lq). congruence.
Qed.

Lemma relative_to_make_child p entry :
  relative_to (make_child p entry) p = ok {| root := false; parts := [entry] |}.
Proof.
  unfold relative_to. rewrite is_under_make_child.
  unfold make_child; cbn [parts]. by rewrite drop_app_length.
Qed.

Lemma is_under_spec other p :
  is_under other p = true <->
  root p = root other /\ exists rest, parts p = parts other ++ rest.
Proof.
  unfold is_under. rewrite andb_true_iff, !bool_decide_eq_true. split.
  - intros [Hr Ht]. split; [done|]. exists (drop (length (parts other)) (parts p)).
    rewrite <- Ht at 1. by rewrite take_drop.
  - intros [Hr [rest ->]]. split; [done|]. by rewrite take_app_length.
Qed.

Lemma is_under_trans a b c :
  is_under a b = true -> is_under b c = true -> is_under a c = true.
Proof.
  rewrite !is_under_spec. intros [Hab [r1 H1]] [Hbc [r2 H2]]. split; [congruence|].
  exists (r1 ++ r2). by rewrite H2, H1, <- app_assoc.
Qed.

(** What is joined to a directory lies under it. *)
Lemma is_under_joinpath base rel :
  root rel = false -> is_under base (base // rel) = true.
Proof.
  intros Hrel. apply is_under_spec. unfold joinpath. rewrite Hrel. cbn [root parts].
  split; [done|]. by exists (parts rel).
Qed.

(** Two directories of a common base whose first components differ
    have nothing in common below them. *)
Lemma is_under_apart base x a y b p :
  is_under (base // {| root := false; parts := x :: a |}) p = true ->
  is_under (base // {| root := false; parts := y :: b |}) p = true ->
  x = y.
Proof.
  rewrite !is_under_spec. unfold joinpath; cbn [root parts].
  intros [_ [r1 H1]] [_ [r2 H2]]. rewrite H1, <- !app_assoc in H2.
  apply app_inv_head in H2. by injection H2.
Qed.

(** One directory of a base under another: the components of the
    first continue those of the second. *)
Lemma is_under_joinpath_inv base a b :
  is_under (base // {| root := false; parts := a |})
           (base // {| root := false; parts := b |}) = true ->
  a `prefix_of` b.
Proof.
  rewrite is_under_spec. unfold joinpath; cbn [root parts].
  intros [_ [rest Hrest]]. rewrite <- app_assoc in Hrest.
  apply app_inv_head in Hrest. by exists rest.
Qed.

(** The same one level further down. *)
Lemma is_under_apart_second base x y a z b p :
  is_under (base // {| root := false; parts := x :: y :: a |}) p = true ->
  is_under (base // {| root := false; parts := x :: z :: b |}) p = true ->
  y = z.
Proof.
  rewrite !is_under_spec. unfold joinpath; cbn [root parts].
  intros [_ [r1 H1]] [_ [r2 H2]]. rewrite H1, <- !app_assoc in H2.
  apply app_inv_head in H2. by injection H2.
Qed.

End PurePathFacts.

(** ** Dictionaries *)

Module PydictFacts.
Section Dict.
Context {K V : Type} `{EqDecision K}.
Implicit Types (d : list (K * V)).

Lemma elem_of_set k v d : (k, v) ∈ Pydict.set k v d.
Proof.
  induction d as [|[k' v'] d IH]; cbn [Pydict.set]; [by left|].
  case_decide; [by left | by right].
Qed.

Lemma get_set k v d : Pydict.get k (Pydict.set k v d) = Some v.
Proof.
  induction d as [|[k' v'] d IH]; cbn [Pydict.set Pydict.get].
  - by rewrite decide_True.
  - case_decide; cbn [Pydict.get]; [by rewrite decide_True | by rewrite decide_False].
Qed.

Lemma keys_set k v d :
  fst <$> Pydict.set k v d = fst <$> d \/
  (k ∉ fst <$> d) /\ fst <$> Pydict.set k v d = (fst <$> d) ++ [k].
Proof.
  induction d as [|[k' v'] d IH]; cbn [Pydict.set].
  - right. split; [apply not_elem_of_nil | done].
  - case_decide as Hk; [subst; by left|].
    destruct IH as [IH|[Hni IH]]; cbn [fmap list_fmap fst].
    + left. cbn in IH |- *. by rewrite IH.
    + right. split.
      * cbn. rewrite elem_of_cons. intros [?|?]; [congruence | done].
      * cbn in IH |- *. by rewrite IH.
Qed.

(** Keys stay distinct. *)
Lemma NoDup_keys_set k v d : NoDup d.*1 -> NoDup (Pydict.set k v d).*1.
Proof.
  intros Hd. destruct (keys_set k v d) as [->|[Hni ->]]; [done|].
  apply NoDup_app. split_and!; [done| |apply NoDup_singleton].
  intros x Hx ->%list_elem_of_singleton. done.
Qed.

(** An item of the updated dictionary is the new one, or an old one
    under another key. *)
Lemma elem_of_set_inv k v k' v' d :
  NoDup d.*1 -> (k', v') ∈ Pydict.set k v d ->
  (k' = k /\ v' = v) \/ (k' <> k /\ (k', v') ∈ d).
Proof.
  induction d as [|[k0 v0] d IH]; cbn [Pydict.set]; intros Hnd Hin.
  - apply list_elem_of_singleton in Hin as [= -> ->]. by left.
  - cbn in Hnd. apply NoDup_cons in Hnd as [Hk0 Hnd].
    case_decide as Hk; subst.
    + apply elem_of_cons in Hin as [[= -> ->]|Hin]; [by left|].
      right. split; [|by right].
      intros ->. apply Hk0. apply list_elem_of_fmap. by exists (k, v').
    + apply elem_of_cons in Hin as [[= -> ->]|Hin].
      * right. split; [done | by left].
      * destruct (IH Hnd Hin) as [?|[? ?]]; [by left|].
        right. split; [done | by right].
Qed.

End Dict.
End PydictFacts.

(** ** The file-set resolver *)

Module ResolverFacts.
Import PurePath Globals Resolver PurePathFacts PydictFacts StrFacts.

Section Facts.
Variable OPENFF_DOCS_ROOT : Path.
Variable is_bare_notebook : Path -> bool.
Variable listdir : Path -> list string.

Abbreviation src_paths := (src_paths is_bare_notebook listdir).
Abbreviation candidates := (candidates is_bare_notebook listdir).
Abbreviation needed_files := (needed_files OPENFF_DOCS_ROOT is_bare_notebook listdir).

(** Every file that travels with a notebook lies under the directory
    of the notebook. *)
Lemma src_paths_under notebook_path path :
  path ∈ src_paths notebook_path ->
  is_under (parent notebook_path) path = true.
Proof.
  unfold Resolver.src_paths. destruct (is_bare_notebook notebook_path).
  - intros ->%list_elem_of_singleton. apply is_under_parent.
  - intros [_ Hin]%list_elem_of_filter. unfold iterdir in Hin.
    apply list_elem_of_fmap in Hin as (entry & -> & _).
    apply is_under_make_child.
Qed.

(** The comprehension of lines 58-60 succeeds on paths under the
    base; its items are those it started from and pairs of a path
    with its relative path, under distinct keys. *)
Lemma files_of_ok base paths files :
  (forall path, path ∈ paths -> is_under base path = true) ->
  NoDup files.*1 ->
  (forall k v, (k, v) ∈ files -> relative_to k base = ok v) ->
  exists files', files_of base paths files = ok files' /\
    NoDup files'.*1 /\
    (forall k v, (k, v) ∈ files' -> relative_to k base = ok v).
Proof.
  revert files. induction paths as [|path rest IH]; intros files Hu Hnd Hf.
  - by exists files.
  - cbn [files_of]. unfold relative_to at 1.
    rewrite (Hu path) by by left. cbn [rbind ok].
    apply IH.
    + intros p Hp. apply Hu. by right.
    + by apply NoDup_keys_set.
    + intros k v Hin. apply elem_of_set_inv in Hin as [[-> ->]|[_ Hin]]; [| |done].
      * unfold relative_to. by rewrite (Hu path) by by left.
      * by apply Hf.
Qed.

Lemma with_suffix_yaml :
  with_suffix PACKAGED_ENV_NAME ".yaml"
  = ok {| root := false; parts := ["environment.yaml"] |}.
Proof. reflexivity. Qed.

Lemma with_suffix_yml :
  with_suffix PACKAGED_ENV_NAME ".yml"
  = ok {| root := false; parts := ["environment.yml"] |}.
Proof. reflexivity. Qed.

Lemma is_candidate_decide path :
  is_candidate path = ok (bool_decide (candidate path)).
Proof.
  unfold is_candidate. rewrite with_suffix_yaml, with_suffix_yml. reflexivity.
Qed.

(** Lines 62-70 select the candidates, in order. *)
Lemma environment_files_of_filter paths :
  environment_files_of paths = ok (filter candidate paths).
Proof.
  induction paths as [|path rest IH]; [reflexivity|].
  cbn [environment_files_of]. rewrite is_candidate_decide, IH. cbn [rbind ok].
  rewrite filter_cons. unfold bool_decide. by destruct (decide_rel _ _ _).
Qed.

(** The resolver as a case distinction on the candidates. *)
Lemma needed_files_cases notebook_path :
  exists files,
    files_of (parent notebook_path) (src_paths notebook_path) [] = ok files /\
    NoDup files.*1 /\
    (forall k v, (k, v) ∈ files -> relative_to k (parent notebook_path) = ok v) /\
    needed_files notebook_path =
      match candidates notebook_path with
      | [] => ok (Pydict.set (UNIVERSAL_ENV_PATH OPENFF_DOCS_ROOT)
                             PACKAGED_ENV_NAME files)
      | [first] => ok (Pydict.set first PACKAGED_ENV_NAME files)
      | envs =>
          if bool_decide (PACKAGED_ENV_NAME ∈ envs) then ok files
          else raise (ValueError (ambiguous_message envs))
      end.
Proof.
  destruct (files_of_ok (parent notebook_path) (src_paths notebook_path) [])
    as (files & Hfiles & Hnd & Hrel).
  { apply src_paths_under. }
  { constructor. }
  { intros k v Hin. by apply elem_of_nil in Hin. }
  exists files. split_and!; [done..|].
  unfold Resolver.needed_files. rewrite Hfiles, environment_files_of_filter.
  cbn [rbind ok]. fold (candidates notebook_path).
  by destruct (candidates notebook_path) as [|first [|second envs]].
Qed.

(** A notebook file is not a candidate environment file. *)
Lemma ipynb_not_candidate path : is_ipynb path -> ~ candidate path.
Proof.
  intros [stem Hname] Hc. unfold candidate, of_string in Hc. rewrite Hname in Hc.
  destruct (split_app_no_sep "/" stem ".ipynb") as (init & piece & _ & Hsplit);
    [reflexivity|].
  assert (Hlast : Str.last_char (piece +:+ ".ipynb") = Some "b"%char)
    by by rewrite last_char_app.
  assert (exists env : string,
            (env = "environment.yaml" \/ env = "environment.yml") /\
            filter (fun w => w <> "" /\ w <> ".") (Str.split "/" (stem +:+ ".ipynb"))
            = [env]) as (env & Henv & Hparts).
  { apply elem_of_cons in Hc as [[= _ Hp]|Hc].
    - eexists. split; [|exact Hp]. by left.
    - apply list_elem_of_singleton in Hc as [= _ Hp].
      eexists. split; [|exact Hp]. by right. }
  rewrite Hsplit, filter_app, filter_cons_True, filter_nil in Hparts.
  - apply app_singleton in Hparts as [[_ [= Heq]]|[_ [=]]].
    rewrite Heq in Hlast.
    destruct Henv as [->| ->]; discriminate.
  - split; intros Heq; by rewrite Heq in Hlast.
Qed.

Lemma bare_ipynb_candidates notebook_path :
  is_bare_notebook notebook_path = true -> is_ipynb notebook_path ->
  candidates notebook_path = [].
Proof.
  intros Hbare Hnb. unfold Resolver.candidates, Resolver.src_paths.
  rewrite Hbare. rewrite filter_cons_False; [done|].
  by apply ipynb_not_candidate.
Qed.

(** C3: for every notebook with no candidate environment file among
    the files that travel with it, and so for every bare notebook,
    [needed_files] returns a file set in which the universal default
    environment file [UNIVERSAL_ENV_PATH] is mapped to the canonical
    name [PACKAGED_ENV_NAME]. *)
Theorem needed_files_no_candidate notebook_path :
  candidates notebook_path = [] \/
    (is_bare_notebook notebook_path = true /\ is_ipynb notebook_path) ->
  exists files,
    needed_files notebook_path = ok files /\
    (UNIVERSAL_ENV_PATH OPENFF_DOCS_ROOT, PACKAGED_ENV_NAME) ∈ files /\
    Pydict.get (UNIVERSAL_ENV_PATH OPENFF_DOCS_ROOT) files = Some PACKAGED_ENV_NAME.
Proof.
  intros Hzero.
  assert (Hnone : candidates notebook_path = []).
  { destruct Hzero as [?|[? ?]]; [done | by apply bare_ipynb_candidates]. }
  destruct (needed_files_cases notebook_path) as (files & _ & _ & _ & Hnf).
  rewrite Hnone in Hnf. eexists. split; [exact Hnf|]. split.
  - apply elem_of_set.
  - apply get_set.
Qed.

(** C4: for every notebook with exactly one candidate environment
    file, [needed_files] returns a file set that maps the candidate
    to the canonical name [PACKAGED_ENV_NAME], whatever its own name,
    and in which no entry has the original relative path of the
    candidate as its destination when that path is not the canonical
    one. *)
Theorem needed_files_single_candidate notebook_path only :
  candidates notebook_path = [only] ->
  exists files original,
    needed_files notebook_path = ok files /\
    relative_to only (parent notebook_path) = ok original /\
    (only, PACKAGED_ENV_NAME) ∈ files /\
    Pydict.get only files = Some PACKAGED_ENV_NAME /\
    (original <> PACKAGED_ENV_NAME ->
     forall src dst, (src, dst) ∈ files -> dst <> original).
Proof.
  intros Hone.
  destruct (needed_files_cases notebook_path) as (files & _ & Hnd & Hrel & Hnf).
  rewrite Hone in Hnf.
  assert (Hunder : is_under (parent notebook_path) only = true).
  { apply src_paths_under.
    assert (Hin : only ∈ candidates notebook_path) by (rewrite Hone; by left).
    by apply list_elem_of_filter in Hin as [_ ?]. }
  eexists; eexists. split; [exact Hnf|]. split.
  { unfold relative_to. by rewrite Hunder. }
  split; [apply elem_of_set|]. split; [apply get_set|].
  intros Hother src dst Hin Hdst.
  apply elem_of_set_inv in Hin as [[_ ->]|[Hsrc Hin]]; [by subst| |done].
  apply Hsrc, (relative_to_inj _ _ (parent notebook_path) dst).
  - by apply Hrel.
  - subst dst. unfold relative_to. by rewrite Hunder.
Qed.

(** With two candidates or more, none of them the path
    [PACKAGED_ENV_NAME] itself, the resolver raises the error of
    lines 86-90. *)
Lemma needed_files_raises notebook_path :
  2 <= length (candidates notebook_path) ->
  PACKAGED_ENV_NAME ∉ candidates notebook_path ->
  needed_files notebook_path
  = raise (ValueError (ambiguous_message (candidates notebook_path))).
Proof.
  intros Hmany Hnot.
  destruct (needed_files_cases notebook_path) as (files & _ & _ & _ & ->).
  destruct (candidates notebook_path) as [|first [|second envs]];
    [cbn in Hmany; lia..|].
  cbv beta iota zeta. by rewrite bool_decide_eq_false_2.
Qed.


(** Only a notebook given relative to its own directory has files
    that travel with it under the path [PACKAGED_ENV_NAME]. *)
Lemma packaged_not_candidate notebook_path :
  is_bare_notebook notebook_path = false ->
  parent notebook_path <> of_string "." ->
  PACKAGED_ENV_NAME ∉ candidates notebook_path.
Proof.
  intros Hbare Hdir [_ Hin]%list_elem_of_filter.
  unfold Resolver.src_paths in Hin. rewrite Hbare in Hin.
  apply list_elem_of_filter in Hin as [_ Hin]. unfold iterdir in Hin.
  apply list_elem_of_fmap in Hin as (entry & Heq & _).
  apply Hdir. destruct (parent notebook_path) as [r l].
  unfold make_child in Heq; cbn [root parts] in Heq.
  injection Heq as <- Hl. symmetry in Hl.
  apply app_singleton in Hl as [[-> _]|[_ [=]]]. reflexivity.
Qed.

(** Only two names make a candidate.  In a directory, whose entry
    names are distinct and hold no separator, two candidates are
    therefore the two spellings, and one of them bears the canonical
    name. *)
Lemma two_candidates_one_canonical notebook_path :
  is_bare_notebook notebook_path = false ->
  NoDup (listdir (parent notebook_path)) ->
  (forall entry, entry ∈ listdir (parent notebook_path) ->
                 Str.rfind "/" entry = None) ->
  2 <= length (candidates notebook_path) ->
  exists path, path ∈ candidates notebook_path /\ canonically_named path.
Proof.
  intros Hbare Hnd Hsep Hmany.
  assert (Hyml : forall path,
             path ∈ candidates notebook_path -> ~ canonically_named path ->
             path = make_child (parent notebook_path) "environment.yml").
  { intros path [Hcand Hin]%list_elem_of_filter Hnot.
    unfold Resolver.src_paths in Hin. rewrite Hbare in Hin.
    apply list_elem_of_filter in Hin as [_ Hin]. unfold iterdir in Hin.
    apply list_elem_of_fmap in Hin as (entry & -> & Hentry).
    f_equal. unfold candidate, canonically_named, name, make_child in *.
    cbn [parts] in *. rewrite List.last_last in *.
    apply elem_of_cons in Hcand as [Hyaml|Hcand]; [done|].
    apply list_elem_of_singleton in Hcand.
    unfold of_string in Hcand. rewrite (split_no_sep _ _ (Hsep _ Hentry)) in Hcand.
    injection Hcand as _ Hparts. cbn [filter list_filter] in Hparts.
    case_decide; by simplify_eq. }
  assert (Hnodup : NoDup (candidates notebook_path)).
  { unfold Resolver.candidates, Resolver.src_paths. rewrite Hbare.
    do 2 apply NoDup_filter. unfold iterdir. apply NoDup_fmap_2; [|done].
    intros e1 e2 [= Heq]. by apply app_inj_tail in Heq as [_ ?]. }
  destruct (candidates notebook_path) as [|a [|b rest]];
    [cbn in Hmany; lia..|].
  destruct (decide (of_string (name a) = PACKAGED_ENV_NAME)) as [Ha|Ha].
  { exists a. split; [by left|done]. }
  destruct (decide (of_string (name b) = PACKAGED_ENV_NAME)) as [Hb|Hb].
  { exists b. split; [right; by left|done]. }
  exfalso. apply NoDup_cons in Hnodup as [Hab _]. apply Hab.
  rewrite (Hyml a), (Hyml b); [by left|right; by left|done|by left|done].
Qed.


End Facts.

(** C4 at a directory whose only environment file is [environment.yml]. *)
Lemma needed_files_single_candidate_witness :
  exists files original,
    needed_files Sample.docs_root Sample.never_bare Sample.only_yml
      Sample.notebook = ok files /\
    relative_to (Sample.notebook_dir // of_string "environment.yml")
      (parent Sample.notebook) = ok original /\
    (Sample.notebook_dir // of_string "environment.yml", PACKAGED_ENV_NAME) ∈ files /\
    Pydict.get (Sample.notebook_dir // of_string "environment.yml") files
      = Some PACKAGED_ENV_NAME /\
    (original <> PACKAGED_ENV_NAME ->
     forall src dst, (src, dst) ∈ files -> dst <> original).
Proof.
  apply needed_files_single_candidate. vm_compute. reflexivity.
Defined.


(** C1, the defect: in a directory of the source cache that holds both
    [environment.yaml] and [environment.yml], there are two candidates,
    one of them bears the canonical name, and [needed_files] raises the
    error of lines 86-90 instead of returning a file set. *)
Theorem needed_files_canonical_among_two_raises :
  let envs := candidates Sample.never_bare Sample.both_spellings Sample.notebook in
  length envs = 2 /\
  (exists path, path ∈ envs /\ canonically_named path) /\
  needed_files Sample.docs_root Sample.never_bare Sample.both_spellings
    Sample.notebook = raise (ValueError (ambiguous_message envs)).
Proof.
  cbv zeta. split; [by vm_compute|]. split.
  - exists (Sample.notebook_dir // of_string "environment.yaml"). split.
    + vm_compute. by left.
    + by vm_compute.
  - apply needed_files_raises; [vm_compute; lia|].
    apply packaged_not_candidate; [done|]. by vm_compute.
Qed.

(** C3 at a directory without an environment file, and at a bare
    notebook. *)
Lemma needed_files_no_candidate_witness :
  (exists files,
     needed_files Sample.docs_root Sample.never_bare Sample.no_environment
       Sample.notebook = ok files /\
     (UNIVERSAL_ENV_PATH Sample.docs_root, PACKAGED_ENV_NAME) ∈ files /\
     Pydict.get (UNIVERSAL_ENV_PATH Sample.docs_root) files = Some PACKAGED_ENV_NAME) /\
  (exists files,
     needed_files Sample.docs_root (fun _ => true) Sample.both_spellings
       Sample.notebook = ok files /\
     (UNIVERSAL_ENV_PATH Sample.docs_root, PACKAGED_ENV_NAME) ∈ files /\
     Pydict.get (UNIVERSAL_ENV_PATH Sample.docs_root) files = Some PACKAGED_ENV_NAME).
Proof.
  split.
  - apply needed_files_no_candidate. left. vm_compute. reflexivity.
  - apply needed_files_no_candidate. right. split; [reflexivity|].
    exists "demo". vm_compute. reflexivity.
Defined.

End ResolverFacts.

(** ** Programs *)

Module ProgFacts.
Section Facts.
Context {S : Type}.

Lemma bind_ok {A B} (c : prog S A) (k : A -> prog S B) s x s' :
  c s = (ok x, s') -> Prog.bind c k s = k x s'.
Proof. unfold Prog.bind. by intros ->. Qed.

Lemma bind_raise {A B} (c : prog S A) (k : A -> prog S B) s e s' :
  c s = (raise e, s') -> Prog.bind c k s = (raise e, s').
Proof. unfold Prog.bind. by intros ->. Qed.

Lemma bind_lift_ok {A B} (x : A) (k : A -> prog S B) s :
  Prog.bind (Prog.lift (ok x)) k s = k x s.
Proof. reflexivity. Qed.

End Facts.
End ProgFacts.

(** ** The file system *)

Module FilesystemFacts.
Import PurePath Filesystem.

Lemma lookup_without_tree d (fs : filesystem) p :
  without_tree d fs !! p = if is_under d p then None else fs !! p.
Proof.
  unfold without_tree. rewrite map_lookup_filter.
  destruct (fs !! p) as [n|]; cbn; [|by destruct (is_under d p)].
  destruct (is_under d p) eqn:E; case_guard; cbn in *; congruence.
Qed.

Lemma shrinks_refl A fs : shrinks A fs fs.
Proof. intros p. by left. Qed.

Lemma shrinks_trans A fs1 fs2 fs3 :
  shrinks A fs1 fs2 -> shrinks A fs2 fs3 -> shrinks A fs1 fs3.
Proof.
  intros H12 H23 p. destruct (H23 p) as [->|[-> ?]]; [apply H12|by right].
Qed.

Lemma only_removes_lift {T} A (r : result T) : only_removes A (Prog.lift r).
Proof. intros fs. apply shrinks_refl. Qed.

(** The frame of a sequence: the second command matters only for the
    values the first one can return. *)
Lemma only_removes_bind {T U} A (c : prog filesystem T) (k : T -> prog filesystem U) :
  only_removes A c ->
  (forall x fs, (c fs).1 = ok x -> only_removes A (k x)) ->
  only_removes A (Prog.bind c k).
Proof.
  intros Hc Hk fs. unfold Prog.bind.
  specialize (Hc fs). specialize (Hk) with (fs := fs).
  destruct (c fs) as [[e|x] fs1]; cbn [snd fst] in *; [done|].
  eapply shrinks_trans; [exact Hc|]. by apply Hk.
Qed.

Lemma only_removes_unlink (A : Path -> Prop) p : A p -> only_removes A (unlink p).
Proof.
  intros HA fs q. unfold unlink.
  destruct (fs !! p) as [[c|]|]; cbn [snd]; [|by left..].
  destruct (decide (p = q)) as [<-|Hne].
  - right. by rewrite lookup_delete_eq.
  - left. by rewrite lookup_delete_ne.
Qed.

Lemma only_removes_rmtree (A : Path -> Prop) d :
  (forall p, is_under d p = true -> A p) -> only_removes A (rmtree d).
Proof.
  intros HA fs q. unfold rmtree.
  destruct (fs !! d) as [[c|]|]; cbn [snd]; [by left| |by left].
  rewrite lookup_without_tree. destruct (is_under d q) eqn:E; [|by left].
  right. split; [done | by apply HA].
Qed.

Lemma rmtree_ignore_errors_returns d (fs : filesystem) :
  rmtree_ignore_errors d fs = (ok tt, (rmtree_ignore_errors d fs).2).
Proof. unfold rmtree_ignore_errors. by destruct (fs !! d) as [[c|]|]. Qed.

(** Clearing a tree keeps what is outside of it. *)
Lemma rmtree_ignore_errors_outside d (fs : filesystem) p :
  is_under d p = false -> (rmtree_ignore_errors d fs).2 !! p = fs !! p.
Proof.
  intros Hp. unfold rmtree_ignore_errors.
  destruct (fs !! d) as [[c|]|]; cbn [snd]; [done| |done].
  by rewrite lookup_without_tree, Hp.
Qed.

(** Clearing a tree creates nothing. *)
Lemma rmtree_ignore_errors_None d (fs : filesystem) p :
  fs !! p = None -> (rmtree_ignore_errors d fs).2 !! p = None.
Proof.
  intros Hp. unfold rmtree_ignore_errors.
  destruct (fs !! d) as [[c|]|]; cbn [snd]; [done| |done].
  rewrite lookup_without_tree. by destruct (is_under d p).
Qed.

(** Clearing an output root leaves nothing under it. *)
Lemma rmtree_ignore_errors_clears d (fs : filesystem) p :
  fs !! d = Some Directory -> is_under d p = true ->
  (rmtree_ignore_errors d fs).2 !! p = None.
Proof.
  intros Hd Hp. unfold rmtree_ignore_errors. rewrite Hd. cbn [snd].
  by rewrite lookup_without_tree, Hp.
Qed.

End FilesystemFacts.

(** ** Cleaning up a removed notebook *)

Module CleanupFacts.
Import PurePath Globals Filesystem Cleanup PurePathFacts FilesystemFacts.

Section Facts.
Variable OPENFF_DOCS_ROOT : Path.
Variable notebook_zip : Path -> result Path.
Variable notebook_colab : Path -> result Path.

Abbreviation clean_up_notebook :=
  (clean_up_notebook OPENFF_DOCS_ROOT notebook_zip notebook_colab).
Abbreviation artifact := (artifact OPENFF_DOCS_ROOT notebook_zip notebook_colab).
Abbreviation in_output_roots :=
  (in_output_roots OPENFF_DOCS_ROOT notebook_zip notebook_colab).

(** C7: for every notebook whose archive, Colab directory and
    executed copy all exist, as three separate things,
    [clean_up_notebook] returns without raising and leaves none of
    them: the archive is gone, nothing is left under the Colab
    directory, the executed copy is gone. *)
Theorem clean_up_notebook_removes (fs : filesystem) notebook zip colab rel c1 c2 :
  notebook_zip notebook = ok zip ->
  notebook_colab notebook = ok colab ->
  relative_to notebook (SRC_IPYNB_ROOT OPENFF_DOCS_ROOT) = ok rel ->
  fs !! zip = Some (File c1) ->
  fs !! parent colab = Some Directory ->
  fs !! (EXEC_IPYNB_ROOT OPENFF_DOCS_ROOT // rel) = Some (File c2) ->
  zip <> EXEC_IPYNB_ROOT OPENFF_DOCS_ROOT // rel ->
  is_under (parent colab) (EXEC_IPYNB_ROOT OPENFF_DOCS_ROOT // rel) = false ->
  exists fs',
    clean_up_notebook notebook fs = (ok tt, fs') /\
    fs' !! zip = None /\
    (forall p, is_under (parent colab) p = true -> fs' !! p = None) /\
    fs' !! (EXEC_IPYNB_ROOT OPENFF_DOCS_ROOT // rel) = None.
Proof.
  intros Hzip Hcolab Hrel Hz Hc He Hze Hce.
  set (exec_notebook := EXEC_IPYNB_ROOT OPENFF_DOCS_ROOT // rel) in *.
  exists (delete exec_notebook (without_tree (parent colab) (delete zip fs))).
  split; [|split_and!].
  - unfold Cleanup.clean_up_notebook.
    rewrite Hzip, ProgFacts.bind_lift_ok.
    rewrite (ProgFacts.bind_ok _ _ _ tt (delete zip fs))
      by (unfold unlink; by rewrite Hz).
    rewrite Hcolab, ProgFacts.bind_lift_ok.
    rewrite (ProgFacts.bind_ok _ _ _ tt (without_tree (parent colab) (delete zip fs))).
    2:{ unfold rmtree. rewrite lookup_delete_ne by congruence. by rewrite Hc. }
    rewrite Hrel, ProgFacts.bind_lift_ok. fold exec_notebook. unfold unlink.
    rewrite lookup_without_tree, Hce, lookup_delete_ne by done.
    by rewrite He.
  - rewrite lookup_delete_ne by done. rewrite lookup_without_tree.
    destruct (is_under _ zip); [done|]. apply lookup_delete_eq.
  - intros p Hp. destruct (decide (exec_notebook = p)) as [<-|Hne].
    + apply lookup_delete_eq.
    + rewrite lookup_delete_ne by done. by rewrite lookup_without_tree, Hp.
  - apply lookup_delete_eq.
Qed.

(** Whatever happens, [clean_up_notebook] removes nothing but
    processed versions of the notebook and touches nothing else. *)
Lemma clean_up_notebook_only_removes notebook :
  only_removes (artifact notebook) (clean_up_notebook notebook).
Proof.
  unfold Cleanup.clean_up_notebook.
  apply only_removes_bind; [apply only_removes_lift|]. intros zip fs0 Hzip.
  apply only_removes_bind; [apply only_removes_unlink; by left|]. intros _ fs1 _.
  apply only_removes_bind; [apply only_removes_lift|]. intros colab fs2 Hcolab.
  apply only_removes_bind.
  { apply only_removes_rmtree. intros p Hp. right; left. by exists colab. }
  intros _ fs3 _.
  apply only_removes_bind; [apply only_removes_lift|]. intros rel fs4 Hrel.
  apply only_removes_unlink. right; right. by exists rel.
Qed.

(** Nothing under the source cache is a processed version of a
    notebook, when archives and Colab directories are in their output
    roots. *)
Lemma source_not_artifact notebook p :
  in_output_roots notebook ->
  is_under (SRC_IPYNB_ROOT OPENFF_DOCS_ROOT) p = true ->
  ~ artifact notebook p.
Proof.
  intros [Hzip Hcolab] Hsrc [Hz|[(colab & Hc & Hp)|(rel & Hrel & ->)]].
  - specialize (Hzip _ Hz).
    by pose proof (is_under_apart _ _ _ _ _ _ Hsrc Hzip).
  - pose proof (is_under_trans _ _ _ (Hcolab _ Hc) Hp) as Hcp.
    by pose proof (is_under_apart _ _ _ _ _ _ Hsrc Hcp).
  - apply relative_to_ok in Hrel as [_ ->].
    assert (Hexec : is_under (EXEC_IPYNB_ROOT OPENFF_DOCS_ROOT)
              (EXEC_IPYNB_ROOT OPENFF_DOCS_ROOT //
               {| root := false;
                  parts := drop (length (parts (SRC_IPYNB_ROOT OPENFF_DOCS_ROOT)))
                                (parts notebook) |}) = true)
      by by apply is_under_joinpath.
    by pose proof (is_under_apart _ _ _ _ _ _ Hsrc Hexec).
Qed.

(** C10: [clean_up_notebook] creates and changes nothing; what it
    removes is a processed version of the notebook (its archive,
    something in its Colab directory, its executed copy), every other
    path is left as it was; and with the outputs in their roots,
    every path under the source cache, the source notebook among
    them, is left as it was.  This holds whether the call returns or
    raises. *)
Theorem clean_up_notebook_frame (fs : filesystem) notebook p :
  (forall n, (clean_up_notebook notebook fs).2 !! p = Some n -> fs !! p = Some n) /\
  (~ artifact notebook p -> (clean_up_notebook notebook fs).2 !! p = fs !! p) /\
  (in_output_roots notebook ->
   is_under (SRC_IPYNB_ROOT OPENFF_DOCS_ROOT) p = true ->
   (clean_up_notebook notebook fs).2 !! p = fs !! p).
Proof.
  pose proof (clean_up_notebook_only_removes notebook fs p) as Hp.
  split_and!.
  - intros n Hn. destruct Hp as [<-|[Hnone _]]; congruence.
  - intros Hna. by destruct Hp as [?|[_ ?]].
  - intros Hroots Hsrc. destruct Hp as [?|[_ Ha]]; [done|].
    by apply source_not_artifact in Ha.
Qed.

End Facts.

(** C7 on the sample disk. *)
Lemma clean_up_notebook_removes_witness :
  exists fs',
    Cleanup.clean_up_notebook Sample.docs_root Sample.zip_of Sample.colab_of
      Sample.notebook Sample.disk = (ok tt, fs') /\
    fs' !! (ZIPPED_IPYNB_ROOT Sample.docs_root
            // of_string "repo/examples/demo/demo.zip") = None /\
    (forall p,
       is_under (parent (COLAB_IPYNB_ROOT Sample.docs_root
                         // of_string "repo/examples/demo/demo.ipynb")) p = true ->
       fs' !! p = None) /\
    fs' !! (EXEC_IPYNB_ROOT Sample.docs_root
            // of_string "repo/examples/demo/demo.ipynb") = None.
Proof.
  apply (clean_up_notebook_removes Sample.docs_root Sample.zip_of Sample.colab_of
           Sample.disk Sample.notebook
           (ZIPPED_IPYNB_ROOT Sample.docs_root // of_string "repo/examples/demo/demo.zip")
           (COLAB_IPYNB_ROOT Sample.docs_root // of_string "repo/examples/demo/demo.ipynb")
           (of_string "repo/examples/demo/demo.ipynb")
           "archive" "executed");
    by vm_compute.
Defined.

(** C10 on the sample disk: the source notebook stays. *)
Lemma clean_up_notebook_frame_witness :
  (Cleanup.clean_up_notebook Sample.docs_root Sample.zip_of Sample.colab_of
     Sample.notebook Sample.disk).2 !! Sample.notebook
  = Sample.disk !! Sample.notebook.
Proof.
  apply (clean_up_notebook_frame Sample.docs_root Sample.zip_of Sample.colab_of
           Sample.disk Sample.notebook Sample.notebook).
  - split.
    + intros zip Hzip. vm_compute in Hzip. injection Hzip as <-. by vm_compute.
    + intros colab Hcolab. vm_compute in Hcolab. injection Hcolab as <-. by vm_compute.
  - by vm_compute.
Defined.

End CleanupFacts.

(** ** The latest release *)

Module ReleasesFacts.
Import Releases.

Section Facts.
Context {K : Type}.
Variable Version : string -> result K.
Variable Version_gt : K -> K -> bool.
Variable releases : string -> listing.

Hypothesis Hgt : strict_order Version_gt.

#[local] Instance ok_inj : Inj (=) (=) (@ok K).
Proof. by intros x y [= ->]. Qed.

Lemma follow_next_ok pages release_tags :
  Forall (fun r => status_ok r = true) pages ->
  follow_next pages release_tags
  = ok (release_tags ++ concat (tag_names <$> pages)).
Proof.
  intros Hall. revert release_tags.
  induction Hall as [|r pages Hr _ IH]; intros release_tags; cbn [follow_next].
  - by rewrite app_nil_r.
  - rewrite Hr, IH. cbn. by rewrite app_assoc.
Qed.

(** The loop of [max] returns an item no other item exceeds: the one
    it started with, or a later one with a greater key. *)
Lemma max_from_greatest items : forall best best_key,
  (forall t, t ∈ items -> exists k, Version t = ok k) ->
  exists tag k,
    max_from Version Version_gt best best_key items = ok tag /\
    (tag = best /\ k = best_key \/
     tag ∈ items /\ Version tag = ok k /\ Version_gt k best_key = true) /\
    (forall t k', t ∈ items -> Version t = ok k' -> Version_gt k' k = false).
Proof.
  destruct Hgt as [Hirr Htrans].
  assert (Hasym : forall a b, Version_gt a b = true -> Version_gt b a = false).
  { intros a b Hab. destruct (Version_gt b a) eqn:Hba; [|done].
    by rewrite <- (Hirr a), (Htrans a b a). }
  induction items as [|item items IH]; intros best best_key Hparse.
  - exists best, best_key. split_and!; [done|by left|].
    intros t k' Hin. by apply elem_of_nil in Hin.
  - destruct (Hparse item) as [key Hkey]; [by left|].
    cbn [max_from]. rewrite Hkey. cbn [rbind ok].
    assert (Hrest : forall t, t ∈ items -> exists k, Version t = ok k)
      by (intros t Ht; apply Hparse; by right).
    destruct (Version_gt key best_key) eqn:Hcmp.
    + destruct (IH item key Hrest) as (tag & k & -> & Hwhich & Hmax).
      exists tag, k. split; [done|]. split.
      * right. destruct Hwhich as [[-> ->]|(Hin & Hk & Hgtk)].
        -- split_and!; [by left|done..].
        -- split_and!; [by right|done|by apply (Htrans _ key)].
      * intros t k' [->|Hin]%elem_of_cons Hk'; [|by apply (Hmax t)].
        assert (k' = key) as -> by (apply (inj ok); congruence).
        destruct Hwhich as [[_ ->]|(_ & _ & Hgtk)]; [apply Hirr | by apply Hasym].
    + destruct (IH best best_key Hrest) as (tag & k & -> & Hwhich & Hmax).
      exists tag, k. split; [done|]. split.
      * destruct Hwhich as [?|(Hin & Hk & Hgtk)]; [by left|].
        right. split_and!; [by right|done..].
      * intros t k' [->|Hin]%elem_of_cons Hk'; [|by apply (Hmax t)].
        assert (k' = key) as -> by (apply (inj ok); congruence).
        destruct Hwhich as [[_ ->]|(_ & _ & Hgtk)]; [done|].
        destruct (Version_gt key k) eqn:Hkk; [|done].
        by rewrite <- Hcmp, (Htrans key k best_key).
Qed.

(** [max(items, key=Version)] on a list of valid tags that is not
    empty returns one of them that no other exceeds. *)
Lemma max_by_Version_greatest items :
  items <> [] ->
  (forall t, t ∈ items -> exists k, Version t = ok k) ->
  exists tag k,
    max_by_Version Version Version_gt items = ok tag /\
    tag ∈ items /\ Version tag = ok k /\
    (forall t k', t ∈ items -> Version t = ok k' -> Version_gt k' k = false).
Proof.
  destruct items as [|first items]; [done|]. intros _ Hparse.
  destruct (Hparse first) as [key Hkey]; [by left|].
  destruct (max_from_greatest items first key) as (tag & k & Hrun & Hwhich & Hmax).
  { intros t Ht. apply Hparse. by right. }
  exists tag, k. unfold max_by_Version. rewrite Hkey. cbn [rbind ok].
  split; [done|].
  destruct Hgt as [Hirr Htrans].
  destruct Hwhich as [[-> ->]|(Hin & Hk & Hgtk)].
  - split_and!; [by left|done|].
    intros t k' [->|Hin]%elem_of_cons Hk'; [|by apply (Hmax t)].
    assert (k' = key) as -> by (apply (inj ok); congruence). apply Hirr.
  - split_and!; [by right|done|].
    intros t k' [->|Hin']%elem_of_cons Hk'; [|by apply (Hmax t)].
    assert (k' = key) as -> by (apply (inj ok); congruence).
    destruct (Version_gt key k) eqn:Hkk; [|done].
    by rewrite <- (Hirr key), (Htrans key k key).
Qed.

(** With every page answered and at least one valid tag, and no
    invalid one, [get_stable_tagname] returns a tag of the listing
    that no tag of any page exceeds. *)
Lemma get_stable_tagname_returns repo :
  all_ok (releases (releases_url repo)) ->
  all_tags (releases (releases_url repo)) <> [] ->
  (forall t, t ∈ all_tags (releases (releases_url repo)) ->
             exists k, Version t = ok k) ->
  exists tag k,
    get_stable_tagname Version Version_gt releases repo = ok tag /\
    tag ∈ all_tags (releases (releases_url repo)) /\
    Version tag = ok k /\
    (forall t k', t ∈ all_tags (releases (releases_url repo)) ->
                  Version t = ok k' -> Version_gt k' k = false).
Proof.
  unfold get_stable_tagname, all_ok, all_tags.
  destruct (releases (releases_url repo)) as [r pages]. cbn [fst snd].
  intros [Hr Hpages] Hne Hparse. rewrite Hr, follow_next_ok by done.
  cbn [rbind ok]. by apply max_by_Version_greatest.
Qed.

End Facts.

(** *** The order of final releases *)

Lemma release_gt_irrefl a : release_gt a a = false.
Proof.
  induction a as [|x a IH]; [done|]. cbn [release_gt].
  by rewrite N.ltb_irrefl, N.eqb_refl.
Qed.

Lemma release_gt_trans a : forall b c,
  release_gt a b = true -> release_gt b c = true -> release_gt a c = true.
Proof.
  induction a as [|x a IH]; intros [|y b] [|z c]; cbn [release_gt]; try done.
  destruct (N.ltb_spec y x), (N.ltb_spec z y), (N.ltb_spec z x),
    (N.eqb_spec x y), (N.eqb_spec y z), (N.eqb_spec x z);
    try done; try lia.
  apply IH.
Qed.

Lemma release_strict_order : strict_order release_gt.
Proof. split; [apply release_gt_irrefl | apply release_gt_trans]. Qed.

(** C9: [get_stable_tagname] returns, of the release tags of all the
    pages of the listing, one whose version no other exceeds, for any
    strict order of versions; on the two tags [0.9.0] and [0.10.0] it
    returns [0.10.0], which comes before [0.9.0] in the order of
    strings. *)
Theorem get_stable_tagname_greatest :
  (forall (K : Type) (Version : string -> result K) (Version_gt : K -> K -> bool)
          (releases : string -> listing) (repo : string),
     strict_order Version_gt ->
     all_ok (releases (releases_url repo)) ->
     all_tags (releases (releases_url repo)) <> [] ->
     (forall t, t ∈ all_tags (releases (releases_url repo)) ->
                exists k, Version t = ok k) ->
     exists tag k,
       get_stable_tagname Version Version_gt releases repo = ok tag /\
       tag ∈ all_tags (releases (releases_url repo)) /\
       Version tag = ok k /\
       (forall t k', t ∈ all_tags (releases (releases_url repo)) ->
                     Version t = ok k' -> Version_gt k' k = false)) /\
  (forall repo,
     get_stable_tagname release_Version release_gt two_releases repo = ok "0.10.0") /\
  String.ltb "0.10.0" "0.9.0" = true.
Proof.
  split_and!.
  - intros K Version Version_gt releases repo Hgt.
    by apply get_stable_tagname_returns.
  - reflexivity.
  - reflexivity.
Qed.

(** C9 on three pages of releases. *)
Lemma get_stable_tagname_greatest_witness :
  exists tag k,
    get_stable_tagname release_Version release_gt three_pages
      "openforcefield/openff-toolkit" = ok tag /\
    tag ∈ all_tags (three_pages (releases_url "openforcefield/openff-toolkit")) /\
    release_Version tag = ok k /\
    (forall t k',
       t ∈ all_tags (three_pages (releases_url "openforcefield/openff-toolkit")) ->
       release_Version t = ok k' -> release_gt k' k = false).
Proof.
  apply (proj1 get_stable_tagname_greatest).
  - apply release_strict_order.
  - split; [reflexivity|]. repeat constructor.
  - by vm_compute.
  - intros t Hin. vm_compute in Hin.
    repeat (apply elem_of_cons in Hin as [->|Hin]; [by eexists|]).
    by apply elem_of_nil in Hin.
Defined.

End ReleasesFacts.

(** ** Calls and plans *)

Module ScriptFacts.
Import Filesystem Script.

Lemma follows_ret {A} (x : A) : follows [] (Prog.ret x).
Proof. intros w. exists []. by rewrite app_nil_r. Qed.

Lemma follows_lift {A} (r : result A) : follows [] (Prog.lift r).
Proof. intros w. exists []. by rewrite app_nil_r. Qed.

Lemma follows_quiet {A} (c : prog filesystem A) : follows [] (quiet c).
Proof.
  intros w. exists []. unfold quiet. destruct (c (disk w)) as [r fs].
  by rewrite app_nil_r.
Qed.

Lemma follows_call {A} ev (c : prog filesystem A) : follows [ev] (call ev c).
Proof.
  intros w. exists [ev]. unfold call. by destruct (c (disk w)) as [r fs].
Qed.

Lemma follows_reraise_as {A} plan e (c : prog world A) :
  follows plan c -> follows plan (reraise_as e c).
Proof.
  intros Hc w. destruct (Hc w) as (T & Htrace & Hpre & Hok).
  exists T. unfold reraise_as.
  destruct (c w) as [[e'|x] w']; cbn [fst snd] in *; [done|].
  split_and!; [done..|]. intros y _. by apply (Hok x).
Qed.

(** The plan of a sequence is the plan of its first command followed
    by the plan of the second, which matters only for the values the
    first one can return. *)
Lemma follows_bind_returned {A B} p1 p2 (c : prog world A) (k : A -> prog world B) :
  follows p1 c ->
  (forall x w, (c w).1 = ok x -> follows p2 (k x)) ->
  follows (p1 ++ p2) (Prog.bind c k).
Proof.
  intros Hc Hk w. destruct (Hc w) as (T1 & Htrace1 & Hpre1 & Hok1).
  specialize Hk with (w := w).
  unfold Prog.bind. destruct (c w) as [[e|x] w1]; cbn [fst snd] in *.
  - exists T1. split_and!; [done| |done]. by apply prefix_app_r.
  - rewrite (Hok1 x eq_refl) in Htrace1.
    destruct (Hk x eq_refl w1) as (T2 & Htrace2 & Hpre2 & Hok2).
    exists (p1 ++ T2). split_and!.
    + by rewrite Htrace2, Htrace1, app_assoc.
    + by apply prefix_app.
    + intros y Hy. by rewrite (Hok2 y Hy).
Qed.

Lemma follows_bind {A B} p1 p2 (c : prog world A) (k : A -> prog world B) :
  follows p1 c -> (forall x, follows p2 (k x)) ->
  follows (p1 ++ p2) (Prog.bind c k).
Proof. intros Hc Hk. apply follows_bind_returned; [done|]. by intros x _ _. Qed.

Lemma follows_for_each {A} (f : A -> list event) (body : A -> prog world unit) l :
  (forall x, follows (f x) (body x)) ->
  follows (concat (f <$> l)) (Prog.for_each l body).
Proof.
  intros Hbody. induction l as [|x l IH]; cbn [Prog.for_each fmap list_fmap concat].
  - apply follows_ret.
  - apply follows_bind; [apply Hbody | by intros _].
Qed.

Lemma follows_when plan (b : bool) (c : prog world unit) :
  follows plan c -> follows (if b then plan else []) (Prog.when b c).
Proof. destruct b; [done|]. intros _. apply follows_ret. Qed.

(** A command without calls leaves the trace as it is. *)
Lemma follows_nil_trace {A} (c : prog world A) w :
  follows [] c -> trace (c w).2 = trace w.
Proof.
  intros Hc. destruct (Hc w) as (T & -> & ->%prefix_nil_inv & _).
  by rewrite app_nil_r.
Qed.

End ScriptFacts.

(** ** The executor *)

Module ExecutorFacts.
Import PurePath Globals Filesystem Script Executor ScriptFacts.

Section Facts.
Variable OPENFF_DOCS_ROOT : Path.
Variable nbformat_read : string -> result notebook.
Variable nbformat_write : notebook -> string.
Variable preprocess : notebook -> Path -> prog filesystem notebook.
Variable default_cell_type : string.
Variable default_position : nat.

Abbreviation execute_notebook :=
  (execute_notebook OPENFF_DOCS_ROOT nbformat_read nbformat_write preprocess
     default_cell_type default_position).
Abbreviation thumbnail_cell := (thumbnail_cell default_cell_type).

(** The cells after an insertion are the new cell and the old ones. *)
Lemma elem_of_insert_cell nb type position src meta c :
  c ∈ cells (insert_cell nb type position src meta) <->
  c = {| cell_type := type; source := src; metadata := meta |} \/ c ∈ cells nb.
Proof.
  unfold insert_cell; cbn [cells].
  rewrite elem_of_app, elem_of_cons.
  assert (c ∈ cells nb <->
          c ∈ take position (cells nb) \/ c ∈ drop position (cells nb)) as ->
    by by rewrite <- elem_of_app, take_drop.
  tauto.
Qed.

(** C8: a notebook of the source cache that can be read reaches the
    execution engine once; when [thumbnail.png] is next to it, the
    notebook handed to the engine holds the hidden thumbnail cell
    besides its own cells, and when there is none, it is the notebook
    as read. *)
Theorem execute_notebook_thumbnail w src src_rel text original :
  relative_to src (SRC_IPYNB_ROOT OPENFF_DOCS_ROOT) = ok src_rel ->
  disk w !! src = Some (File text) ->
  nbformat_read text = ok original ->
  exists nb,
    trace (execute_notebook src w).2 = trace w ++ [Preprocessed nb (parent src)] /\
    (exists_ (parent src // of_string "thumbnail.png") (disk w) = true ->
     thumbnail_cell ∈ cells nb /\
     source thumbnail_cell = ["display(thumbnail.png)"] /\
     ("nbsphinx", MetaStr "hidden") ∈ metadata thumbnail_cell /\
     (forall c, c ∈ cells nb <-> c = thumbnail_cell \/ c ∈ cells original)) /\
    (exists_ (parent src // of_string "thumbnail.png") (disk w) = false ->
     nb = original).
Proof.
  intros Hrel Hsrc Hread. destruct w as [fs t]. cbn [disk trace] in *.
  set (thumbnail := exists_ (parent src // of_string "thumbnail.png") fs).
  exists (if thumbnail
          then insert_cell original default_cell_type default_position
                 (source thumbnail_cell) (metadata thumbnail_cell)
          else original).
  split.
  - unfold Executor.execute_notebook.
    rewrite Hrel, ProgFacts.bind_lift_ok.
    rewrite (ProgFacts.bind_ok _ _ _ text {| disk := fs; trace := t |})
      by (unfold quiet, read_text; cbn [disk trace]; by rewrite Hsrc).
    rewrite Hread, ProgFacts.bind_lift_ok.
    rewrite (ProgFacts.bind_ok _ _ _ thumbnail {| disk := fs; trace := t |})
      by reflexivity.
    fold thumbnail_cell.
    set (nb := if thumbnail then _ else _).
    unfold Prog.bind at 1, reraise_as, call. cbn [disk trace].
    destruct (preprocess nb (parent src) fs) as [[e|executed] fs']; [done|].
    match goal with
    | |- trace (?c ?w').2 = _ =>
        rewrite (follows_nil_trace c w'); [done|]
    end.
    apply (follows_bind [] []); [apply follows_quiet|].
    intros _. apply follows_quiet.
  - split.
    + intros ->. split_and!; [|done|by left|].
      * apply elem_of_insert_cell. by left.
      * intros c. apply elem_of_insert_cell.
    + by intros ->.
Qed.

End Facts.

(** C8 on a notebook with a thumbnail next to it. *)
Lemma execute_notebook_thumbnail_witness :
  exists nb,
    trace (Executor.execute_notebook Sample.docs_root Sample.read Sample.write
             Sample.engine "code" 0 Sample.notebook_path Sample.with_thumbnail).2
    = trace Sample.with_thumbnail
      ++ [Preprocessed nb (parent Sample.notebook_path)] /\
    (exists_ (parent Sample.notebook_path // of_string "thumbnail.png")
       (disk Sample.with_thumbnail) = true ->
     Executor.thumbnail_cell "code" ∈ cells nb /\
     source (Executor.thumbnail_cell "code") = ["display(thumbnail.png)"] /\
     ("nbsphinx", MetaStr "hidden") ∈ metadata (Executor.thumbnail_cell "code") /\
     (forall c, c ∈ cells nb <->
                c = Executor.thumbnail_cell "code" \/ c ∈ cells Sample.one_cell)) /\
    (exists_ (parent Sample.notebook_path // of_string "thumbnail.png")
       (disk Sample.with_thumbnail) = false ->
     nb = Sample.one_cell).
Proof.
  apply (execute_notebook_thumbnail Sample.docs_root Sample.read Sample.write
           Sample.engine "code" 0 Sample.with_thumbnail Sample.notebook_path
           (of_string "repo/examples/demo/demo.ipynb") "source");
    by vm_compute.
Defined.

End ExecutorFacts.

(** ** The orchestrator *)

Module OrchestratorFacts.
Import PurePath Globals Filesystem Script Orchestrator.
Import PurePathFacts FilesystemFacts ScriptFacts.

Section Facts.
Variable OPENFF_DOCS_ROOT : Path.
Context {K : Type}.
Variable Version : string -> result K.
Variable Version_gt : K -> K -> bool.
Variable releases : string -> Releases.listing.
Variable no_updates : UpdatedNotebooks.
Variable extend : UpdatedNotebooks -> UpdatedNotebooks -> UpdatedNotebooks.
Variable download_dir :
  string -> string -> Path -> string -> prog filesystem UpdatedNotebooks.
Variable find_notebooks : Path -> prog filesystem (list Path).
Variable notebook_zip : Path -> result Path.
Variable notebook_colab : Path -> result Path.
Variable create_colab_notebook : Path -> prog filesystem unit.
Variable create_zip : Path -> prog filesystem unit.
Variable pool_imap_unordered : list Path -> prog filesystem unit.

Abbreviation fetch :=
  (fetch OPENFF_DOCS_ROOT Version Version_gt releases extend download_dir).
Abbreviation search := (search OPENFF_DOCS_ROOT find_notebooks).
Abbreviation clear_outputs := (clear_outputs OPENFF_DOCS_ROOT).
Abbreviation changed_and_found := (changed_and_found OPENFF_DOCS_ROOT).
Abbreviation select := (select OPENFF_DOCS_ROOT notebook_zip notebook_colab).
Abbreviation package_and_execute :=
  (package_and_execute create_colab_notebook create_zip pool_imap_unordered).
Abbreviation main :=
  (main OPENFF_DOCS_ROOT Version Version_gt releases no_updates extend
     download_dir find_notebooks notebook_zip notebook_colab
     create_colab_notebook create_zip pool_imap_unordered).
Abbreviation clearing := (clearing OPENFF_DOCS_ROOT).

(** The fetch only downloads. *)
Lemma fetch_trace repos : forall updates w,
  exists T,
    trace (fetch repos updates w).2 = trace w ++ T /\
    Forall (fun ev => reprocessing ev = false) T.
Proof.
  induction repos as [|repo repos IH]; intros updates w; cbn [Orchestrator.fetch].
  - exists []. by rewrite app_nil_r.
  - unfold Prog.bind at 1, Prog.lift.
    destruct (Releases.get_stable_tagname _ _ _ repo) as [e|refspec].
    { exists []. by rewrite app_nil_r. }
    unfold Prog.bind at 1, call.
    destruct (download_dir repo "examples" _ refspec (disk w)) as [[e|downloaded] fs].
    { exists [Downloaded repo refspec]. split; [done|]. by repeat constructor. }
    destruct (IH (extend updates downloaded)
                {| disk := fs; trace := trace w ++ [Downloaded repo refspec] |})
      as (T & -> & HT).
    exists (Downloaded repo refspec :: T). cbn [trace]. split.
    + by rewrite <- app_assoc.
    + by constructor.
Qed.

Lemma search_trace w found w' :
  search w = (ok found, w') ->
  trace w' = trace w ++ [Searched (SRC_IPYNB_ROOT OPENFF_DOCS_ROOT)].
Proof.
  unfold Orchestrator.search, call.
  destruct (find_notebooks _ (disk w)) as [r fs]. by intros [= _ <-].
Qed.

(** What the fetch and the search add to the trace holds no call
    that processes a notebook. *)
Lemma before_selection w updates w1 found w2 :
  fetch GITHUB_REPOS no_updates w = (ok updates, w1) ->
  search w1 = (ok found, w2) ->
  exists before,
    trace w2 = trace w ++ before /\
    Forall (fun ev => reprocessing ev = false) before.
Proof.
  intros Hfetch Hsearch.
  destruct (fetch_trace GITHUB_REPOS no_updates w) as (T & HT & Hquiet).
  rewrite Hfetch in HT. cbn [snd] in HT.
  exists (T ++ [Searched (SRC_IPYNB_ROOT OPENFF_DOCS_ROOT)]). split.
  - rewrite (search_trace _ _ _ Hsearch), HT. by rewrite <- app_assoc.
  - apply Forall_app. split; [done|]. by repeat constructor.
Qed.

(** The notebooks of an incremental pass are those found that the
    fetcher reports as changed, each once. *)
Lemma changed_and_found_spec found updates :
  NoDup (changed_and_found found updates) /\
  forall notebook,
    notebook ∈ changed_and_found found updates <->
    notebook ∈ found /\
    exists path, path ∈ reprocess updates /\
                 notebook = SRC_IPYNB_ROOT OPENFF_DOCS_ROOT // path.
Proof.
  unfold Orchestrator.changed_and_found. split; [apply NoDup_elements|].
  intros notebook.
  rewrite elem_of_elements, elem_of_intersection, !elem_of_list_to_set.
  rewrite list_elem_of_fmap. split.
  - intros [Hfound (path & -> & Hpath)]. split; [done|]. by exists path.
  - intros [Hfound (path & Hpath & ->)]. split; [done|]. by exists path.
Qed.

Lemma follows_package_and_execute do_proc do_exec notebooks :
  follows (planned do_proc do_exec notebooks)
          (package_and_execute do_proc do_exec notebooks).
Proof.
  unfold planned, Orchestrator.package_and_execute. apply follows_bind.
  - apply follows_when, follows_for_each. intros notebook.
    apply (follows_bind [_] [_]); [apply follows_call|].
    intros _. apply follows_call.
  - intros _. apply follows_when, follows_call.
Qed.

Lemma follows_clean_up removed :
  follows (CleanedUp <$> removed)
    (Prog.for_each removed
       (fun notebook =>
          call (CleanedUp notebook)
            (Cleanup.clean_up_notebook OPENFF_DOCS_ROOT notebook_zip notebook_colab
               notebook))).
Proof.
  induction removed as [|notebook removed IH]; cbn [Prog.for_each fmap list_fmap].
  - apply follows_ret.
  - apply (follows_bind [_]); [apply follows_call | by intros _].
Qed.

(** The planned calls all process notebooks, the clean-up calls do
    not. *)
Lemma planned_reprocessing do_proc do_exec notebooks :
  Forall (fun ev => reprocessing ev = true) (planned do_proc do_exec notebooks).
Proof.
  unfold planned. apply Forall_app. split.
  - destruct do_proc; [|constructor].
    induction notebooks as [|notebook notebooks IH]; cbn; by repeat constructor.
  - destruct do_exec; by repeat constructor.
Qed.

Lemma clean_up_not_reprocessing removed :
  Forall (fun ev => reprocessing ev = false) (CleanedUp <$> removed).
Proof. induction removed; cbn; by constructor. Qed.

(** The output roots are apart. *)
Lemma output_roots_apart :
  is_under (EXEC_IPYNB_ROOT OPENFF_DOCS_ROOT) (COLAB_IPYNB_ROOT OPENFF_DOCS_ROOT) = false /\
  is_under (EXEC_IPYNB_ROOT OPENFF_DOCS_ROOT) (ZIPPED_IPYNB_ROOT OPENFF_DOCS_ROOT) = false /\
  is_under (COLAB_IPYNB_ROOT OPENFF_DOCS_ROOT) (ZIPPED_IPYNB_ROOT OPENFF_DOCS_ROOT) = false.
Proof.
  split_and!; apply not_true_is_false; intros [rest Hrest]%is_under_joinpath_inv;
    discriminate.
Qed.

(** Clearing the outputs always returns; it makes the three calls,
    and nothing is left under a root that was a directory. *)
Lemma clear_outputs_run w :
  exists w',
    clear_outputs w = (ok tt, w') /\
    trace w' = trace w ++ clearing /\
    forall output_root p,
      output_root ∈ [EXEC_IPYNB_ROOT OPENFF_DOCS_ROOT;
                     COLAB_IPYNB_ROOT OPENFF_DOCS_ROOT;
                     ZIPPED_IPYNB_ROOT OPENFF_DOCS_ROOT] ->
      disk w !! output_root = Some Directory ->
      is_under output_root p = true ->
      disk w' !! p = None.
Proof.
  destruct output_roots_apart as (Hec & Hez & Hcz).
  set (fs1 := (rmtree_ignore_errors (EXEC_IPYNB_ROOT OPENFF_DOCS_ROOT) (disk w)).2).
  set (fs2 := (rmtree_ignore_errors (COLAB_IPYNB_ROOT OPENFF_DOCS_ROOT) fs1).2).
  set (fs3 := (rmtree_ignore_errors (ZIPPED_IPYNB_ROOT OPENFF_DOCS_ROOT) fs2).2).
  exists {| disk := fs3; trace := trace w ++ clearing |}. split_and!; [|done|].
  - unfold Orchestrator.clear_outputs, Prog.bind, call.
    rewrite rmtree_ignore_errors_returns. fold fs1. cbn [disk trace].
    rewrite rmtree_ignore_errors_returns. fold fs2. cbn [disk trace].
    rewrite rmtree_ignore_errors_returns. fold fs3.
    unfold Orchestrator.clearing. by rewrite <- !app_assoc.
  - intros output_root p Hroot Hdir Hp. cbn [disk].
    repeat (apply elem_of_cons in Hroot as [->|Hroot]).
    + do 2 apply rmtree_ignore_errors_None.
      by apply rmtree_ignore_errors_clears.
    + apply rmtree_ignore_errors_None.
      apply rmtree_ignore_errors_clears; [|done].
      unfold fs1. by rewrite rmtree_ignore_errors_outside.
    + apply rmtree_ignore_errors_clears; [|done].
      unfold fs2, fs1. by rewrite !rmtree_ignore_errors_outside.
    + by apply elem_of_nil in Hroot.
Qed.

(** C6: when the fetcher asks for a full rebuild or the override flag
    is given, [main] clears the three output roots, whatever the
    notebooks found (none, too), and only then packages and executes
    them: up to the clearing no call processes a notebook, the
    clearing leaves nothing under a root that was a directory, and
    the calls that process notebooks, those planned for all the
    notebooks found, come after it. *)
Theorem main_full_rebuild w do_proc do_exec redo_all updates w1 found w2 :
  fetch GITHUB_REPOS no_updates w = (ok updates, w1) ->
  search w1 = (ok found, w2) ->
  rebuild_all updates || redo_all = true ->
  exists before w3 after,
    trace w2 = trace w ++ before /\
    Forall (fun ev => reprocessing ev = false) before /\
    clear_outputs w2 = (ok tt, w3) /\
    trace w3 = trace w2 ++ clearing /\
    (forall output_root p,
       output_root ∈ [EXEC_IPYNB_ROOT OPENFF_DOCS_ROOT;
                      COLAB_IPYNB_ROOT OPENFF_DOCS_ROOT;
                      ZIPPED_IPYNB_ROOT OPENFF_DOCS_ROOT] ->
       disk w2 !! output_root = Some Directory ->
       is_under output_root p = true ->
       disk w3 !! p = None) /\
    main do_proc do_exec redo_all w = package_and_execute do_proc do_exec found w3 /\
    trace (main do_proc do_exec redo_all w).2 = trace w3 ++ after /\
    after `prefix_of` planned do_proc do_exec found /\
    (forall x, (main do_proc do_exec redo_all w).1 = ok x ->
               after = planned do_proc do_exec found).
Proof.
  intros Hfetch Hsearch Hrebuild.
  destruct (before_selection _ _ _ _ _ Hfetch Hsearch) as (before & Hbefore & Hquiet).
  destruct (clear_outputs_run w2) as (w3 & Hclear & Htrace3 & Hdisk3).
  assert (Hmain : main do_proc do_exec redo_all w
                  = package_and_execute do_proc do_exec found w3).
  { unfold Orchestrator.main.
    rewrite (ProgFacts.bind_ok _ _ _ _ _ Hfetch).
    rewrite (ProgFacts.bind_ok _ _ _ _ _ Hsearch).
    apply ProgFacts.bind_ok. unfold Orchestrator.select. rewrite Hrebuild.
    by rewrite (ProgFacts.bind_ok _ _ _ _ _ Hclear). }
  destruct (follows_package_and_execute do_proc do_exec found w3)
    as (after & Hafter & Hprefix & Hall).
  exists before, w3, after. rewrite Hmain. by split_and!.
Qed.

Abbreviation clean_up_notebook :=
  (Cleanup.clean_up_notebook OPENFF_DOCS_ROOT notebook_zip notebook_colab).
Abbreviation artifact :=
  (Cleanup.artifact OPENFF_DOCS_ROOT notebook_zip notebook_colab).

(** The clean-up of the notebooks reported as removed, lines 279-280. *)
Abbreviation clean_up_all removed :=
  (Prog.for_each removed
     (fun notebook => call (CleanedUp notebook) (clean_up_notebook notebook))).

Lemma shrinks_weaken (A B : Path -> Prop) (fs fs' : filesystem) :
  (forall p, A p -> B p) -> shrinks A fs fs' -> shrinks B fs fs'.
Proof. intros HAB H p. destruct (H p) as [?|[? ?]]; [by left|right; auto]. Qed.

Lemma shrinks_None A (fs fs' : filesystem) p :
  shrinks A fs fs' -> fs !! p = None -> fs' !! p = None.
Proof. intros H Hp. destruct (H p) as [->|[? _]]; done. Qed.

(** A clean-up that returns leaves no processed version of the
    notebook: not its archive, nothing in its Colab directory, not
    its executed copy. *)
Lemma clean_up_notebook_gone notebook (fs fs' : filesystem) p :
  clean_up_notebook notebook fs = (ok tt, fs') ->
  artifact notebook p ->
  fs' !! p = None.
Proof.
  unfold Cleanup.clean_up_notebook, Prog.bind, Prog.lift, ok, raise.
  destruct (notebook_zip notebook) as [e|zip] eqn:Hzip; [done|].
  unfold unlink at 1.
  destruct (fs !! zip) as [[c|]|] eqn:Hz; [|done|done].
  destruct (notebook_colab notebook) as [e|colab] eqn:Hcolab; [done|].
  unfold rmtree.
  destruct (delete zip fs !! parent colab) as [[c'|]|] eqn:Hc; [done| |done].
  destruct (relative_to notebook (SRC_IPYNB_ROOT OPENFF_DOCS_ROOT))
    as [e|rel] eqn:Hrel; [done|].
  unfold unlink.
  destruct (without_tree (parent colab) (delete zip fs)
              !! (EXEC_IPYNB_ROOT OPENFF_DOCS_ROOT // rel)) as [[c''|]|] eqn:He;
    [|done|done].
  intros [= <-] Hart. unfold Cleanup.artifact, ok in Hart.
  destruct (decide (EXEC_IPYNB_ROOT OPENFF_DOCS_ROOT // rel = p)) as [<-|Hne];
    [apply lookup_delete_eq|].
  rewrite lookup_delete_ne by done. rewrite lookup_without_tree.
  destruct (is_under (parent colab) p) eqn:Hunder; [done|].
  destruct Hart as [Hp|[(colab' & Hcolab' & Hp)|(rel' & Hrel' & ->)]].
  - assert (p = zip) as -> by congruence. apply lookup_delete_eq.
  - assert (colab' = colab) as -> by congruence. congruence.
  - assert (rel' = rel) as -> by congruence. done.
Qed.

(** The clean-up of the removed notebooks creates and changes
    nothing and removes processed versions of these notebooks only;
    when it returns, every one of them has been cleaned up and no
    processed version of any of them is left. *)
Lemma clean_up_all_run removed : forall w r w',
  clean_up_all removed w = (r, w') ->
  shrinks (fun p => exists notebook, notebook ∈ removed /\ artifact notebook p)
    (disk w) (disk w') /\
  (r = ok tt ->
   trace w' = trace w ++ (CleanedUp <$> removed) /\
   forall notebook p,
     notebook ∈ removed -> artifact notebook p -> disk w' !! p = None).
Proof.
  induction removed as [|first removed IH]; intros w r w'; cbn [Prog.for_each].
  - intros [= <- <-]. split; [apply shrinks_refl|]. intros _. split.
    + by rewrite app_nil_r.
    + by intros notebook p Hin%elem_of_nil.
  - unfold Prog.bind at 1, call at 1.
    pose proof (CleanupFacts.clean_up_notebook_only_removes OPENFF_DOCS_ROOT
                  notebook_zip notebook_colab first (disk w)) as Hfirst.
    destruct (clean_up_notebook first (disk w)) as [[e|[]] fs1] eqn:Hrun;
      cbn [snd] in Hfirst.
    + intros [= <- <-]. cbn [disk]. split; [|done].
      eapply shrinks_weaken; [|exact Hfirst].
      intros p Hp. exists first. split; [by left|done].
    + intros Hrest. apply IH in Hrest as [Hshrinks Hreturned].
      cbn [disk trace] in *. split.
      * eapply shrinks_trans.
        -- eapply shrinks_weaken; [|exact Hfirst].
           intros p Hp. exists first. split; [by left|done].
        -- eapply shrinks_weaken; [|exact Hshrinks].
           intros p (notebook & Hin & Hp). exists notebook. split; [by right|done].
      * intros ->. destruct (Hreturned eq_refl) as [Htrace Hgone]. split.
        -- rewrite Htrace. cbn [fmap list_fmap]. by rewrite <- app_assoc.
        -- intros notebook p [->|Hin]%elem_of_cons Hp; [|by apply (Hgone notebook)].
           eapply shrinks_None; [exact Hshrinks|].
           by apply (clean_up_notebook_gone first (disk w)).
Qed.

(** C5: when the fetcher does not ask for a full rebuild and the
    override flag is not given, the notebooks of the pass are those
    found by the search that the fetcher reports as changed; [main]
    first cleans up the notebooks reported as removed, in order, then
    packages and executes the notebooks of the pass and no other: the
    calls it makes after the search are the first calls of that plan,
    all of them when it returns, and as soon as one of them processes
    a notebook every removed notebook has been cleaned up.  On the
    disk the clean-up creates and changes nothing and removes
    processed versions of the removed notebooks only; when it raises,
    [main] raises there and nothing is packaged; when it returns, no
    removed notebook has its archive, anything in its Colab directory
    or its executed copy left, and [main] goes on to package and
    execute the notebooks of the pass from that disk. *)
Theorem main_incremental w do_proc do_exec updates w1 found w2 :
  fetch GITHUB_REPOS no_updates w = (ok updates, w1) ->
  search w1 = (ok found, w2) ->
  rebuild_all updates = false ->
  NoDup (changed_and_found found updates) /\
  (forall notebook,
     notebook ∈ changed_and_found found updates <->
     notebook ∈ found /\
     exists path, path ∈ reprocess updates /\
                  notebook = SRC_IPYNB_ROOT OPENFF_DOCS_ROOT // path) /\
  exists before T,
    trace w2 = trace w ++ before /\
    Forall (fun ev => reprocessing ev = false) before /\
    trace (main do_proc do_exec false w).2 = trace w2 ++ T /\
    T `prefix_of` (CleanedUp <$> cleanup updates)
                  ++ planned do_proc do_exec (changed_and_found found updates) /\
    (forall x, (main do_proc do_exec false w).1 = ok x ->
               T = (CleanedUp <$> cleanup updates)
                   ++ planned do_proc do_exec (changed_and_found found updates)) /\
    (forall ev, ev ∈ T -> reprocessing ev = true ->
                (CleanedUp <$> cleanup updates) `prefix_of` T) /\
    exists outcome w3,
      select false updates found w2 = (outcome, w3) /\
      shrinks (fun p => exists notebook,
                          notebook ∈ cleanup updates /\ artifact notebook p)
        (disk w2) (disk w3) /\
      match outcome with
      | inl e => main do_proc do_exec false w = (raise e, w3)
      | inr notebooks =>
          notebooks = changed_and_found found updates /\
          trace w3 = trace w2 ++ (CleanedUp <$> cleanup updates) /\
          (forall notebook p,
             notebook ∈ cleanup updates -> artifact notebook p ->
             disk w3 !! p = None) /\
          main do_proc do_exec false w
          = package_and_execute do_proc do_exec notebooks w3
      end.
Proof.
  intros Hfetch Hsearch Hrebuild.
  destruct (changed_and_found_spec found updates) as [Hnodup Hmem].
  split; [done|]. split; [done|].
  destruct (before_selection _ _ _ _ _ Hfetch Hsearch) as (before & Hbefore & Hquiet).
  set (notebooks := changed_and_found found updates) in *.
  set (removed := cleanup updates).
  assert (Hselect : select false updates found w2
                    = Prog.bind (clean_up_all removed)
                        (fun _ => Prog.ret notebooks) w2).
  { unfold Orchestrator.select. rewrite Hrebuild. reflexivity. }
  assert (Hmain : main do_proc do_exec false w
                  = Prog.bind (clean_up_all removed)
                      (fun _ => package_and_execute do_proc do_exec notebooks) w2).
  { unfold Orchestrator.main.
    rewrite (ProgFacts.bind_ok _ _ _ _ _ Hfetch).
    rewrite (ProgFacts.bind_ok _ _ _ _ _ Hsearch).
    unfold Prog.bind at 1. rewrite Hselect. unfold Prog.bind, Prog.ret.
    by destruct (clean_up_all removed w2) as [[e|[]] w']. }
  assert (Hplan : follows ((CleanedUp <$> removed)
                           ++ planned do_proc do_exec notebooks)
                    (Prog.bind (clean_up_all removed)
                       (fun _ => package_and_execute do_proc do_exec notebooks))).
  { apply follows_bind; [apply follows_clean_up|].
    intros _. apply follows_package_and_execute. }
  destruct (Hplan w2) as (T & HT & Hprefix & Hall).
  exists before, T. rewrite Hmain. split_and!; [done..| |].
  { intros ev Hin Hev.
    destruct (prefix_weak_total T (CleanedUp <$> removed)
                ((CleanedUp <$> removed) ++ planned do_proc do_exec notebooks))
      as [Hshort|Hlong]; [done|by apply prefix_app_r|..|done].
    pose proof (clean_up_not_reprocessing removed) as Hclean.
    rewrite Forall_forall in Hclean.
    rewrite (Hclean ev) in Hev; [done|].
    by apply (elem_of_prefix T). }
  rewrite Hselect. unfold Prog.bind, Prog.ret.
  destruct (clean_up_all removed w2) as [[e|[]] w3] eqn:Hclean.
  - destruct (clean_up_all_run _ _ _ _ Hclean) as [Hshrinks _].
    exists (inl e), w3. by split_and!.
  - destruct (clean_up_all_run _ _ _ _ Hclean) as [Hshrinks Hreturned].
    destruct (Hreturned eq_refl) as [Htrace Hgone].
    exists (inr notebooks), w3. by split_and!.
Qed.

End Facts.

(** C6 on the sample run with a rebuild asked for by the fetcher. *)
Lemma main_full_rebuild_witness :
  exists before w3 after,
    trace Sample.after_search = trace Sample.start ++ before /\
    Forall (fun ev => reprocessing ev = false) before /\
    Orchestrator.clear_outputs Sample.docs_root Sample.after_search = (ok tt, w3) /\
    trace w3 = trace Sample.after_search ++ Orchestrator.clearing Sample.docs_root /\
    (forall output_root p,
       output_root ∈ [EXEC_IPYNB_ROOT Sample.docs_root;
                      COLAB_IPYNB_ROOT Sample.docs_root;
                      ZIPPED_IPYNB_ROOT Sample.docs_root] ->
       disk Sample.after_search !! output_root = Some Directory ->
       is_under output_root p = true ->
       disk w3 !! p = None) /\
    Sample.run true true true false Sample.start
    = Orchestrator.package_and_execute Sample.do_nothing Sample.do_nothing Sample.pool
        true true Sample.found w3 /\
    trace (Sample.run true true true false Sample.start).2 = trace w3 ++ after /\
    after `prefix_of` planned true true Sample.found /\
    (forall x, (Sample.run true true true false Sample.start).1 = ok x ->
               after = planned true true Sample.found).
Proof.
  apply (main_full_rebuild Sample.docs_root Releases.release_Version
           Releases.release_gt Releases.three_pages Sample.nothing Sample.merge
           (Sample.download true) Sample.find Cleanup.Sample.zip_of
           Cleanup.Sample.colab_of Sample.do_nothing Sample.do_nothing Sample.pool
           Sample.start true true false (Sample.fetched true) Sample.after_fetch
           Sample.found Sample.after_search);
    reflexivity.
Defined.

(** C5 on the sample run without a rebuild: the fetcher reports the
    notebook [Sample.removed] as removed, and the disk holds its
    archive, its Colab directory and its executed copy. *)
Lemma main_incremental_witness :
  exists w3,
    Orchestrator.select Sample.docs_root Cleanup.Sample.zip_of Cleanup.Sample.colab_of
      false (Sample.fetched false) Sample.found Sample.after_search
    = (ok (Orchestrator.changed_and_found Sample.docs_root Sample.found
             (Sample.fetched false)), w3) /\
    trace w3 = trace Sample.after_search ++ [CleanedUp Sample.removed] /\
    (disk Sample.after_search
       !! (ZIPPED_IPYNB_ROOT Sample.docs_root // of_string "repo/examples/demo/demo.zip")
     = Some (File "archive") /\
     disk w3
       !! (ZIPPED_IPYNB_ROOT Sample.docs_root // of_string "repo/examples/demo/demo.zip")
     = None) /\
    (disk Sample.after_search
       !! (COLAB_IPYNB_ROOT Sample.docs_root
           // of_string "repo/examples/demo/environment.yaml")
     = Some (File "env") /\
     disk w3
       !! (COLAB_IPYNB_ROOT Sample.docs_root
           // of_string "repo/examples/demo/environment.yaml")
     = None) /\
    (disk Sample.after_search
       !! (EXEC_IPYNB_ROOT Sample.docs_root // of_string "repo/examples/demo/demo.ipynb")
     = Some (File "executed") /\
     disk w3
       !! (EXEC_IPYNB_ROOT Sample.docs_root // of_string "repo/examples/demo/demo.ipynb")
     = None) /\
    Sample.run false true true false Sample.start
    = Orchestrator.package_and_execute Sample.do_nothing Sample.do_nothing Sample.pool
        true true
        (Orchestrator.changed_and_found Sample.docs_root Sample.found
           (Sample.fetched false)) w3.
Proof.
  edestruct (main_incremental Sample.docs_root Releases.release_Version
               Releases.release_gt Releases.three_pages Sample.nothing Sample.merge
               (Sample.download false) Sample.find Cleanup.Sample.zip_of
               Cleanup.Sample.colab_of Sample.do_nothing Sample.do_nothing Sample.pool
               Sample.start true true (Sample.fetched false) Sample.after_fetch
               Sample.found Sample.after_search)
    as (_ & _ & before & T & _ & _ & _ & _ & _ & _ & outcome & w3 & Hselect & _ & Hout);
    [reflexivity..|].
  assert (Hreturned : outcome
                      = ok (Orchestrator.changed_and_found Sample.docs_root
                              Sample.found (Sample.fetched false))).
  { apply (f_equal fst) in Hselect. cbn [fst] in Hselect. rewrite <- Hselect.
    reflexivity. }
  rewrite Hreturned in Hselect, Hout. destruct Hout as (_ & Htrace & Hgone & Hmain).
  exists w3. split_and!; [exact Hselect|exact Htrace|by vm_compute| |by vm_compute|
                          |by vm_compute| |exact Hmain].
  - apply (Hgone Sample.removed); [by left|]. left. reflexivity.
  - apply (Hgone Sample.removed); [by left|]. right; left.
    exists (COLAB_IPYNB_ROOT Sample.docs_root // of_string "repo/examples/demo/demo.ipynb").
    split; reflexivity.
  - apply (Hgone Sample.removed); [by left|]. right; right.
    exists (of_string "repo/examples/demo/demo.ipynb"). split; reflexivity.
Defined.

End OrchestratorFacts.

(** * Further properties *)

(** ** The file-set resolver, continued *)

Module ResolverMore.
Import PurePath Globals Resolver PurePathFacts PydictFacts StrFacts ResolverFacts.

Lemma elem_of_keys_set {K V} `{EqDecision K} (k k' : K) (v : V) d :
  k' ∈ fst <$> Pydict.set k v d <-> k' = k \/ k' ∈ fst <$> d.
Proof.
  induction d as [|[k0 v0] d IH]; cbn [Pydict.set].
  - cbn. rewrite list_elem_of_singleton. split; [by left|].
    intros [?|Hin]; [done|]. by apply elem_of_nil in Hin.
  - case_decide as Hk; cbn [fmap list_fmap fst].
    + subst k0. rewrite !elem_of_cons. tauto.
    + change (list_fmap _ _ fst (Pydict.set k v d)) with (fst <$> Pydict.set k v d).
      change (list_fmap _ _ fst d) with (fst <$> d).
      rewrite !elem_of_cons, IH. tauto.
Qed.

Section Facts.
Variable OPENFF_DOCS_ROOT : Path.
Variable is_bare_notebook : Path -> bool.
Variable listdir : Path -> list string.

Abbreviation src_paths := (src_paths is_bare_notebook listdir).
Abbreviation candidates := (candidates is_bare_notebook listdir).
Abbreviation needed_files := (needed_files OPENFF_DOCS_ROOT is_bare_notebook listdir).

(** The keys the comprehension of lines 58-60 ends with are those it
    started with and the paths it went through. *)
Lemma files_of_keys base paths : forall files files',
  files_of base paths files = ok files' ->
  forall k, k ∈ fst <$> files' <-> k ∈ fst <$> files \/ k ∈ paths.
Proof.
  induction paths as [|path rest IH]; intros files files'; cbn [files_of].
  - intros [= <-] k. split; [by left|]. intros [?|Hin]; [done|].
    by apply elem_of_nil in Hin.
  - destruct (relative_to path base) as [e|rel]; [discriminate|]. cbn [rbind].
    intros Hrest k. rewrite (IH _ _ Hrest k), elem_of_keys_set, elem_of_cons. tauto.
Qed.

(** What [needed_files] returns, when it returns: the files that
    travel with the notebook, each with its relative path, and the
    environment entry of the branch taken. *)
Lemma needed_files_ok_inv notebook_path files :
  needed_files notebook_path = ok files ->
  exists files0,
    NoDup (fst <$> files0) /\
    (forall k v, (k, v) ∈ files0 -> relative_to k (parent notebook_path) = ok v) /\
    (forall k, k ∈ fst <$> files0 <-> k ∈ src_paths notebook_path) /\
    (candidates notebook_path = [] /\
       files = Pydict.set (UNIVERSAL_ENV_PATH OPENFF_DOCS_ROOT) PACKAGED_ENV_NAME files0
     \/ (exists only, candidates notebook_path = [only] /\
           files = Pydict.set only PACKAGED_ENV_NAME files0)
     \/ (2 <= length (candidates notebook_path) /\
           PACKAGED_ENV_NAME ∈ candidates notebook_path /\ files = files0)).
Proof.
  intros Hreturn.
  destruct (needed_files_cases OPENFF_DOCS_ROOT is_bare_notebook listdir notebook_path)
    as (files0 & Hfiles0 & Hnd & Hrel & Hnf).
  exists files0. split_and!; [done..| |].
  - intros k. rewrite (files_of_keys _ _ _ _ Hfiles0 k). split; [|by right].
    intros [Hin|?]; [|done]. by apply elem_of_nil in Hin.
  - rewrite Hreturn in Hnf.
    destruct (candidates notebook_path) as [|first [|second envs]].
    + left. split; [done|]. by injection Hnf.
    + right; left. exists first. split; [done|]. by injection Hnf.
    + right; right. cbv zeta in Hnf. case_bool_decide; [|discriminate].
      split_and!; [cbn; lia|done|by injection Hnf].
Qed.

(** A candidate is one of the files that travel. *)
Lemma candidates_src_paths notebook_path path :
  path ∈ candidates notebook_path ->
  path ∈ src_paths notebook_path /\ candidate path.
Proof. intros Hin. apply list_elem_of_filter in Hin. tauto. Qed.

(** A file that travels under the relative path [environment.yaml] is
    a candidate. *)
Lemma packaged_destination_candidate notebook_path path :
  path ∈ src_paths notebook_path ->
  relative_to path (parent notebook_path) = ok PACKAGED_ENV_NAME ->
  path ∈ candidates notebook_path.
Proof.
  intros Hin Hrel. apply list_elem_of_filter. split; [|done].
  apply relative_to_ok in Hrel as [Hunder Hdrop].
  apply (f_equal parts) in Hdrop. cbn [parts] in Hdrop.
  change (parts PACKAGED_ENV_NAME) with ["environment.yaml"] in Hdrop.
  apply is_under_spec in Hunder as [_ [rest Hparts]].
  rewrite Hparts, drop_app_length in Hdrop. subst rest.
  unfold candidate, name. rewrite Hparts, List.last_last. by left.
Qed.

(** X1: whenever [needed_files] returns, exactly one entry of the file
    set has the canonical name [PACKAGED_ENV_NAME] as its destination. *)
Theorem needed_files_one_environment notebook_path files :
  needed_files notebook_path = ok files ->
  exists src,
    (src, PACKAGED_ENV_NAME) ∈ files /\
    forall src', (src', PACKAGED_ENV_NAME) ∈ files -> src' = src.
Proof.
  intros Hreturn.
  destruct (needed_files_ok_inv _ _ Hreturn)
    as (files0 & Hnd & Hrel & Hkeys & [[Hnone ->]|[(only & Hone & ->)|(Hmany & Hin & ->)]]).
  - exists (UNIVERSAL_ENV_PATH OPENFF_DOCS_ROOT). split; [apply elem_of_set|].
    intros src' Hsrc'. apply elem_of_set_inv in Hsrc' as [[-> _]|[_ Hold]]; [done| |done].
    assert (Hsrc : src' ∈ src_paths notebook_path).
    { apply Hkeys, list_elem_of_fmap. by exists (src', PACKAGED_ENV_NAME). }
    pose proof (packaged_destination_candidate _ _ Hsrc (Hrel _ _ Hold)) as Hc.
    rewrite Hnone in Hc. by apply elem_of_nil in Hc.
  - exists only. split; [apply elem_of_set|].
    intros src' Hsrc'. apply elem_of_set_inv in Hsrc' as [[-> _]|[_ Hold]]; [done| |done].
    assert (Hsrc : src' ∈ src_paths notebook_path).
    { apply Hkeys, list_elem_of_fmap. by exists (src', PACKAGED_ENV_NAME). }
    pose proof (packaged_destination_candidate _ _ Hsrc (Hrel _ _ Hold)) as Hc.
    rewrite Hone in Hc. by apply list_elem_of_singleton in Hc.
  - apply candidates_src_paths in Hin as [Hsrc _].
    assert (Hbare : is_bare_notebook notebook_path = false).
    { destruct (is_bare_notebook notebook_path) eqn:E; [|done].
      unfold Resolver.candidates, Resolver.src_paths in Hmany. rewrite E in Hmany.
      rewrite filter_cons, filter_nil in Hmany. case_decide; cbn in Hmany; lia. }
    assert (Hself : relative_to PACKAGED_ENV_NAME (parent notebook_path)
                    = ok PACKAGED_ENV_NAME).
    { unfold Resolver.src_paths in Hsrc. rewrite Hbare in Hsrc.
      apply list_elem_of_filter in Hsrc as [_ Hsrc]. unfold iterdir in Hsrc.
      apply list_elem_of_fmap in Hsrc as (entry & Heq & _).
      destruct (parent notebook_path) as [r l].
      unfold make_child in Heq; cbn [root parts] in Heq.
      injection Heq as <- Hl. symmetry in Hl.
      apply app_singleton in Hl as [[-> _]|[_ [=]]]. reflexivity. }
    apply Hkeys, list_elem_of_fmap in Hsrc as ([k v] & Hk & Hkv). cbn in Hk. subst k.
    pose proof (Hrel _ _ Hkv) as Hv. rewrite Hself in Hv. injection Hv as <-.
    exists PACKAGED_ENV_NAME. split; [done|].
    intros src' Hsrc'. apply (relative_to_inj _ _ (parent notebook_path) PACKAGED_ENV_NAME).
    + by apply Hrel.
    + done.
Qed.

(** The sources of the file set [needed_files] returns. *)
Lemma needed_files_keys notebook_path files :
  needed_files notebook_path = ok files ->
  NoDup (fst <$> files) /\
  forall src,
    src ∈ fst <$> files <->
    src ∈ src_paths notebook_path \/
    (candidates notebook_path = [] /\ src = UNIVERSAL_ENV_PATH OPENFF_DOCS_ROOT).
Proof.
  intros Hreturn.
  destruct (needed_files_ok_inv _ _ Hreturn)
    as (files0 & Hnd & Hrel & Hkeys & [[Hnone ->]|[(only & Hone & ->)|(Hmany & Hin & ->)]]).
  - split; [by apply NoDup_keys_set|]. intros src.
    rewrite elem_of_keys_set, Hkeys. tauto.
  - split; [by apply NoDup_keys_set|]. intros src.
    rewrite elem_of_keys_set, Hkeys, Hone.
    assert (Honly : only ∈ src_paths notebook_path).
    { apply candidates_src_paths. rewrite Hone. by left. }
    split; [intros [->|?]; by left|]. intros [?|[[=] _]]. by right.
  - split; [done|]. intros src. rewrite Hkeys. split; [by left|].
    intros [?|[Hnone _]]; [done|]. rewrite Hnone in Hmany. cbn in Hmany. lia.
Qed.

(** X2: whenever [needed_files] returns, the sources of the file set
    are distinct, and they are the files that travel with the notebook
    (the notebook alone when it is bare, the entries of its directory
    that are not ignored otherwise), with the universal environment
    file added when, and only when, there is no candidate. *)
Theorem needed_files_sources notebook_path files :
  needed_files notebook_path = ok files ->
  NoDup (fst <$> files) /\
  forall src,
    src ∈ fst <$> files <->
    src ∈ src_paths notebook_path \/
    (candidates notebook_path = [] /\ src = UNIVERSAL_ENV_PATH OPENFF_DOCS_ROOT).
Proof. apply needed_files_keys. Qed.

(** Joining a relative path back to its base gives the path. *)
Lemma joinpath_relative_to p base rel :
  relative_to p base = ok rel -> base // rel = p.
Proof.
  intros [Hunder ->]%relative_to_ok.
  apply is_under_spec in Hunder as [Hroot [rest Hparts]].
  unfold joinpath; cbn [root parts]. destruct p as [r l]; cbn [root parts] in *.
  subst. by rewrite drop_app_length.
Qed.

(** X3: whenever [needed_files] returns, every destination is a
    relative path, and every entry other than the environment entry
    sends a file to its own path relative to the directory of the
    notebook: joined to that directory, the destination is the
    source. *)
Theorem needed_files_destinations notebook_path files :
  needed_files notebook_path = ok files ->
  forall src dst,
    (src, dst) ∈ files ->
    root dst = false /\
    (dst = PACKAGED_ENV_NAME \/ parent notebook_path // dst = src).
Proof.
  intros Hreturn src dst Hin.
  assert (Hold : forall files0 : list (Path * Path),
            (forall k v, (k, v) ∈ files0 ->
                         relative_to k (parent notebook_path) = ok v) ->
            (src, dst) ∈ files0 ->
            root dst = false /\
            (dst = PACKAGED_ENV_NAME \/ parent notebook_path // dst = src)).
  { intros files0 Hrel Hin0. pose proof (Hrel _ _ Hin0) as Hdst. split.
    - by apply relative_to_ok in Hdst as [_ ->].
    - right. by apply joinpath_relative_to. }
  destruct (needed_files_ok_inv _ _ Hreturn)
    as (files0 & Hnd & Hrel & Hkeys & [[Hnone ->]|[(only & Hone & ->)|(Hmany & _ & ->)]]).
  - apply elem_of_set_inv in Hin as [[_ ->]|[_ Hin]]; [|by apply (Hold files0)|done].
    split; [done | by left].
  - apply elem_of_set_inv in Hin as [[_ ->]|[_ Hin]]; [|by apply (Hold files0)|done].
    split; [done | by left].
  - by apply (Hold files0).
Qed.

Lemma name_make_child p entry : name (make_child p entry) = entry.
Proof. unfold name, make_child; cbn [parts]. apply List.last_last. Qed.

Lemma name_universal : name (UNIVERSAL_ENV_PATH OPENFF_DOCS_ROOT) = "examples_env.yml".
Proof.
  unfold name.
  change (parts (UNIVERSAL_ENV_PATH OPENFF_DOCS_ROOT))
    with (parts OPENFF_DOCS_ROOT ++ ["devtools"; "conda-envs"; "examples_env.yml"]).
  change ["devtools"; "conda-envs"; "examples_env.yml"]
    with (["devtools"; "conda-envs"] ++ ["examples_env.yml"]).
  rewrite app_assoc. apply List.last_last.
Qed.

(** X4: for a notebook that is not bare, no source of the file set
    [needed_files] returns bears a name of [IGNORED_FILES]. *)
Theorem needed_files_never_ignored notebook_path files :
  is_bare_notebook notebook_path = false ->
  needed_files notebook_path = ok files ->
  forall src, src ∈ fst <$> files -> name src ∉ IGNORED_FILES.
Proof.
  intros Hbare Hreturn src Hsrc.
  apply (needed_files_keys _ _ Hreturn) in Hsrc as [Hsrc|[_ ->]].
  - unfold Resolver.src_paths in Hsrc. rewrite Hbare in Hsrc.
    by apply list_elem_of_filter in Hsrc as [? _].
  - rewrite name_universal. unfold IGNORED_FILES.
    rewrite !not_elem_of_cons. split_and!; try discriminate. apply not_elem_of_nil.
Qed.

Lemma drop_removelast {A} (l : list A) d :
  l <> [] -> drop (length (removelast l)) l = [List.last l d].
Proof.
  induction l as [|a [|b l] IH]; [done|done|]. intros _.
  change (removelast (a :: b :: l)) with (a :: removelast (b :: l)).
  cbn [length drop]. rewrite IH by done. reflexivity.
Qed.

(** X5: for a bare notebook, a file named [*.ipynb], [needed_files]
    returns two entries and no more: the notebook under its own name,
    then the universal environment file under the canonical name. *)
Theorem needed_files_bare notebook_path :
  is_bare_notebook notebook_path = true ->
  is_ipynb notebook_path ->
  needed_files notebook_path
  = ok [ (notebook_path, {| root := false; parts := [name notebook_path] |});
         (UNIVERSAL_ENV_PATH OPENFF_DOCS_ROOT, PACKAGED_ENV_NAME) ].
Proof.
  intros Hbare Hnb.
  destruct (needed_files_cases OPENFF_DOCS_ROOT is_bare_notebook listdir notebook_path)
    as (files0 & Hfiles0 & _ & _ & ->).
  rewrite (bare_ipynb_candidates is_bare_notebook listdir _ Hbare Hnb).
  assert (Hparts : parts notebook_path <> []).
  { destruct Hnb as [stem Hname]. unfold name in Hname. intros Hnil.
    rewrite Hnil in Hname. cbn in Hname.
    apply (f_equal Str.last_char) in Hname.
    by rewrite last_char_app in Hname. }
  unfold Resolver.src_paths in Hfiles0. rewrite Hbare in Hfiles0.
  cbn [files_of] in Hfiles0. unfold relative_to in Hfiles0.
  rewrite is_under_parent in Hfiles0. cbn [rbind ok Pydict.set] in Hfiles0.
  injection Hfiles0 as <-. unfold parent; cbn [parts].
  rewrite (drop_removelast _ "") by done. fold (name notebook_path).
  cbn [Pydict.set]. rewrite decide_False; [done|].
  intros Heq. apply (f_equal name) in Heq. rewrite name_universal in Heq.
  destruct Hnb as [stem Hname]. rewrite Hname in Heq.
  apply (f_equal Str.last_char) in Heq. by rewrite last_char_app in Heq.
Qed.

Lemma two_elements {A} (x y : A) l : x ∈ l -> y ∈ l -> x <> y -> 2 <= length l.
Proof.
  destruct l as [|a [|b l]]; cbn.
  - by intros ?%elem_of_nil.
  - intros ->%list_elem_of_singleton ->%list_elem_of_singleton. done.
  - lia.
Qed.

(** X6: for a notebook that is not bare and whose directory is not
    [Path(".")], [needed_files] raises the error of lines 86-90 as
    soon as the directory lists both [environment.yaml] and
    [environment.yml]. *)
Theorem needed_files_both_spellings notebook_path :
  is_bare_notebook notebook_path = false ->
  parent notebook_path <> of_string "." ->
  "environment.yaml" ∈ listdir (parent notebook_path) ->
  "environment.yml" ∈ listdir (parent notebook_path) ->
  needed_files notebook_path
  = raise (ValueError (ambiguous_message (candidates notebook_path))).
Proof.
  intros Hbare Hdir Hyaml Hyml.
  apply needed_files_raises; [|by apply packaged_not_candidate].
  assert (Hin : forall entry,
            entry ∈ ["environment.yaml"; "environment.yml"] ->
            entry ∈ listdir (parent notebook_path) ->
            make_child (parent notebook_path) entry ∈ candidates notebook_path).
  { intros entry Hentry Hlisted.
    unfold Resolver.candidates, Resolver.src_paths. rewrite Hbare.
    apply list_elem_of_filter. split.
    - unfold candidate. rewrite name_make_child.
      repeat (apply elem_of_cons in Hentry as [->|Hentry]);
        [by left|right; by left|by apply elem_of_nil in Hentry].
    - apply list_elem_of_filter. split.
      + rewrite name_make_child. unfold IGNORED_FILES.
        repeat (apply elem_of_cons in Hentry as [->|Hentry]);
          [| |by apply elem_of_nil in Hentry];
          (rewrite !not_elem_of_cons; split_and!; try discriminate;
           apply not_elem_of_nil).
      + unfold iterdir. apply list_elem_of_fmap. by exists entry. }
  apply (two_elements (make_child (parent notebook_path) "environment.yaml")
                      (make_child (parent notebook_path) "environment.yml")).
  - apply Hin; [by left|done].
  - apply Hin; [right; by left|done].
  - intros Heq. apply (f_equal name) in Heq. by rewrite !name_make_child in Heq.
Qed.

End Facts.

(** X2 on a directory whose only environment file is [environment.yml]. *)
Lemma needed_files_sources_witness :
  NoDup (fst <$> [ (Sample.notebook_dir // of_string "demo.ipynb", of_string "demo.ipynb");
                   (Sample.notebook_dir // of_string "molecule.sdf",
                    of_string "molecule.sdf");
                   (Sample.notebook_dir // of_string "environment.yml",
                    PACKAGED_ENV_NAME) ]) /\
  forall src,
    src ∈ fst <$> [ (Sample.notebook_dir // of_string "demo.ipynb", of_string "demo.ipynb");
                    (Sample.notebook_dir // of_string "molecule.sdf",
                     of_string "molecule.sdf");
                    (Sample.notebook_dir // of_string "environment.yml",
                     PACKAGED_ENV_NAME) ] <->
    src ∈ Resolver.src_paths Sample.never_bare Sample.only_yml Sample.notebook \/
    (Resolver.candidates Sample.never_bare Sample.only_yml Sample.notebook = [] /\
     src = UNIVERSAL_ENV_PATH Sample.docs_root).
Proof.
  apply (needed_files_sources Sample.docs_root Sample.never_bare
           Sample.only_yml Sample.notebook).
  by vm_compute.
Defined.

(** X3 on a directory without an environment file, at the entry of
    the data file of the notebook. *)
Lemma needed_files_destinations_witness :
  root (of_string "molecule.sdf") = false /\
  (of_string "molecule.sdf" = PACKAGED_ENV_NAME \/
   parent Sample.notebook // of_string "molecule.sdf"
   = Sample.notebook_dir // of_string "molecule.sdf").
Proof.
  apply (needed_files_destinations Sample.docs_root Sample.never_bare
           Sample.no_environment Sample.notebook
           [ (Sample.notebook_dir // of_string "demo.ipynb", of_string "demo.ipynb");
             (Sample.notebook_dir // of_string "molecule.sdf",
              of_string "molecule.sdf");
             (UNIVERSAL_ENV_PATH Sample.docs_root, PACKAGED_ENV_NAME) ]).
  - by vm_compute.
  - right; by left.
Defined.

(** X4 on a directory that holds a thumbnail, at the source of the
    data file of the notebook. *)
Lemma needed_files_never_ignored_witness :
  name (Sample.notebook_dir // of_string "molecule.sdf") ∉ IGNORED_FILES.
Proof.
  apply (needed_files_never_ignored Sample.docs_root Sample.never_bare
           Sample.no_environment Sample.notebook
           [ (Sample.notebook_dir // of_string "demo.ipynb", of_string "demo.ipynb");
             (Sample.notebook_dir // of_string "molecule.sdf",
              of_string "molecule.sdf");
             (UNIVERSAL_ENV_PATH Sample.docs_root, PACKAGED_ENV_NAME) ]).
  - by vm_compute.
  - by vm_compute.
  - cbn [fmap list_fmap fst]. right; by left.
Defined.

(** X5 on a bare notebook. *)
Lemma needed_files_bare_witness :
  Resolver.needed_files Sample.docs_root (fun _ => true) Sample.both_spellings
    Sample.notebook
  = ok [ (Sample.notebook, {| root := false; parts := [name Sample.notebook] |});
         (UNIVERSAL_ENV_PATH Sample.docs_root, PACKAGED_ENV_NAME) ].
Proof.
  apply needed_files_bare; [reflexivity|]. exists "demo". by vm_compute.
Defined.

(** X6 on a directory of the source cache with both spellings. *)
Lemma needed_files_both_spellings_witness :
  Resolver.needed_files Sample.docs_root Sample.never_bare Sample.both_spellings
    Sample.notebook
  = raise (ValueError (ambiguous_message
             (Resolver.candidates Sample.never_bare Sample.both_spellings
                Sample.notebook))).
Proof.
  apply needed_files_both_spellings; [reflexivity|by vm_compute|..].
  - right; by left.
  - right; right; by left.
Defined.

(** X1 on a directory whose only environment file is [environment.yml]. *)
Lemma needed_files_one_environment_witness :
  exists src,
    (src, PACKAGED_ENV_NAME)
      ∈ [ (Sample.notebook_dir // of_string "demo.ipynb", of_string "demo.ipynb");
          (Sample.notebook_dir // of_string "molecule.sdf", of_string "molecule.sdf");
          (Sample.notebook_dir // of_string "environment.yml", PACKAGED_ENV_NAME) ] /\
    forall src',
      (src', PACKAGED_ENV_NAME)
        ∈ [ (Sample.notebook_dir // of_string "demo.ipynb", of_string "demo.ipynb");
            (Sample.notebook_dir // of_string "molecule.sdf", of_string "molecule.sdf");
            (Sample.notebook_dir // of_string "environment.yml", PACKAGED_ENV_NAME) ] ->
      src' = src.
Proof.
  apply (needed_files_one_environment Sample.docs_root Sample.never_bare
           Sample.only_yml Sample.notebook).
  by vm_compute.
Defined.

End ResolverMore.

(** ** Cleaning up, continued *)

Module CleanupMore.
Import PurePath Globals Filesystem Cleanup PurePathFacts FilesystemFacts.

Section Facts.
Variable OPENFF_DOCS_ROOT : Path.
Variable notebook_zip : Path -> result Path.
Variable notebook_colab : Path -> result Path.

Abbreviation clean_up_notebook :=
  (clean_up_notebook OPENFF_DOCS_ROOT notebook_zip notebook_colab).

(** The run of [clean_up_notebook] when nothing stands in its way. *)
Lemma clean_up_notebook_run (fs : filesystem) notebook zip colab rel c1 c2 :
  notebook_zip notebook = ok zip ->
  notebook_colab notebook = ok colab ->
  relative_to notebook (SRC_IPYNB_ROOT OPENFF_DOCS_ROOT) = ok rel ->
  fs !! zip = Some (File c1) ->
  fs !! parent colab = Some Directory ->
  fs !! (EXEC_IPYNB_ROOT OPENFF_DOCS_ROOT // rel) = Some (File c2) ->
  zip <> EXEC_IPYNB_ROOT OPENFF_DOCS_ROOT // rel ->
  is_under (parent colab) (EXEC_IPYNB_ROOT OPENFF_DOCS_ROOT // rel) = false ->
  clean_up_notebook notebook fs
  = (ok tt, delete (EXEC_IPYNB_ROOT OPENFF_DOCS_ROOT // rel)
              (without_tree (parent colab) (delete zip fs))).
Proof.
  intros Hzip Hcolab Hrel Hz Hc He Hze Hce.
  unfold Cleanup.clean_up_notebook.
  rewrite Hzip, ProgFacts.bind_lift_ok.
  rewrite (ProgFacts.bind_ok _ _ _ tt (delete zip fs))
    by (unfold unlink; by rewrite Hz).
  rewrite Hcolab, ProgFacts.bind_lift_ok.
  rewrite (ProgFacts.bind_ok _ _ _ tt (without_tree (parent colab) (delete zip fs))).
  2:{ unfold rmtree. rewrite lookup_delete_ne by congruence. by rewrite Hc. }
  rewrite Hrel, ProgFacts.bind_lift_ok. unfold unlink.
  rewrite lookup_without_tree, Hce, lookup_delete_ne by done.
  by rewrite He.
Qed.

(** The run of [clean_up_notebook] without an archive. *)
Lemma clean_up_notebook_no_archive (fs : filesystem) notebook zip :
  notebook_zip notebook = ok zip ->
  fs !! zip = None ->
  clean_up_notebook notebook fs = (raise (FileNotFoundError (str zip)), fs).
Proof.
  intros Hzip Hz. unfold Cleanup.clean_up_notebook.
  rewrite Hzip, ProgFacts.bind_lift_ok.
  apply ProgFacts.bind_raise. unfold unlink. by rewrite Hz.
Qed.

(** X7: when the archive of the notebook is missing,
    [clean_up_notebook] raises [FileNotFoundError] for the archive and
    leaves the file system as it was, the Colab directory and the
    executed copy included. *)
Theorem clean_up_notebook_missing_archive (fs : filesystem) notebook zip :
  notebook_zip notebook = ok zip ->
  fs !! zip = None ->
  clean_up_notebook notebook fs = (raise (FileNotFoundError (str zip)), fs).
Proof. apply clean_up_notebook_no_archive. Qed.

(** X8: [clean_up_notebook] cannot be repeated: after a call that
    removed the three processed versions, a second call for the same
    notebook raises [FileNotFoundError] for the archive and changes
    nothing. *)
Theorem clean_up_notebook_twice (fs : filesystem) notebook zip colab rel c1 c2 :
  notebook_zip notebook = ok zip ->
  notebook_colab notebook = ok colab ->
  relative_to notebook (SRC_IPYNB_ROOT OPENFF_DOCS_ROOT) = ok rel ->
  fs !! zip = Some (File c1) ->
  fs !! parent colab = Some Directory ->
  fs !! (EXEC_IPYNB_ROOT OPENFF_DOCS_ROOT // rel) = Some (File c2) ->
  zip <> EXEC_IPYNB_ROOT OPENFF_DOCS_ROOT // rel ->
  is_under (parent colab) (EXEC_IPYNB_ROOT OPENFF_DOCS_ROOT // rel) = false ->
  exists fs',
    clean_up_notebook notebook fs = (ok tt, fs') /\
    clean_up_notebook notebook fs' = (raise (FileNotFoundError (str zip)), fs').
Proof.
  intros Hzip Hcolab Hrel Hz Hc He Hze Hce. eexists. split.
  - by eapply clean_up_notebook_run.
  - apply clean_up_notebook_no_archive; [done|].
    rewrite lookup_delete_ne by done. rewrite lookup_without_tree.
    destruct (is_under _ zip); [done|]. apply lookup_delete_eq.
Qed.

(** X9: [clean_up_notebook] is not all-or-nothing: when the archive is
    there and the Colab directory is not, the call raises
    [FileNotFoundError] for the directory after it has deleted the
    archive; every other path, the executed copy among them, is left
    as it was. *)
Theorem clean_up_notebook_missing_colab (fs : filesystem) notebook zip colab c1 :
  notebook_zip notebook = ok zip ->
  notebook_colab notebook = ok colab ->
  fs !! zip = Some (File c1) ->
  fs !! parent colab = None ->
  exists fs',
    clean_up_notebook notebook fs
    = (raise (FileNotFoundError (str (parent colab))), fs') /\
    fs' !! zip = None /\
    forall p, p <> zip -> fs' !! p = fs !! p.
Proof.
  intros Hzip Hcolab Hz Hc. exists (delete zip fs). split_and!.
  - unfold Cleanup.clean_up_notebook.
    rewrite Hzip, ProgFacts.bind_lift_ok.
    rewrite (ProgFacts.bind_ok _ _ _ tt (delete zip fs))
      by (unfold unlink; by rewrite Hz).
    rewrite Hcolab, ProgFacts.bind_lift_ok.
    apply ProgFacts.bind_raise. unfold rmtree.
    rewrite lookup_delete_ne by congruence. by rewrite Hc.
  - apply lookup_delete_eq.
  - intros p Hp. by rewrite lookup_delete_ne.
Qed.

End Facts.

(** X7 on an empty disk. *)
Lemma clean_up_notebook_missing_archive_witness :
  Cleanup.clean_up_notebook Sample.docs_root Sample.zip_of Sample.colab_of
    Sample.notebook ∅
  = (raise (FileNotFoundError
              (str (ZIPPED_IPYNB_ROOT Sample.docs_root
                    // of_string "repo/examples/demo/demo.zip"))), ∅).
Proof.
  apply clean_up_notebook_missing_archive; by vm_compute.
Defined.

(** X8 on the sample disk. *)
Lemma clean_up_notebook_twice_witness :
  exists fs',
    Cleanup.clean_up_notebook Sample.docs_root Sample.zip_of Sample.colab_of
      Sample.notebook Sample.disk = (ok tt, fs') /\
    Cleanup.clean_up_notebook Sample.docs_root Sample.zip_of Sample.colab_of
      Sample.notebook fs'
    = (raise (FileNotFoundError
                (str (ZIPPED_IPYNB_ROOT Sample.docs_root
                      // of_string "repo/examples/demo/demo.zip"))), fs').
Proof.
  apply (clean_up_notebook_twice Sample.docs_root Sample.zip_of Sample.colab_of
           Sample.disk Sample.notebook
           (ZIPPED_IPYNB_ROOT Sample.docs_root // of_string "repo/examples/demo/demo.zip")
           (COLAB_IPYNB_ROOT Sample.docs_root // of_string "repo/examples/demo/demo.ipynb")
           (of_string "repo/examples/demo/demo.ipynb")
           "archive" "executed");
    by vm_compute.
Defined.

(** X9 on a disk that holds the archive and nothing else. *)
Lemma clean_up_notebook_missing_colab_witness :
  exists fs',
    Cleanup.clean_up_notebook Sample.docs_root Sample.zip_of Sample.colab_of
      Sample.notebook
      {[ ZIPPED_IPYNB_ROOT Sample.docs_root // of_string "repo/examples/demo/demo.zip"
         := File "archive" ]}
    = (raise (FileNotFoundError
                (str (parent (COLAB_IPYNB_ROOT Sample.docs_root
                              // of_string "repo/examples/demo/demo.ipynb")))), fs') /\
    fs' !! (ZIPPED_IPYNB_ROOT Sample.docs_root
            // of_string "repo/examples/demo/demo.zip") = None /\
    forall p,
      p <> ZIPPED_IPYNB_ROOT Sample.docs_root // of_string "repo/examples/demo/demo.zip" ->
      fs' !! p
      = ({[ ZIPPED_IPYNB_ROOT Sample.docs_root // of_string "repo/examples/demo/demo.zip"
            := File "archive" ]} : filesystem) !! p.
Proof.
  apply (clean_up_notebook_missing_colab Sample.docs_root Sample.zip_of Sample.colab_of
           _ Sample.notebook _
           (COLAB_IPYNB_ROOT Sample.docs_root // of_string "repo/examples/demo/demo.ipynb")
           "archive");
    by vm_compute.
Defined.

End CleanupMore.

(** ** The latest release, continued *)

Module ReleasesMore.
Import Releases ReleasesOrder ReleasesFacts.

Section Facts.
Context {K : Type}.
Variable Version : string -> result K.
Variable Version_gt : K -> K -> bool.
Variable releases : string -> listing.

Abbreviation get_stable_tagname :=
  (get_stable_tagname Version Version_gt releases).

(** A page that was not answered stops the walk along the [next]
    links, whatever was collected. *)
Lemma follow_next_error pages : forall release_tags,
  Exists (fun r => status_ok r = false) pages ->
  follow_next pages release_tags = raise HTTPError.
Proof.
  induction pages as [|r pages IH]; intros release_tags Hbad.
  - by apply Exists_nil in Hbad.
  - cbn [follow_next]. destruct (status_ok r) eqn:Hr; [|done].
    apply IH. apply Exists_cons in Hbad as [Hbad|Hbad]; [congruence|done].
Qed.

(** When the walk returns, it returns the tags of all the pages. *)
Lemma follow_next_returns pages : forall release_tags tags,
  follow_next pages release_tags = ok tags ->
  tags = release_tags ++ concat (tag_names <$> pages).
Proof.
  induction pages as [|r pages IH]; intros release_tags tags; cbn [follow_next].
  - intros [= <-]. by rewrite app_nil_r.
  - destruct (status_ok r); [|discriminate]. intros ->%IH.
    cbn. by rewrite app_assoc.
Qed.

(** X10: when one page of the listing, the first or a later one, comes
    with an error status, [get_stable_tagname] raises [HTTPError]: no
    tag is returned, whatever the pages that were answered hold. *)
Theorem get_stable_tagname_http_error repo :
  status_ok (releases (releases_url repo)).1 = false \/
  Exists (fun r => status_ok r = false) (releases (releases_url repo)).2 ->
  get_stable_tagname repo = raise HTTPError.
Proof.
  unfold Releases.get_stable_tagname.
  destruct (releases (releases_url repo)) as [r pages]. cbn [fst snd].
  intros [->|Hbad]; [done|]. destruct (status_ok r); [|done].
  by rewrite follow_next_error.
Qed.

(** One invalid item makes the loop of [max] raise. *)
Lemma max_from_invalid items : forall best best_key,
  Exists (fun t => exists e, Version t = raise e) items ->
  exists e, max_from Version Version_gt best best_key items = raise e.
Proof.
  induction items as [|item items IH]; intros best best_key Hbad.
  - by apply Exists_nil in Hbad.
  - cbn [max_from]. destruct (Version item) as [e|key] eqn:Hitem; [by exists e|].
    cbn [rbind]. apply Exists_cons in Hbad as [[e He]|Hbad];
      [rewrite Hitem in He; discriminate|].
    destruct (Version_gt key best_key); by apply IH.
Qed.

(** X11: when every page is answered and one tag of the listing is not
    a valid version, [get_stable_tagname] raises: a single invalid tag
    keeps the valid ones from being returned. *)
Theorem get_stable_tagname_invalid_tag repo t e :
  all_ok (releases (releases_url repo)) ->
  t ∈ all_tags (releases (releases_url repo)) ->
  Version t = raise e ->
  exists e', get_stable_tagname repo = raise e'.
Proof.
  unfold Releases.get_stable_tagname, all_ok, all_tags.
  destruct (releases (releases_url repo)) as [r pages]. cbn [fst snd].
  intros [Hr Hpages] Hin Ht. rewrite Hr, follow_next_ok by done. cbn [rbind ok].
  destruct (tag_names r ++ concat (tag_names <$> pages)) as [|first items];
    [by apply elem_of_nil in Hin|].
  unfold max_by_Version. apply elem_of_cons in Hin as [->|Hin].
  - rewrite Ht. by exists e.
  - destruct (Version first) as [e'|key]; [by exists e'|]. cbn [rbind].
    apply max_from_invalid, Exists_exists. exists t. split; [done|]. by exists e.
Qed.

(** X12: when every page is answered and none lists a release,
    [get_stable_tagname] raises [ValueError]. *)
Theorem get_stable_tagname_no_release repo :
  all_ok (releases (releases_url repo)) ->
  all_tags (releases (releases_url repo)) = [] ->
  exists msg, get_stable_tagname repo = raise (ValueError msg).
Proof.
  unfold Releases.get_stable_tagname, all_ok, all_tags.
  destruct (releases (releases_url repo)) as [r pages]. cbn [fst snd].
  intros [Hr Hpages] Hnone. rewrite Hr, follow_next_ok by done. cbn [rbind ok].
  rewrite Hnone. by eexists.
Qed.

Hypothesis Hgt : weak_order Version_gt.

(** The item the loop of [max] returns exceeds every item before it. *)
Lemma max_from_first items : forall best best_key tag,
  max_from Version Version_gt best best_key items = ok tag ->
  tag = best \/
  exists before after k,
    items = before ++ tag :: after /\
    Version tag = ok k /\ Version_gt k best_key = true /\
    forall t kt, t ∈ before -> Version t = ok kt -> Version_gt k kt = true.
Proof.
  destruct Hgt as [[Hirr Htrans] Hweak].
  induction items as [|item items IH]; intros best best_key tag; cbn [max_from].
  - intros [= <-]. by left.
  - destruct (Version item) as [e|key] eqn:Hitem; [discriminate|]. cbn [rbind].
    destruct (Version_gt key best_key) eqn:Hcmp; intros Hrun.
    + right. destruct (IH _ _ _ Hrun) as [->|(before & after & k & -> & Hk & Hgtk & Hbefore)].
      * exists [], items, key. split_and!; [done..|].
        intros t kt Hin. by apply elem_of_nil in Hin.
      * exists (item :: before), after, k. split_and!; [done|done|by apply (Htrans _ key)|].
        intros t kt [->|Hin]%elem_of_cons Hkt; [|by apply (Hbefore t)].
        rewrite Hitem in Hkt. by injection Hkt as <-.
    + destruct (IH _ _ _ Hrun) as [->|(before & after & k & -> & Hk & Hgtk & Hbefore)];
        [by left|].
      right. exists (item :: before), after, k. split_and!; [done..|].
      intros t kt [->|Hin]%elem_of_cons Hkt; [|by apply (Hbefore t)].
      rewrite Hitem in Hkt. injection Hkt as <-.
      destruct (Hweak _ _ key Hgtk) as [?|Hcontra]; [done|congruence].
Qed.

(** X13: of the tags with the greatest version, [get_stable_tagname]
    returns the one listed first: the tag it returns is a tag of the
    listing whose version exceeds the version of every tag listed
    before it. *)
Theorem get_stable_tagname_first repo tag :
  get_stable_tagname repo = ok tag ->
  exists before after k,
    all_tags (releases (releases_url repo)) = before ++ tag :: after /\
    Version tag = ok k /\
    forall t kt, t ∈ before -> Version t = ok kt -> Version_gt k kt = true.
Proof.
  unfold Releases.get_stable_tagname, all_tags.
  destruct (releases (releases_url repo)) as [r pages]. cbn [fst snd].
  destruct (status_ok r); [|discriminate].
  destruct (follow_next pages (tag_names r)) as [e|tags] eqn:Hwalk; [discriminate|].
  apply follow_next_returns in Hwalk as ->. cbn [rbind].
  destruct (tag_names r ++ concat (tag_names <$> pages)) as [|first items];
    [discriminate|].
  unfold max_by_Version.
  destruct (Version first) as [e|key] eqn:Hfirst; [discriminate|]. cbn [rbind].
  intros Hrun.
  destruct (max_from_first _ _ _ _ Hrun) as [->|(before & after & k & -> & Hk & Hgtk & Hbefore)].
  - exists [], items, key. split_and!; [done..|].
    intros t kt Hin. by apply elem_of_nil in Hin.
  - exists (first :: before), after, k. split_and!; [done..|].
    intros t kt [->|Hin]%elem_of_cons Hkt; [|by apply (Hbefore t)].
    rewrite Hfirst in Hkt. by injection Hkt as <-.
Qed.

End Facts.

(** The order of final releases is a strict weak order. *)
Lemma release_gt_weak a : forall b c,
  release_gt a b = true -> release_gt a c = true \/ release_gt c b = true.
Proof.
  induction a as [|x a IH]; intros [|y b] [|z c]; cbn [release_gt]; try done;
    try (intros _; by left); try (intros _; by right).
  - destruct (N.ltb_spec y x), (N.ltb_spec z x), (N.ltb_spec y z),
      (N.eqb_spec x y), (N.eqb_spec x z), (N.eqb_spec z y);
      try done; try lia; try (intros _; by left); try (intros _; by right).
    apply IH.
Qed.

Lemma release_weak_order : weak_order release_gt.
Proof. split; [apply release_strict_order | intros a b c; apply release_gt_weak]. Qed.

(** X10 on a listing whose second page was not answered. *)
Lemma get_stable_tagname_http_error_witness :
  get_stable_tagname release_Version release_gt
    (fun _ => (Response true ["0.9.0"], [Response false []; Response true ["0.10.0"]]))
    "openforcefield/openff-toolkit"
  = raise HTTPError.
Proof.
  apply get_stable_tagname_http_error. right. cbn. apply Exists_cons. by left.
Defined.

(** X11 on a listing with a tag that is no version. *)
Lemma get_stable_tagname_invalid_tag_witness :
  exists e',
    get_stable_tagname release_Version release_gt
      (fun _ => (Response true ["0.9.0"; "nightly"; "0.10.0"], []))
      "openforcefield/openff-toolkit"
    = raise e'.
Proof.
  apply (get_stable_tagname_invalid_tag release_Version release_gt _ _ "nightly"
           (InvalidVersion "nightly")).
  - split; [reflexivity|constructor].
  - cbn. right; by left.
  - reflexivity.
Defined.

(** X12 on a repository without releases. *)
Lemma get_stable_tagname_no_release_witness :
  exists msg,
    get_stable_tagname release_Version release_gt (fun _ => (Response true [], []))
      "openforcefield/openff-toolkit"
    = raise (ValueError msg).
Proof.
  apply get_stable_tagname_no_release; [|reflexivity].
  split; [reflexivity|constructor].
Defined.

(** X13 on three pages where [0.14.0] comes before [0.14]. *)
Lemma get_stable_tagname_first_witness :
  exists before after k,
    all_tags (three_pages (releases_url "openforcefield/openff-toolkit"))
    = before ++ "0.14.0" :: after /\
    release_Version "0.14.0" = ok k /\
    forall t kt, t ∈ before -> release_Version t = ok kt -> release_gt k kt = true.
Proof.
  apply (get_stable_tagname_first release_Version release_gt three_pages
           release_weak_order "openforcefield/openff-toolkit").
  reflexivity.
Defined.

End ReleasesMore.

(** ** The executor, continued *)

Module ExecutorMore.
Import PurePath Globals Filesystem Script Executor ExecutorTerms.
Import PurePathFacts ScriptFacts.

(** Making the directories down to a path leaves a directory there. *)
Lemma mkdir_below_makes names : forall base (fs fs' : filesystem),
  names <> [] ->
  mkdir_below base names fs = (ok tt, fs') ->
  fs' !! {| root := root base; parts := parts base ++ names |} = Some Directory.
Proof.
  induction names as [|entry names IH]; intros base fs fs' Hne; [done|].
  cbn [mkdir_below].
  assert (Hnext : forall fs0 : filesystem,
            fs0 !! make_child base entry = Some Directory ->
            mkdir_below (make_child base entry) names fs0 = (ok tt, fs') ->
            fs' !! {| root := root base; parts := parts base ++ entry :: names |}
            = Some Directory).
  { intros fs0 Hdir Hrun. destruct names as [|next names].
    - cbn [mkdir_below] in Hrun. injection Hrun as <-. exact Hdir.
    - apply IH in Hrun; [|done]. cbn [make_child root parts] in Hrun.
      by rewrite <- app_assoc in Hrun. }
  destruct (fs !! make_child base entry) as [[c|]|] eqn:Hd.
  - by destruct names.
  - by apply Hnext.
  - apply Hnext. apply lookup_insert_eq.
Qed.

Lemma mkdir_parents_makes d (fs fs' : filesystem) :
  parts d <> [] ->
  mkdir_parents d fs = (ok tt, fs') ->
  fs' !! d = Some Directory.
Proof.
  intros Hne Hrun. apply mkdir_below_makes in Hrun; [|done].
  cbn [root parts app] in Hrun. by destruct d.
Qed.

Section Facts.
Variable OPENFF_DOCS_ROOT : Path.
Variable nbformat_read : string -> result notebook.
Variable nbformat_write : notebook -> string.
Variable preprocess : notebook -> Path -> prog filesystem notebook.
Variable default_cell_type : string.
Variable default_position : nat.

Abbreviation execute_notebook :=
  (execute_notebook OPENFF_DOCS_ROOT nbformat_read nbformat_write preprocess
     default_cell_type default_position).
Abbreviation handed_over := (handed_over default_cell_type default_position).

(** The run of [execute_notebook] up to the call of the engine. *)
Lemma execute_notebook_to_engine fs t src src_rel text original :
  relative_to src (SRC_IPYNB_ROOT OPENFF_DOCS_ROOT) = ok src_rel ->
  fs !! src = Some (File text) ->
  nbformat_read text = ok original ->
  execute_notebook src {| disk := fs; trace := t |}
  = Prog.bind
      (reraise_as (ValueError (failure_message src_rel))
         (call (Preprocessed
                  (handed_over (exists_ (parent src // of_string "thumbnail.png") fs)
                     original) (parent src))
               (preprocess
                  (handed_over (exists_ (parent src // of_string "thumbnail.png") fs)
                     original) (parent src))))
      (fun executed =>
         Prog.bind
           (quiet (mkdir_parents (parent (EXEC_IPYNB_ROOT OPENFF_DOCS_ROOT // src_rel))))
           (fun _ => quiet (write_text (EXEC_IPYNB_ROOT OPENFF_DOCS_ROOT // src_rel)
                              (nbformat_write executed))))
      {| disk := fs; trace := t |}.
Proof.
  intros Hrel Hsrc Hread. unfold Executor.execute_notebook.
  rewrite Hrel, ProgFacts.bind_lift_ok.
  rewrite (ProgFacts.bind_ok _ _ _ text {| disk := fs; trace := t |})
    by (unfold quiet, read_text; cbn [disk trace]; by rewrite Hsrc).
  rewrite Hread, ProgFacts.bind_lift_ok.
  by rewrite (ProgFacts.bind_ok _ _ _
                (exists_ (parent src // of_string "thumbnail.png") fs)
                {| disk := fs; trace := t |}) by reflexivity.
Qed.

(** X14: when the engine raises, whatever the exception,
    [execute_notebook] raises a [ValueError] whose message ends with
    the path of the notebook relative to the source cache; the call of
    the engine is the last thing it did: no executed copy is written. *)
Theorem execute_notebook_engine_failure w src src_rel text original e fs' :
  relative_to src (SRC_IPYNB_ROOT OPENFF_DOCS_ROOT) = ok src_rel ->
  disk w !! src = Some (File text) ->
  nbformat_read text = ok original ->
  preprocess
    (handed_over (exists_ (parent src // of_string "thumbnail.png") (disk w)) original)
    (parent src) (disk w) = (raise e, fs') ->
  execute_notebook src w
  = (raise (ValueError ("Exception encountered while executing " +:+ str src_rel)),
     {| disk := fs';
        trace := trace w
                 ++ [Preprocessed
                       (handed_over
                          (exists_ (parent src // of_string "thumbnail.png") (disk w))
                          original) (parent src)] |}).
Proof.
  intros Hrel Hsrc Hread Hengine. destruct w as [fs t]. cbn [disk trace] in *.
  rewrite (execute_notebook_to_engine _ _ _ _ _ _ Hrel Hsrc Hread).
  unfold Prog.bind at 1, reraise_as, call. cbn [disk trace]. by rewrite Hengine.
Qed.

(** X15: a notebook that is not under the source cache, a notebook
    file that is missing, and a notebook that [nbformat] cannot read
    make [execute_notebook] raise before the engine is called, with the
    world as it was. *)
Theorem execute_notebook_early_failure w src :
  (forall e, relative_to src (SRC_IPYNB_ROOT OPENFF_DOCS_ROOT) = raise e ->
             execute_notebook src w = (raise e, w)) /\
  (forall src_rel,
     relative_to src (SRC_IPYNB_ROOT OPENFF_DOCS_ROOT) = ok src_rel ->
     disk w !! src = None ->
     execute_notebook src w = (raise (FileNotFoundError (str src)), w)) /\
  (forall src_rel text e,
     relative_to src (SRC_IPYNB_ROOT OPENFF_DOCS_ROOT) = ok src_rel ->
     disk w !! src = Some (File text) ->
     nbformat_read text = raise e ->
     execute_notebook src w = (raise e, w)).
Proof.
  destruct w as [fs t]. cbn [disk]. split_and!.
  - intros e Hrel. unfold Executor.execute_notebook. by rewrite Hrel.
  - intros src_rel Hrel Hsrc. unfold Executor.execute_notebook.
    rewrite Hrel, ProgFacts.bind_lift_ok. apply ProgFacts.bind_raise.
    unfold quiet, read_text; cbn [disk trace]. by rewrite Hsrc.
  - intros src_rel text e Hrel Hsrc Hread. unfold Executor.execute_notebook.
    rewrite Hrel, ProgFacts.bind_lift_ok.
    rewrite (ProgFacts.bind_ok _ _ _ text {| disk := fs; trace := t |})
      by (unfold quiet, read_text; cbn [disk trace]; by rewrite Hsrc).
    by rewrite Hread.
Qed.

(** The directory of the executed copy has a name. *)
Lemma executed_parent_parts src_rel :
  root src_rel = false ->
  parts (parent (EXEC_IPYNB_ROOT OPENFF_DOCS_ROOT // src_rel)) <> [].
Proof.
  intros Hrel. unfold joinpath at 1. rewrite Hrel. cbn [parent parts root].
  change (parts (EXEC_IPYNB_ROOT OPENFF_DOCS_ROOT))
    with (parts OPENFF_DOCS_ROOT ++ ["source"; "notebooks"]).
  rewrite <- app_assoc. cbn [app].
  rewrite removelast_app by done.
  change (removelast ("source" :: "notebooks" :: parts src_rel))
    with ("source" :: removelast ("notebooks" :: parts src_rel)).
  by destruct (parts OPENFF_DOCS_ROOT).
Qed.

(** X16: when the engine returns and the directories down to the
    executed copy can be made, [execute_notebook] returns, and it
    leaves at [EXEC_IPYNB_ROOT / src_rel] a file that holds what
    [nbformat] writes for the notebook the engine returned. *)
Theorem execute_notebook_writes w src src_rel text original executed fs1 fs2 :
  relative_to src (SRC_IPYNB_ROOT OPENFF_DOCS_ROOT) = ok src_rel ->
  disk w !! src = Some (File text) ->
  nbformat_read text = ok original ->
  preprocess
    (handed_over (exists_ (parent src // of_string "thumbnail.png") (disk w)) original)
    (parent src) (disk w) = (ok executed, fs1) ->
  mkdir_parents (parent (EXEC_IPYNB_ROOT OPENFF_DOCS_ROOT // src_rel)) fs1
  = (ok tt, fs2) ->
  fs2 !! (EXEC_IPYNB_ROOT OPENFF_DOCS_ROOT // src_rel) <> Some Directory ->
  exists w',
    execute_notebook src w = (ok tt, w') /\
    disk w' !! (EXEC_IPYNB_ROOT OPENFF_DOCS_ROOT // src_rel)
    = Some (File (nbformat_write executed)) /\
    (forall p, p <> EXEC_IPYNB_ROOT OPENFF_DOCS_ROOT // src_rel ->
               disk w' !! p = fs2 !! p).
Proof.
  intros Hrel Hsrc Hread Hengine Hmkdir Hdst. destruct w as [fs t].
  cbn [disk trace] in *.
  rewrite (execute_notebook_to_engine _ _ _ _ _ _ Hrel Hsrc Hread).
  assert (Hdir : fs2 !! parent (EXEC_IPYNB_ROOT OPENFF_DOCS_ROOT // src_rel)
                 = Some Directory).
  { apply (mkdir_parents_makes _ fs1); [|done].
    apply executed_parent_parts. by apply relative_to_ok in Hrel as [_ ->]. }
  eexists. split.
  - rewrite (ProgFacts.bind_ok _ _ _ executed
               {| disk := fs1;
                  trace := t ++ [Preprocessed
                                   (handed_over
                                      (exists_ (parent src // of_string "thumbnail.png") fs)
                                      original) (parent src)] |})
      by (unfold reraise_as, call; cbn [disk trace]; by rewrite Hengine).
    rewrite (ProgFacts.bind_ok _ _ _ tt
               {| disk := fs2;
                  trace := t ++ [Preprocessed
                                   (handed_over
                                      (exists_ (parent src // of_string "thumbnail.png") fs)
                                      original) (parent src)] |})
      by (unfold quiet; cbn [disk trace]; by rewrite Hmkdir).
    unfold quiet, write_text. cbn [disk trace]. rewrite Hdir.
    destruct (fs2 !! (EXEC_IPYNB_ROOT OPENFF_DOCS_ROOT // src_rel)) as [[c|]|];
      [reflexivity|done|reflexivity].
  - cbn [disk]. split; [apply lookup_insert_eq|].
    intros p Hp. by rewrite lookup_insert_ne.
Qed.

End Facts.

(** X14 on an engine that always fails. *)
Lemma execute_notebook_engine_failure_witness :
  Executor.execute_notebook Sample.docs_root Sample.read Sample.write
    (fun _ _ => Prog.throw (ExternalError "CellExecutionError")) "code" 0
    Sample.notebook_path Sample.without_thumbnail
  = (raise (ValueError ("Exception encountered while executing "
                        +:+ str (of_string "repo/examples/demo/demo.ipynb"))),
     {| disk := disk Sample.without_thumbnail;
        trace := trace Sample.without_thumbnail
                 ++ [Preprocessed
                       (ExecutorTerms.handed_over "code" 0
                          (exists_ (parent Sample.notebook_path // of_string "thumbnail.png")
                             (disk Sample.without_thumbnail))
                          Sample.one_cell) (parent Sample.notebook_path)] |}).
Proof.
  apply (execute_notebook_engine_failure Sample.docs_root Sample.read Sample.write
           _ "code" 0 Sample.without_thumbnail Sample.notebook_path
           (of_string "repo/examples/demo/demo.ipynb") "source" Sample.one_cell
           (ExternalError "CellExecutionError") (disk Sample.without_thumbnail));
    reflexivity.
Defined.

(** X15 on a notebook outside the source cache, on a missing notebook
    and on a notebook that cannot be read. *)
Lemma execute_notebook_early_failure_witness :
  (exists e,
     Executor.execute_notebook Sample.docs_root Sample.read Sample.write Sample.engine
       "code" 0 (of_string "/tmp/demo.ipynb") Sample.without_thumbnail
     = (raise e, Sample.without_thumbnail)) /\
  Executor.execute_notebook Sample.docs_root Sample.read Sample.write Sample.engine
    "code" 0 Sample.notebook_path {| disk := ∅; trace := [] |}
  = (raise (FileNotFoundError (str Sample.notebook_path)), {| disk := ∅; trace := [] |}) /\
  Executor.execute_notebook Sample.docs_root
    (fun _ => raise (ExternalError "NotJSONError")) Sample.write Sample.engine
    "code" 0 Sample.notebook_path Sample.without_thumbnail
  = (raise (ExternalError "NotJSONError"), Sample.without_thumbnail).
Proof.
  split_and!.
  - eexists.
    apply (proj1 (execute_notebook_early_failure Sample.docs_root Sample.read
                    Sample.write Sample.engine "code" 0 Sample.without_thumbnail
                    (of_string "/tmp/demo.ipynb"))).
    reflexivity.
  - apply (proj1 (proj2 (execute_notebook_early_failure Sample.docs_root Sample.read
                    Sample.write Sample.engine "code" 0 {| disk := ∅; trace := [] |}
                    Sample.notebook_path)) (of_string "repo/examples/demo/demo.ipynb"));
      by vm_compute.
  - apply (proj2 (proj2 (execute_notebook_early_failure Sample.docs_root
                    (fun _ => raise (ExternalError "NotJSONError")) Sample.write
                    Sample.engine "code" 0 Sample.without_thumbnail
                    Sample.notebook_path)) (of_string "repo/examples/demo/demo.ipynb")
                    "source");
      by vm_compute.
Defined.

(** X16 on the sample notebook with an engine that returns what it is
    given. *)
Lemma execute_notebook_writes_witness :
  exists w',
    Executor.execute_notebook Sample.docs_root Sample.read Sample.write Sample.engine
      "code" 0 Sample.notebook_path Sample.without_thumbnail = (ok tt, w') /\
    disk w' !! (EXEC_IPYNB_ROOT Sample.docs_root
                // of_string "repo/examples/demo/demo.ipynb")
    = Some (File (Sample.write Sample.one_cell)) /\
    (forall p,
       p <> EXEC_IPYNB_ROOT Sample.docs_root // of_string "repo/examples/demo/demo.ipynb" ->
       disk w' !! p
       = (mkdir_parents
            (parent (EXEC_IPYNB_ROOT Sample.docs_root
                     // of_string "repo/examples/demo/demo.ipynb"))
            (disk Sample.without_thumbnail)).2 !! p).
Proof.
  apply (execute_notebook_writes Sample.docs_root Sample.read Sample.write
           Sample.engine "code" 0 Sample.without_thumbnail Sample.notebook_path
           (of_string "repo/examples/demo/demo.ipynb") "source" Sample.one_cell
           Sample.one_cell (disk Sample.without_thumbnail));
    [reflexivity..|by vm_compute].
Defined.

End ExecutorMore.

(** ** The orchestrator, continued *)

Module OrchestratorMore.
Import PurePath Globals Filesystem Script ScriptTerms Orchestrator.
Import PurePathFacts FilesystemFacts ScriptFacts OrchestratorFacts.

Lemma emits_weaken {A} (E E' : event -> Prop) (c : prog world A) :
  (forall ev, E ev -> E' ev) -> emits E c -> emits E' c.
Proof.
  intros Himpl Hc w. destruct (Hc w) as (T & HT & HE). exists T. split; [done|].
  by apply (Forall_impl E).
Qed.

Lemma follows_emits {A} E plan (c : prog world A) :
  follows plan c -> Forall E plan -> emits E c.
Proof.
  intros Hc Hplan w. destruct (Hc w) as (T & HT & [rest ->] & _).
  exists T. split; [done|]. by apply Forall_app in Hplan as [? _].
Qed.

Lemma emits_bind {A B} E (c : prog world A) (k : A -> prog world B) :
  emits E c -> (forall x, emits E (k x)) -> emits E (Prog.bind c k).
Proof.
  intros Hc Hk w. destruct (Hc w) as (T1 & HT1 & HE1). unfold Prog.bind.
  destruct (c w) as [[e|x] w1]; cbn [snd] in *; [by exists T1|].
  destruct (Hk x w1) as (T2 & HT2 & HE2). exists (T1 ++ T2). split.
  - by rewrite HT2, HT1, app_assoc.
  - by apply Forall_app.
Qed.

Section Facts.
Variable OPENFF_DOCS_ROOT : Path.
Context {K : Type}.
Variable Version : string -> result K.
Variable Version_gt : K -> K -> bool.
Variable releases : string -> Releases.listing.
Variable no_updates : UpdatedNotebooks.
Variable extend : UpdatedNotebooks -> UpdatedNotebooks -> UpdatedNotebooks.
Variable download_dir :
  string -> string -> Path -> string -> prog filesystem UpdatedNotebooks.
Variable find_notebooks : Path -> prog filesystem (list Path).
Variable notebook_zip : Path -> result Path.
Variable notebook_colab : Path -> result Path.
Variable create_colab_notebook : Path -> prog filesystem unit.
Variable create_zip : Path -> prog filesystem unit.
Variable pool_imap_unordered : list Path -> prog filesystem unit.

Abbreviation fetch :=
  (fetch OPENFF_DOCS_ROOT Version Version_gt releases extend download_dir).
Abbreviation search := (search OPENFF_DOCS_ROOT find_notebooks).
Abbreviation clear_outputs := (clear_outputs OPENFF_DOCS_ROOT).
Abbreviation select := (select OPENFF_DOCS_ROOT notebook_zip notebook_colab).
Abbreviation package_and_execute :=
  (package_and_execute create_colab_notebook create_zip pool_imap_unordered).
Abbreviation main :=
  (main OPENFF_DOCS_ROOT Version Version_gt releases no_updates extend
     download_dir find_notebooks notebook_zip notebook_colab
     create_colab_notebook create_zip pool_imap_unordered).
Abbreviation clearing := (clearing OPENFF_DOCS_ROOT).

(** The fetch makes no call but downloads. *)
Lemma fetch_downloads repos : forall updates, emits download (fetch repos updates).
Proof.
  induction repos as [|repo repos IH]; intros updates w; cbn [Orchestrator.fetch].
  - exists []. by rewrite app_nil_r.
  - unfold Prog.bind at 1, Prog.lift.
    destruct (Releases.get_stable_tagname _ _ _ repo) as [e|refspec].
    { exists []. by rewrite app_nil_r. }
    unfold Prog.bind at 1, call.
    destruct (download_dir repo "examples" _ refspec (disk w)) as [[e|downloaded] fs].
    { exists [Downloaded repo refspec]. split; [done|].
      constructor; [by exists repo, refspec|constructor]. }
    destruct (IH (extend updates downloaded)
                {| disk := fs; trace := trace w ++ [Downloaded repo refspec] |})
      as (T & -> & HT).
    exists (Downloaded repo refspec :: T). cbn [trace]. split.
    + by rewrite <- app_assoc.
    + constructor; [by exists repo, refspec|done].
Qed.

(** X17: when the fetch raises, [main] raises the same exception and
    stops there: it has made no call but downloads, so nothing was
    searched, cleared, cleaned up, packaged or executed, whatever the
    flags; and when it is the release of the first repository that
    cannot be told, the world is as it was. *)
Theorem main_fetch_failure w do_proc do_exec redo_all :
  (forall e w1,
     fetch GITHUB_REPOS no_updates w = (raise e, w1) ->
     main do_proc do_exec redo_all w = (raise e, w1) /\
     exists T, trace w1 = trace w ++ T /\ Forall download T) /\
  (forall e,
     Releases.get_stable_tagname Version Version_gt releases
       "openforcefield/openff-toolkit" = raise e ->
     main do_proc do_exec redo_all w = (raise e, w)).
Proof.
  split.
  - intros e w1 Hfetch. split.
    + unfold Orchestrator.main. by apply ProgFacts.bind_raise.
    + destruct (fetch_downloads GITHUB_REPOS no_updates w) as (T & HT & Hdown).
      rewrite Hfetch in HT. by exists T.
  - intros e Htag. unfold Orchestrator.main. apply ProgFacts.bind_raise.
    unfold GITHUB_REPOS. cbn [Orchestrator.fetch]. by rewrite Htag.
Qed.

(** X18: with both [do_proc] and [do_exec] off, a full rebuild clears
    the output roots and builds nothing: once the fetch and the search
    have returned, [main] returns, its last calls are the three
    clearings, and nothing is left under an output root that was a
    directory. *)
Theorem main_rebuild_skip_all w redo_all updates w1 found w2 :
  fetch GITHUB_REPOS no_updates w = (ok updates, w1) ->
  search w1 = (ok found, w2) ->
  rebuild_all updates || redo_all = true ->
  exists w3,
    main false false redo_all w = (ok tt, w3) /\
    trace w3 = trace w2 ++ clearing /\
    (forall output_root p,
       output_root ∈ [EXEC_IPYNB_ROOT OPENFF_DOCS_ROOT;
                      COLAB_IPYNB_ROOT OPENFF_DOCS_ROOT;
                      ZIPPED_IPYNB_ROOT OPENFF_DOCS_ROOT] ->
       disk w2 !! output_root = Some Directory ->
       is_under output_root p = true ->
       disk w3 !! p = None).
Proof.
  intros Hfetch Hsearch Hrebuild.
  destruct (clear_outputs_run OPENFF_DOCS_ROOT w2) as (w3 & Hclear & Htrace3 & Hdisk3).
  exists w3. split_and!; [|done..].
  unfold Orchestrator.main.
  rewrite (ProgFacts.bind_ok _ _ _ _ _ Hfetch).
  rewrite (ProgFacts.bind_ok _ _ _ _ _ Hsearch).
  rewrite (ProgFacts.bind_ok _ _ _ found w3); [reflexivity|].
  unfold Orchestrator.select. rewrite Hrebuild.
  by rewrite (ProgFacts.bind_ok _ _ _ _ _ Hclear).
Qed.

Lemma clear_outputs_disk w :
  disk (clear_outputs w).2
  = (rmtree_ignore_errors (ZIPPED_IPYNB_ROOT OPENFF_DOCS_ROOT)
       (rmtree_ignore_errors (COLAB_IPYNB_ROOT OPENFF_DOCS_ROOT)
          (rmtree_ignore_errors (EXEC_IPYNB_ROOT OPENFF_DOCS_ROOT) (disk w)).2).2).2.
Proof.
  unfold Orchestrator.clear_outputs, Prog.bind, call.
  rewrite (rmtree_ignore_errors_returns (EXEC_IPYNB_ROOT _)). cbn [disk trace].
  rewrite (rmtree_ignore_errors_returns (COLAB_IPYNB_ROOT _)). cbn [disk trace].
  by rewrite (rmtree_ignore_errors_returns (ZIPPED_IPYNB_ROOT _)).
Qed.

(** X19: clearing the output roots leaves every path that is under
    none of them as it was; the paths under the source cache and the
    universal environment file are such paths. *)
Theorem clear_outputs_frame w p :
  (is_under (EXEC_IPYNB_ROOT OPENFF_DOCS_ROOT) p = false ->
   is_under (COLAB_IPYNB_ROOT OPENFF_DOCS_ROOT) p = false ->
   is_under (ZIPPED_IPYNB_ROOT OPENFF_DOCS_ROOT) p = false ->
   disk (clear_outputs w).2 !! p = disk w !! p) /\
  (is_under (SRC_IPYNB_ROOT OPENFF_DOCS_ROOT) p = true \/
   p = UNIVERSAL_ENV_PATH OPENFF_DOCS_ROOT ->
   disk (clear_outputs w).2 !! p = disk w !! p).
Proof.
  assert (Hframe : is_under (EXEC_IPYNB_ROOT OPENFF_DOCS_ROOT) p = false ->
                   is_under (COLAB_IPYNB_ROOT OPENFF_DOCS_ROOT) p = false ->
                   is_under (ZIPPED_IPYNB_ROOT OPENFF_DOCS_ROOT) p = false ->
                   disk (clear_outputs w).2 !! p = disk w !! p).
  { intros He Hc Hz. rewrite clear_outputs_disk.
    by rewrite !rmtree_ignore_errors_outside. }
  split; [done|]. intros [Hsrc| ->].
  - apply Hframe; apply not_true_is_false; intros Hout;
      by pose proof (is_under_apart _ _ _ _ _ _ Hsrc Hout).
  - apply Hframe; apply not_true_is_false;
      intros [rest Hrest]%is_under_joinpath_inv; discriminate.
Qed.

(** What [main] calls in each of its stages is allowed by its flags. *)
Lemma package_and_execute_allowed do_proc do_exec notebooks :
  emits (allowed do_proc do_exec) (package_and_execute do_proc do_exec notebooks).
Proof.
  apply (follows_emits _ (planned do_proc do_exec notebooks)).
  - apply follows_package_and_execute.
  - unfold planned. apply Forall_app. split.
    + destruct do_proc; [|constructor].
      induction notebooks as [|notebook notebooks IH]; cbn; by repeat constructor.
    + destruct do_exec; by repeat constructor.
Qed.

Lemma select_allowed do_proc do_exec redo_all updates found :
  emits (allowed do_proc do_exec) (select redo_all updates found).
Proof.
  unfold Orchestrator.select. destruct (rebuild_all updates || redo_all).
  - apply emits_bind.
    + apply (follows_emits _ clearing).
      * unfold Orchestrator.clear_outputs, Orchestrator.clearing.
        apply (follows_bind [_] [_; _]); [apply follows_call|]. intros _.
        apply (follows_bind [_] [_]); [apply follows_call|]. intros _.
        apply follows_call.
      * by repeat constructor.
    + intros _. apply (follows_emits _ []); [apply follows_ret|constructor].
  - apply emits_bind.
    + apply (follows_emits _ (CleanedUp <$> cleanup updates)).
      * apply follows_clean_up.
      * induction (cleanup updates); cbn; by constructor.
    + intros _. apply (follows_emits _ []); [apply follows_ret|constructor].
Qed.

Lemma main_allowed do_proc do_exec redo_all :
  emits (allowed do_proc do_exec) (main do_proc do_exec redo_all).
Proof.
  unfold Orchestrator.main. apply emits_bind.
  - apply (emits_weaken download); [|apply fetch_downloads].
    by intros ev (repo & refspec & ->).
  - intros updates. apply emits_bind.
    + apply (follows_emits _ [Searched (SRC_IPYNB_ROOT OPENFF_DOCS_ROOT)]).
      * apply follows_call.
      * by repeat constructor.
    + intros found. apply emits_bind.
      * apply select_allowed.
      * intros notebooks. apply package_and_execute_allowed.
Qed.

(** X20: [main] honours its flags in every run, whether it returns or
    raises and whichever way it rebuilds: it packages a notebook only
    with [do_proc] and hands notebooks to the pool only with
    [do_exec]. *)
Theorem main_honours_flags do_proc do_exec redo_all w :
  exists T,
    trace (main do_proc do_exec redo_all w).2 = trace w ++ T /\
    Forall (allowed do_proc do_exec) T.
Proof. apply main_allowed. Qed.

End Facts.

(** X17 on a run in which the releases of the first repository cannot
    be listed. *)
Lemma main_fetch_failure_witness :
  Orchestrator.main Sample.docs_root Releases.release_Version Releases.release_gt
    (fun _ => (Releases.Response false [], []))
    Sample.nothing Sample.merge (Sample.download false) Sample.find
    Cleanup.Sample.zip_of Cleanup.Sample.colab_of
    Sample.do_nothing Sample.do_nothing Sample.pool true true true Sample.start
  = (raise HTTPError, Sample.start).
Proof.
  apply (proj2 (main_fetch_failure Sample.docs_root Releases.release_Version
                  Releases.release_gt (fun _ => (Releases.Response false [], []))
                  Sample.nothing Sample.merge (Sample.download false) Sample.find
                  Cleanup.Sample.zip_of Cleanup.Sample.colab_of
                  Sample.do_nothing Sample.do_nothing Sample.pool
                  Sample.start true true true)).
  reflexivity.
Defined.

(** X18 on the sample run with the override flag. *)
Lemma main_rebuild_skip_all_witness :
  exists w3,
    Sample.run false false false true Sample.start = (ok tt, w3) /\
    trace w3 = trace Sample.after_search ++ Orchestrator.clearing Sample.docs_root /\
    (forall output_root p,
       output_root ∈ [EXEC_IPYNB_ROOT Sample.docs_root;
                      COLAB_IPYNB_ROOT Sample.docs_root;
                      ZIPPED_IPYNB_ROOT Sample.docs_root] ->
       disk Sample.after_search !! output_root = Some Directory ->
       is_under output_root p = true ->
       disk w3 !! p = None).
Proof.
  apply (main_rebuild_skip_all Sample.docs_root Releases.release_Version
           Releases.release_gt Releases.three_pages Sample.nothing Sample.merge
           (Sample.download false) Sample.find Cleanup.Sample.zip_of
           Cleanup.Sample.colab_of Sample.do_nothing Sample.do_nothing Sample.pool
           Sample.start true (Sample.fetched false) Sample.after_fetch
           Sample.found Sample.after_search);
    reflexivity.
Defined.

(** X19 on the source notebook of the sample disk. *)
Lemma clear_outputs_frame_witness :
  disk (Orchestrator.clear_outputs Sample.docs_root Sample.start).2
    !! Cleanup.Sample.notebook
  = disk Sample.start !! Cleanup.Sample.notebook.
Proof.
  apply (proj2 (clear_outputs_frame Sample.docs_root Sample.start
                  Cleanup.Sample.notebook)).
  left. by vm_compute.
Defined.

End OrchestratorMore.

(** ** The archiver *)

Module ArchiverFacts.
Import PurePath Globals Filesystem Archiver PurePathFacts.

(** Making directories keeps what is there. *)
Lemma mkdir_below_keeps names : forall base (fs fs' : filesystem) r p n,
  mkdir_below base names fs = (r, fs') ->
  fs !! p = Some n -> fs' !! p = Some n.
Proof.
  induction names as [|entry names IH]; intros base fs fs' r p n; cbn [mkdir_below].
  - by intros [= _ <-].
  - destruct (fs !! make_child base entry) as [[c|]|] eqn:Hd.
    + by intros [= _ <-].
    + apply IH.
    + intros Hrun Hp. apply (IH _ _ _ _ p n Hrun).
      rewrite lookup_insert_ne; [done|]. congruence.
Qed.

Lemma removelast_neq {A} (l : list A) : l <> [] -> removelast l <> l.
Proof.
  induction l as [|a [|b l] IH]; [done|done|]. intros _.
  change (removelast (a :: b :: l)) with (a :: removelast (b :: l)).
  intros [= Heq]. by apply IH.
Qed.

(** A path below the first level is not its own parent. *)
Lemma parent_neq p : parts (parent p) <> [] -> parent p <> p.
Proof.
  intros Hne Heq. apply (f_equal parts) in Heq. cbn [parent parts] in *.
  apply (removelast_neq (parts p)); [|done]. by destruct (parts p).
Qed.

Section Facts.
Variable OPENFF_DOCS_ROOT : Path.
Variable is_bare_notebook : Path -> bool.
Variable listdir : Path -> list string.
Variable notebook_zip : Path -> result Path.
Variable zip_bytes : list member -> string.

Abbreviation needed_files :=
  (Resolver.needed_files OPENFF_DOCS_ROOT is_bare_notebook listdir).
Abbreviation create_zip :=
  (create_zip OPENFF_DOCS_ROOT is_bare_notebook listdir notebook_zip zip_bytes).

(** The loop of lines 108-109 over files that are there. *)
Lemma zip_write_all_app (fs : filesystem) files : forall rest members,
  (forall entry, entry ∈ files -> is_Some (fs !! entry.1)) ->
  zip_write_all (files ++ rest) fs members
  = zip_write_all rest fs (members ++ (member_of fs <$> files)).
Proof.
  induction files as [|[path arcname] files IH]; intros rest members Hthere.
  - cbn. by rewrite app_nil_r.
  - cbn [app zip_write_all fmap list_fmap].
    destruct (Hthere (path, arcname)) as [n Hn]; [by left|]. cbn [fst] in Hn.
    unfold zip_member, member_of. cbn [fst snd]. rewrite Hn.
    assert (Hrest : forall entry, entry ∈ files -> is_Some (fs !! entry.1))
      by (intros entry Hin; apply Hthere; by right).
    destruct n as [data|]; cbv beta iota; unfold ok; cbv beta iota;
      rewrite (IH _ _ Hrest); by rewrite <- app_assoc.
Qed.

(** The run of [create_zip] up to the archive being opened. *)
Lemma create_zip_opened (fs fs1 : filesystem) notebook_path zip :
  notebook_zip notebook_path = ok zip ->
  parts (parent zip) <> [] ->
  mkdir_parents (parent zip) fs = (ok tt, fs1) ->
  fs1 !! zip <> Some Directory ->
  create_zip notebook_path fs
  = (let '(r, members) :=
       match needed_files notebook_path with
       | inl e => (inl e, [])
       | inr files => zip_write_all files (<[zip := File ""]> fs1) []
       end in
     (r, <[zip := File (zip_bytes members)]> (<[zip := File ""]> fs1))).
Proof.
  intros Hzip Hparts Hmkdir Hfree.
  pose proof (ExecutorMore.mkdir_parents_makes _ _ _ Hparts Hmkdir) as Hdir.
  unfold Archiver.create_zip. rewrite Hzip, ProgFacts.bind_lift_ok.
  rewrite (ProgFacts.bind_ok _ _ _ _ _ Hmkdir).
  rewrite (ProgFacts.bind_ok _ _ _ tt (<[zip := File ""]> fs1)).
  2:{ unfold write_text. rewrite Hdir. by destruct (fs1 !! zip) as [[c|]|]. }
  destruct (match needed_files notebook_path with
            | inl e => _
            | inr files => _
            end) as [r members].
  unfold write_text.
  rewrite lookup_insert_ne by (intros Heq; by apply (parent_neq zip)).
  by rewrite Hdir, lookup_insert_eq.
Qed.

(** X21: when [needed_files] returns and every source of the file set
    is there, [create_zip] returns and leaves at the path of the
    archive an archive whose members are the entries of the file set,
    in order, each under its destination: a file with its data, a
    directory as a member without data.  Nothing else changes but the
    directories made on the way to the archive. *)
Theorem create_zip_archive (fs fs1 : filesystem) notebook_path zip files :
  notebook_zip notebook_path = ok zip ->
  needed_files notebook_path = ok files ->
  parts (parent zip) <> [] ->
  mkdir_parents (parent zip) fs = (ok tt, fs1) ->
  fs1 !! zip <> Some Directory ->
  (forall entry, entry ∈ files -> is_Some (fs !! entry.1) /\ entry.1 <> zip) ->
  exists fs',
    create_zip notebook_path fs = (ok tt, fs') /\
    fs' !! zip = Some (File (zip_bytes (member_of fs <$> files))) /\
    forall p, p <> zip -> fs' !! p = fs1 !! p.
Proof.
  intros Hzip Hfiles Hparts Hmkdir Hfree Hthere.
  rewrite (create_zip_opened _ _ _ _ Hzip Hparts Hmkdir Hfree), Hfiles.
  assert (Hsame : forall entry, entry ∈ files ->
            (<[zip := File ""]> fs1 : filesystem) !! entry.1 = fs !! entry.1).
  { intros entry Hin. destruct (Hthere _ Hin) as [[n Hn] Hne].
    rewrite lookup_insert_ne by done. rewrite Hn.
    by apply (mkdir_below_keeps _ _ _ _ _ _ _ Hmkdir). }
  assert (Hrun : zip_write_all files (<[zip := File ""]> fs1) []
                 = (ok tt, member_of fs <$> files)).
  { pose proof (zip_write_all_app (<[zip := File ""]> fs1) files [] []) as Happ.
    rewrite app_nil_r in Happ. rewrite Happ.
    - cbn [zip_write_all app]. f_equal.
      apply list_fmap_ext. intros i entry Hi. unfold member_of.
      rewrite Hsame; [done|]. by apply list_elem_of_lookup_2 in Hi.
    - intros entry Hin. rewrite (Hsame _ Hin). by apply Hthere. }
  change (ok files) with (@inr exn _ files). cbv beta iota. rewrite Hrun.
  eexists. split; [reflexivity|]. split; [apply lookup_insert_eq|].
  intros p Hp. by rewrite !lookup_insert_ne.
Qed.

(** X22: when [needed_files] raises, [create_zip] raises the same
    exception after it has opened the archive: an archive without
    members is left at the path of the archive, in the place of any
    archive that was there before. *)
Theorem create_zip_resolver_failure (fs fs1 : filesystem) notebook_path zip e :
  notebook_zip notebook_path = ok zip ->
  needed_files notebook_path = raise e ->
  parts (parent zip) <> [] ->
  mkdir_parents (parent zip) fs = (ok tt, fs1) ->
  fs1 !! zip <> Some Directory ->
  exists fs',
    create_zip notebook_path fs = (raise e, fs') /\
    fs' !! zip = Some (File (zip_bytes [])) /\
    forall p, p <> zip -> fs' !! p = fs1 !! p.
Proof.
  intros Hzip Hfiles Hparts Hmkdir Hfree.
  rewrite (create_zip_opened _ _ _ _ Hzip Hparts Hmkdir Hfree), Hfiles.
  change (@raise (list (Path * Path)) e) with (@inl exn (list (Path * Path)) e).
  cbv beta iota.
  eexists. split; [reflexivity|]. split; [apply lookup_insert_eq|].
  intros p Hp. by rewrite !lookup_insert_ne.
Qed.

(** X23: when a source of the file set is missing, [create_zip] raises
    [FileNotFoundError] for the first such source, and the archive it
    leaves holds the members of the entries before it and no other. *)
Theorem create_zip_missing_source (fs fs1 : filesystem) notebook_path zip
    before src dst after :
  notebook_zip notebook_path = ok zip ->
  needed_files notebook_path = ok (before ++ (src, dst) :: after) ->
  parts (parent zip) <> [] ->
  mkdir_parents (parent zip) fs = (ok tt, fs1) ->
  fs1 !! zip <> Some Directory ->
  (forall entry, entry ∈ before -> is_Some (fs !! entry.1) /\ entry.1 <> zip) ->
  fs1 !! src = None ->
  src <> zip ->
  exists fs',
    create_zip notebook_path fs = (raise (FileNotFoundError (str src)), fs') /\
    fs' !! zip = Some (File (zip_bytes (member_of fs <$> before))).
Proof.
  intros Hzip Hfiles Hparts Hmkdir Hfree Hthere Hsrc Hne.
  rewrite (create_zip_opened _ _ _ _ Hzip Hparts Hmkdir Hfree), Hfiles.
  assert (Hsame : forall entry, entry ∈ before ->
            (<[zip := File ""]> fs1 : filesystem) !! entry.1 = fs !! entry.1).
  { intros entry Hin. destruct (Hthere _ Hin) as [[n Hn] Hne'].
    rewrite lookup_insert_ne by done. rewrite Hn.
    by apply (mkdir_below_keeps _ _ _ _ _ _ _ Hmkdir). }
  assert (Hrun : zip_write_all (before ++ (src, dst) :: after)
                   (<[zip := File ""]> fs1) []
                 = (raise (FileNotFoundError (str src)), member_of fs <$> before)).
  { rewrite zip_write_all_app.
    - cbn [zip_write_all app]. unfold zip_member.
      rewrite lookup_insert_ne by done. rewrite Hsrc. f_equal.
      apply list_fmap_ext. intros i entry Hi. unfold member_of.
      rewrite Hsame; [done|]. by apply list_elem_of_lookup_2 in Hi.
    - intros entry Hin. rewrite (Hsame _ Hin). by apply Hthere. }
  change (ok (before ++ (src, dst) :: after))
    with (@inr exn _ (before ++ (src, dst) :: after)).
  cbv beta iota. rewrite Hrun.
  eexists. split; [reflexivity|]. apply lookup_insert_eq.
Qed.

End Facts.

(** X21 on the sample disk, for a directory without environment file. *)
Lemma create_zip_archive_witness :
  exists fs',
    Archiver.create_zip Resolver.Sample.docs_root Resolver.Sample.never_bare
      Resolver.Sample.no_environment Sample.zip_of Sample.names
      Resolver.Sample.notebook Sample.disk = (ok tt, fs') /\
    fs' !! (ZIPPED_IPYNB_ROOT Resolver.Sample.docs_root // of_string "demo.zip")
    = Some (File (Sample.names
                    (member_of Sample.disk <$>
                       [ (Resolver.Sample.notebook, of_string "demo.ipynb");
                         (Resolver.Sample.notebook_dir // of_string "molecule.sdf",
                          of_string "molecule.sdf");
                         (UNIVERSAL_ENV_PATH Resolver.Sample.docs_root,
                          PACKAGED_ENV_NAME) ]))) /\
    forall p,
      p <> ZIPPED_IPYNB_ROOT Resolver.Sample.docs_root // of_string "demo.zip" ->
      fs' !! p
      = (mkdir_parents
           (parent (ZIPPED_IPYNB_ROOT Resolver.Sample.docs_root // of_string "demo.zip"))
           Sample.disk).2 !! p.
Proof.
  apply (create_zip_archive Resolver.Sample.docs_root Resolver.Sample.never_bare
           Resolver.Sample.no_environment Sample.zip_of Sample.names Sample.disk);
    [reflexivity|by vm_compute|by vm_compute|reflexivity|by vm_compute|].
  intros entry Hin.
  repeat (apply elem_of_cons in Hin as [->|Hin];
            [split; [vm_compute; by eexists | by vm_compute]|]).
  by apply elem_of_nil in Hin.
Defined.

(** X22 on the sample disk, for a directory with both spellings: the
    previous archive is replaced by an archive without members. *)
Lemma create_zip_resolver_failure_witness :
  exists fs',
    Archiver.create_zip Resolver.Sample.docs_root Resolver.Sample.never_bare
      Resolver.Sample.both_spellings Sample.zip_of Sample.names
      Resolver.Sample.notebook Sample.disk
    = (raise (ValueError
                (Resolver.ambiguous_message
                   (Resolver.candidates Resolver.Sample.never_bare
                      Resolver.Sample.both_spellings Resolver.Sample.notebook))),
       fs') /\
    fs' !! (ZIPPED_IPYNB_ROOT Resolver.Sample.docs_root // of_string "demo.zip")
    = Some (File (Sample.names [])) /\
    forall p,
      p <> ZIPPED_IPYNB_ROOT Resolver.Sample.docs_root // of_string "demo.zip" ->
      fs' !! p
      = (mkdir_parents
           (parent (ZIPPED_IPYNB_ROOT Resolver.Sample.docs_root // of_string "demo.zip"))
           Sample.disk).2 !! p.
Proof.
  apply (create_zip_resolver_failure Resolver.Sample.docs_root
           Resolver.Sample.never_bare Resolver.Sample.both_spellings Sample.zip_of
           Sample.names Sample.disk);
    [reflexivity|by vm_compute|by vm_compute|reflexivity|by vm_compute].
Defined.

(** X23 on the sample disk, for a directory whose listing shows an
    environment file that is not there. *)
Lemma create_zip_missing_source_witness :
  exists fs',
    Archiver.create_zip Resolver.Sample.docs_root Resolver.Sample.never_bare
      Resolver.Sample.only_yml Sample.zip_of Sample.names
      Resolver.Sample.notebook Sample.disk
    = (raise (FileNotFoundError
                (str (Resolver.Sample.notebook_dir // of_string "environment.yml"))),
       fs') /\
    fs' !! (ZIPPED_IPYNB_ROOT Resolver.Sample.docs_root // of_string "demo.zip")
    = Some (File (Sample.names
                    (member_of Sample.disk <$>
                       [ (Resolver.Sample.notebook, of_string "demo.ipynb");
                         (Resolver.Sample.notebook_dir // of_string "molecule.sdf",
                          of_string "molecule.sdf") ]))).
Proof.
  apply (create_zip_missing_source Resolver.Sample.docs_root Resolver.Sample.never_bare
           Resolver.Sample.only_yml Sample.zip_of Sample.names Sample.disk
           (mkdir_parents
              (parent (ZIPPED_IPYNB_ROOT Resolver.Sample.docs_root
                       // of_string "demo.zip")) Sample.disk).2
           Resolver.Sample.notebook
           (ZIPPED_IPYNB_ROOT Resolver.Sample.docs_root // of_string "demo.zip")
           [ (Resolver.Sample.notebook, of_string "demo.ipynb");
             (Resolver.Sample.notebook_dir // of_string "molecule.sdf",
              of_string "molecule.sdf") ]
           (Resolver.Sample.notebook_dir // of_string "environment.yml")
           PACKAGED_ENV_NAME []);
    [reflexivity|by vm_compute|by vm_compute|reflexivity|by vm_compute|
     |by vm_compute|by vm_compute].
  intros entry Hin.
  repeat (apply elem_of_cons in Hin as [->|Hin];
            [split; [vm_compute; by eexists | by vm_compute]|]).
  by apply elem_of_nil in Hin.
Defined.

End ArchiverFacts.

(** ** The command line *)

Module CommandLineFacts.
Import Script ScriptTerms CommandLine OrchestratorMore.

(** X24: with [--skip-proc] among the arguments the script packages
    no notebook, and with [--skip-exec] it hands no notebook to the
    pool, in every run, whatever the other arguments and their order. *)
Theorem script_skips {K : Type} OPENFF_DOCS_ROOT (Version : string -> result K)
    Version_gt releases no_updates extend download_dir find_notebooks
    notebook_zip notebook_colab create_colab_notebook create_zip
    pool_imap_unordered (argv : list string) (w : world) :
  exists T,
    trace (script OPENFF_DOCS_ROOT Version Version_gt releases no_updates extend
             download_dir find_notebooks notebook_zip notebook_colab
             create_colab_notebook create_zip pool_imap_unordered argv w).2
    = trace w ++ T /\
    ("--skip-proc" ∈ argv ->
     forall notebook, (ColabCreated notebook ∉ T) /\ (Zipped notebook ∉ T)) /\
    ("--skip-exec" ∈ argv -> forall notebooks, PoolMapped notebooks ∉ T).
Proof.
  unfold script.
  destruct (main_allowed OPENFF_DOCS_ROOT Version Version_gt releases no_updates
              extend download_dir find_notebooks notebook_zip notebook_colab
              create_colab_notebook create_zip pool_imap_unordered
              (negb (bool_decide ("--skip-proc" ∈ argv)))
              (negb (bool_decide ("--skip-exec" ∈ argv)))
              (bool_decide ("--redo-all" ∈ argv)) w) as (T & HT & Hallowed).
  exists T. split; [done|]. rewrite Forall_forall in Hallowed. split.
  - intros Hskip notebook.
    split; intros Hin; apply Hallowed in Hin; cbn in Hin;
      by rewrite bool_decide_eq_true_2 in Hin.
  - intros Hskip notebooks Hin. apply Hallowed in Hin. cbn in Hin.
    by rewrite bool_decide_eq_true_2 in Hin.
Qed.

(** X24 on the sample run called with both skip flags. *)
Lemma script_skips_witness :
  exists T,
    trace (script Orchestrator.Sample.docs_root Releases.release_Version
             Releases.release_gt Releases.three_pages Orchestrator.Sample.nothing
             Orchestrator.Sample.merge (Orchestrator.Sample.download false)
             Orchestrator.Sample.find Cleanup.Sample.zip_of Cleanup.Sample.colab_of
             Orchestrator.Sample.do_nothing Orchestrator.Sample.do_nothing
             Orchestrator.Sample.pool
             ["proc_examples.py"; "--skip-exec"; "--skip-proc"]
             Orchestrator.Sample.start).2
    = trace Orchestrator.Sample.start ++ T /\
    (forall notebook, (ColabCreated notebook ∉ T) /\ (Zipped notebook ∉ T)) /\
    (forall notebooks, PoolMapped notebooks ∉ T).
Proof.
  destruct (script_skips Orchestrator.Sample.docs_root Releases.release_Version
              Releases.release_gt Releases.three_pages Orchestrator.Sample.nothing
              Orchestrator.Sample.merge (Orchestrator.Sample.download false)
              Orchestrator.Sample.find Cleanup.Sample.zip_of Cleanup.Sample.colab_of
              Orchestrator.Sample.do_nothing Orchestrator.Sample.do_nothing
              Orchestrator.Sample.pool
              ["proc_examples.py"; "--skip-exec"; "--skip-proc"]
              Orchestrator.Sample.start) as (T & HT & Hproc & Hexec).
  exists T. split; [exact HT|]. split.
  - apply Hproc. right; right; by left.
  - apply Hexec. right; by left.
Defined.

End CommandLineFacts.

(** ** The Colab bundle *)

Module ColabFacts.
Import PurePath Globals Filesystem Colab PurePathFacts.

Lemma grows_refl (fs : filesystem) : grows fs fs.
Proof. intros p. destruct (fs !! p) as [[data|]|]; eauto. Qed.

Lemma grows_trans (fs1 fs2 fs3 : filesystem) :
  grows fs1 fs2 -> grows fs2 fs3 -> grows fs1 fs3.
Proof.
  intros H12 H23 p. specialize (H12 p). specialize (H23 p).
  destruct (fs1 !! p) as [[data|]|]; [| |done].
  - destruct H12 as [data' H12]. rewrite H12 in H23. exact H23.
  - rewrite H12 in H23. exact H23.
Qed.

(** Writing a text where there is no directory keeps every kind. *)
Lemma grows_insert_file (fs : filesystem) p data :
  fs !! p <> Some Directory -> grows fs (<[p := File data]> fs).
Proof.
  intros Hp q. destruct (decide (p = q)) as [<-|Hne].
  - rewrite lookup_insert_eq. destruct (fs !! p) as [[data'|]|]; [eauto|done|done].
  - rewrite lookup_insert_ne by done. apply grows_refl.
Qed.

Lemma write_text_grows p data (fs : filesystem) : grows fs (write_text p data fs).2.
Proof.
  unfold write_text.
  destruct (fs !! parent p) as [[c|]|]; [apply grows_refl| |apply grows_refl].
  destruct (fs !! p) as [[c|]|] eqn:Hp; cbn [snd].
  - apply grows_insert_file. by rewrite Hp.
  - apply grows_refl.
  - apply grows_insert_file. by rewrite Hp.
Qed.

Lemma only_new_directories_refl (fs : filesystem) : only_new_directories fs fs.
Proof. intros p. by left. Qed.

Lemma mkdir_below_new names : forall base (fs : filesystem),
  only_new_directories fs (mkdir_below base names fs).2.
Proof.
  induction names as [|entry names IH]; intros base fs; cbn [mkdir_below].
  - apply only_new_directories_refl.
  - destruct (fs !! make_child base entry) as [[c|]|] eqn:Hd.
    + apply only_new_directories_refl.
    + apply IH.
    + intros p. destruct (IH (make_child base entry)
                            (<[make_child base entry := Directory]> fs) p)
        as [Hsame|[Hnone Hdir]].
      * destruct (decide (make_child base entry = p)) as [<-|Hne].
        -- right. split; [done|]. by rewrite Hsame, lookup_insert_eq.
        -- left. by rewrite Hsame, lookup_insert_ne.
      * right. split; [|done].
        destruct (decide (make_child base entry = p)) as [<-|Hne].
        -- done.
        -- by rewrite lookup_insert_ne in Hnone.
Qed.

Lemma only_new_directories_grows (fs fs' : filesystem) :
  only_new_directories fs fs' -> grows fs fs'.
Proof.
  intros Hnew p. destruct (Hnew p) as [Hsame|[Hnone _]].
  - rewrite Hsame. apply grows_refl.
  - by rewrite Hnone.
Qed.

Lemma copy_grows src dst (fs : filesystem) : grows fs (copy src dst fs).2.
Proof.
  unfold copy. destruct (fs !! src) as [[data|]|]; [| |apply grows_refl].
  - case_bool_decide; [apply grows_refl|apply write_text_grows].
  - case_bool_decide; apply grows_refl.
Qed.

(** A directory cannot be copied. *)
Lemma copy_directory src dst (fs : filesystem) :
  fs !! src = Some Directory -> exists e, copy src dst fs = (raise e, fs).
Proof.
  intros Hsrc. unfold copy. rewrite Hsrc. case_bool_decide; eauto.
Qed.

Lemma copy_all_grows files bundle : forall fs : filesystem,
  grows fs (copy_all files bundle fs).2.
Proof.
  unfold copy_all.
  induction files as [|entry files IH]; intros fs; cbn [Prog.for_each].
  - apply grows_refl.
  - unfold Prog.bind. pose proof (copy_grows entry.1 (bundle // entry.2) fs) as Hcopy.
    destruct (copy entry.1 (bundle // entry.2) fs) as [[e|[]] fs1]; cbn [snd] in *.
    + exact Hcopy.
    + eapply grows_trans; [exact Hcopy|apply IH].
Qed.

(** The loop of lines 137-138 raises on a file set with a directory
    among its sources. *)
Lemma copy_all_directory files bundle path rel : forall fs : filesystem,
  (path, rel) ∈ files ->
  fs !! path = Some Directory ->
  exists e, (copy_all files bundle fs).1 = raise e.
Proof.
  unfold copy_all.
  induction files as [|entry files IH]; intros fs Hin Hdir; [by apply elem_of_nil in Hin|].
  cbn [Prog.for_each]. unfold Prog.bind.
  apply elem_of_cons in Hin as [<-|Hin].
  - cbn [fst snd].
    destruct (copy_directory path (bundle // rel) fs Hdir) as [e ->]. by exists e.
  - pose proof (copy_grows entry.1 (bundle // entry.2) fs path) as Hkeep.
    rewrite Hdir in Hkeep.
    destruct (copy entry.1 (bundle // entry.2) fs) as [[e|[]] fs1]; cbn [snd] in *.
    + by exists e.
    + by apply IH.
Qed.

Section Facts.

Variable OPENFF_DOCS_ROOT : Path.
Variable is_bare_notebook : Path -> bool.
Variable listdir : Path -> list string.
Variable notebook_colab : Path -> result Path.
Variable json_load : string -> result notebook.
Variable json_dump : notebook -> string.
Variable default_position : nat.
Variable default_metadata : list (string * meta_value).
Variable without_name : string -> result (option string).

Abbreviation needed_files :=
  (Resolver.needed_files OPENFF_DOCS_ROOT is_bare_notebook listdir).
Abbreviation create_colab_notebook :=
  (Colab.create_colab_notebook OPENFF_DOCS_ROOT is_bare_notebook listdir
     notebook_colab json_load json_dump default_position default_metadata
     without_name).
Abbreviation strip_name := (Colab.strip_name without_name).
Abbreviation with_install_cell :=
  (Colab.with_install_cell default_position default_metadata).

Lemma strip_name_grows env_path (fs : filesystem) :
  grows fs (strip_name env_path fs).2.
Proof.
  unfold Colab.strip_name. destruct (fs !! env_path) as [[text|]|] eqn:Henv;
    [|apply grows_refl|apply grows_refl].
  destruct (without_name text) as [e|[text'|]]; cbn [snd]; [apply grows_refl| |apply grows_refl].
  apply grows_insert_file. by rewrite Henv.
Qed.

(** What [create_colab_notebook] does up to the call of
    [needed_files], when it gets there: the notebook is read and
    loaded, the place of the bundle is known and its directory is
    made. *)
Lemma create_colab_notebook_run src (fs : filesystem) :
  (exists e, create_colab_notebook src fs = (raise e, fs)) \/
  exists text nb dst,
    fs !! src = Some (File text) /\ json_load text = ok nb /\
    notebook_colab src = ok dst /\
    ((exists e, create_colab_notebook src fs
                = (raise e, (mkdir_parents (parent dst) fs).2)) \/
     create_colab_notebook src fs
     = (files <- Prog.lift (needed_files src) ;;
        copy_all files (parent dst) ;;
        strip_name (parent dst // PACKAGED_ENV_NAME) ;;
        write_text dst (json_dump (with_install_cell nb)))%prog
         (mkdir_parents (parent dst) fs).2).
Proof.
  destruct (fs !! src) as [[text|]|] eqn:Hsrc.
  2,3: left; eexists;
       unfold Colab.create_colab_notebook, Prog.bind, read_text; by rewrite Hsrc.
  destruct (json_load text) as [e|nb] eqn:Hload.
  { left. exists e.
    unfold Colab.create_colab_notebook, Prog.bind, read_text, Prog.lift, ok.
    rewrite Hsrc. cbv beta iota. by rewrite Hload. }
  destruct (notebook_colab src) as [e|dst] eqn:Hdst.
  { left. exists e.
    unfold Colab.create_colab_notebook, Prog.bind, read_text, Prog.lift, ok.
    rewrite Hsrc. cbv beta iota. rewrite Hload. cbv beta iota. by rewrite Hdst. }
  right. exists text, nb, dst. split_and!; [done..|].
  destruct (mkdir_parents (parent dst) fs) as [[e|[]] fs1] eqn:Hmk; cbn [snd].
  - left. exists e.
    unfold Colab.create_colab_notebook, Prog.bind, read_text, Prog.lift, ok.
    rewrite Hsrc. cbv beta iota. rewrite Hload. cbv beta iota. rewrite Hdst.
    cbv beta iota. by rewrite Hmk.
  - right.
    unfold Colab.create_colab_notebook, Prog.bind, read_text, Prog.lift, ok.
    rewrite Hsrc. cbv beta iota. rewrite Hload. cbv beta iota. rewrite Hdst.
    cbv beta iota. by rewrite Hmk.
Qed.

(** X25: whether it returns or raises, [create_colab_notebook]
    removes no path and changes the kind of none: what is a directory
    before is a directory after, and what is a file before is a file
    after.  In particular the files an earlier bundle left in the
    directory are still there. *)
Theorem create_colab_notebook_keeps src (fs : filesystem) :
  grows fs (create_colab_notebook src fs).2.
Proof.
  destruct (create_colab_notebook_run src fs)
    as [[e ->]|(text & nb & dst & _ & _ & _ & Hrun)]; [apply grows_refl|].
  pose proof (only_new_directories_grows _ _
                (mkdir_below_new (parts (parent dst))
                   {| root := root (parent dst); parts := [] |} fs)) as Hmk.
  fold (mkdir_parents (parent dst)) in Hmk.
  destruct Hrun as [[e ->]| ->]; [exact Hmk|].
  eapply grows_trans; [exact Hmk|].
  generalize (mkdir_parents (parent dst) fs).2. intros fs1.
  unfold Prog.bind at 1, Prog.lift.
  destruct (needed_files src) as [e|files]; [apply grows_refl|].
  unfold Prog.bind at 1.
  pose proof (copy_all_grows files (parent dst) fs1) as Hcopy.
  destruct (copy_all files (parent dst) fs1) as [[e|[]] fs2]; cbn [snd] in *; [done|].
  eapply grows_trans; [exact Hcopy|].
  unfold Prog.bind at 1.
  pose proof (strip_name_grows (parent dst // PACKAGED_ENV_NAME) fs2) as Hstrip.
  destruct (strip_name (parent dst // PACKAGED_ENV_NAME) fs2) as [[e|[]] fs3];
    cbn [snd] in *; [done|].
  eapply grows_trans; [exact Hstrip|apply write_text_grows].
Qed.

(** X26: a notebook whose file set has a directory among its sources
    gets no bundle: [create_colab_notebook] raises, whatever else is
    on the disk. *)
Theorem create_colab_notebook_directory src (fs : filesystem) files path rel :
  needed_files src = ok files ->
  (path, rel) ∈ files ->
  fs !! path = Some Directory ->
  exists e, (create_colab_notebook src fs).1 = raise e.
Proof.
  intros Hfiles Hin Hdir.
  destruct (create_colab_notebook_run src fs)
    as [[e ->]|(text & nb & dst & _ & _ & _ & [[e ->]| ->])]; [by exists e..|].
  pose proof (only_new_directories_grows _ _
                (mkdir_below_new (parts (parent dst))
                   {| root := root (parent dst); parts := [] |} fs) path) as Hmk.
  fold (mkdir_parents (parent dst)) in Hmk. rewrite Hdir in Hmk.
  revert Hmk. generalize (mkdir_parents (parent dst) fs).2. intros fs1 Hdir1.
  unfold Prog.bind at 1, Prog.lift. rewrite Hfiles.
  change (@ok (list (Path * Path)) files) with (@inr exn _ files). cbv beta iota.
  unfold Prog.bind at 1.
  destruct (copy_all_directory files (parent dst) path rel fs1 Hin Hdir1) as [e He].
  destruct (copy_all files (parent dst) fs1) as [[e'|[]] fs2]; cbn [fst] in He.
  - by exists e'.
  - discriminate.
Qed.

(** X27: when [needed_files] raises, [create_colab_notebook] raises
    and writes no file: all it leaves behind are new directories. *)
Theorem create_colab_notebook_resolver_failure src (fs : filesystem) e :
  needed_files src = raise e ->
  (exists e', (create_colab_notebook src fs).1 = raise e') /\
  only_new_directories fs (create_colab_notebook src fs).2.
Proof.
  intros Hfiles.
  pose proof (fun d => mkdir_below_new (parts d) {| root := root d; parts := [] |} fs)
    as Hmk.
  destruct (create_colab_notebook_run src fs)
    as [[e' ->]|(text & nb & dst & _ & _ & _ & [[e' ->]| ->])].
  - split; [by exists e'|apply only_new_directories_refl].
  - split; [by exists e'|apply Hmk].
  - unfold Prog.bind at 1, Prog.lift. rewrite Hfiles.
    split; [by exists e|apply Hmk].
Qed.

(** X28: when [create_colab_notebook] returns, the notebook was a file
    that loads, and the bundle holds, at the place [notebook_colab]
    gives, the dump of the document [insert_cell] returns for the
    loaded notebook and the install cell, and next to it a file under
    the name of the environment the install cell updates from. *)
Theorem create_colab_notebook_bundle src (fs fs' : filesystem) :
  create_colab_notebook src fs = (ok tt, fs') ->
  exists text nb dst,
    fs !! src = Some (File text) /\ json_load text = ok nb /\
    notebook_colab src = ok dst /\
    fs' !! dst = Some (File (json_dump (with_install_cell nb))) /\
    exists env, fs' !! (parent dst // PACKAGED_ENV_NAME) = Some (File env).
Proof.
  intros Hrun.
  destruct (create_colab_notebook_run src fs)
    as [[e He]|(text & nb & dst & Hsrc & Hload & Hdst & [[e He]|Hrest])];
    [by rewrite He in Hrun..|].
  exists text, nb, dst. split_and!; [done..| |].
  all: rewrite Hrest in Hrun; clear Hrest; revert Hrun;
    generalize (mkdir_parents (parent dst) fs).2; intros fs1;
    unfold Prog.bind at 1, Prog.lift;
    destruct (needed_files src) as [e|files]; [done|];
    unfold Prog.bind at 1;
    destruct (copy_all files (parent dst) fs1) as [[e|[]] fs2]; [done|];
    unfold Prog.bind at 1;
    pose proof (strip_name_grows (parent dst // PACKAGED_ENV_NAME) fs2
                  (parent dst // PACKAGED_ENV_NAME)) as Hkeep;
    destruct (strip_name (parent dst // PACKAGED_ENV_NAME) fs2) as [[e|[]] fs3] eqn:Hstrip;
      [done|]; cbn [snd] in Hkeep; intros Hwrite.
  - revert Hwrite. unfold write_text.
    destruct (fs3 !! parent dst) as [[c|]|]; [done| |done].
    destruct (fs3 !! dst) as [[c|]|]; [|done|].
    all: intros [= <-]; apply lookup_insert_eq.
  - assert (Henv : exists env, fs3 !! (parent dst // PACKAGED_ENV_NAME) = Some (File env)).
    { revert Hstrip Hkeep. unfold Colab.strip_name.
      destruct (fs2 !! (parent dst // PACKAGED_ENV_NAME)) as [[c|]|]; [|done|done].
      by intros _ ?. }
    destruct Henv as [env Henv].
    pose proof (write_text_grows dst (json_dump (with_install_cell nb)) fs3
                  (parent dst // PACKAGED_ENV_NAME)) as Hlast.
    rewrite Hwrite, Henv in Hlast. exact Hlast.
Qed.

End Facts.

(** X26 on the sample disk: the directory of inputs next to the
    notebook is one of the sources. *)
Lemma create_colab_notebook_directory_witness :
  exists e,
    (Colab.create_colab_notebook Resolver.Sample.docs_root Resolver.Sample.never_bare
       Sample.with_inputs Sample.colab_of Sample.load Sample.dump 0 []
       Sample.unnamed Resolver.Sample.notebook Sample.disk).1 = raise e.
Proof.
  apply (create_colab_notebook_directory Resolver.Sample.docs_root
           Resolver.Sample.never_bare Sample.with_inputs Sample.colab_of Sample.load
           Sample.dump 0 [] Sample.unnamed Resolver.Sample.notebook Sample.disk
           [ (Resolver.Sample.notebook, of_string "demo.ipynb");
             (Resolver.Sample.notebook_dir // of_string "molecule.sdf",
              of_string "molecule.sdf");
             (Resolver.Sample.notebook_dir // of_string "inputs", of_string "inputs");
             (UNIVERSAL_ENV_PATH Resolver.Sample.docs_root, PACKAGED_ENV_NAME) ]
           (Resolver.Sample.notebook_dir // of_string "inputs") (of_string "inputs")).
  - by vm_compute.
  - right; right; by left.
  - by vm_compute.
Defined.

(** X27 on the sample disk, for a directory with both spellings of the
    environment file. *)
Lemma create_colab_notebook_resolver_failure_witness :
  (exists e',
     (Colab.create_colab_notebook Resolver.Sample.docs_root Resolver.Sample.never_bare
        Resolver.Sample.both_spellings Sample.colab_of Sample.load Sample.dump 0 []
        Sample.unnamed Resolver.Sample.notebook Sample.disk).1 = raise e') /\
  only_new_directories Sample.disk
    (Colab.create_colab_notebook Resolver.Sample.docs_root Resolver.Sample.never_bare
       Resolver.Sample.both_spellings Sample.colab_of Sample.load Sample.dump 0 []
       Sample.unnamed Resolver.Sample.notebook Sample.disk).2.
Proof.
  apply (create_colab_notebook_resolver_failure Resolver.Sample.docs_root
           Resolver.Sample.never_bare Resolver.Sample.both_spellings Sample.colab_of
           Sample.load Sample.dump 0 [] Sample.unnamed Resolver.Sample.notebook
           Sample.disk
           (ValueError
              (Resolver.ambiguous_message
                 (Resolver.candidates Resolver.Sample.never_bare
                    Resolver.Sample.both_spellings Resolver.Sample.notebook)))).
  by vm_compute.
Defined.

(** X28 on the sample disk, for a directory without environment
    file. *)
Lemma create_colab_notebook_bundle_witness :
  exists text nb dst,
    Sample.disk !! Resolver.Sample.notebook = Some (File text) /\
    Sample.load text = ok nb /\
    Sample.colab_of Resolver.Sample.notebook = ok dst /\
    (Colab.create_colab_notebook Resolver.Sample.docs_root Resolver.Sample.never_bare
       Resolver.Sample.no_environment Sample.colab_of Sample.load Sample.dump 0 []
       Sample.unnamed Resolver.Sample.notebook Sample.disk).2 !! dst
    = Some (File (Sample.dump (Colab.with_install_cell 0 [] nb))) /\
    exists env,
      (Colab.create_colab_notebook Resolver.Sample.docs_root Resolver.Sample.never_bare
         Resolver.Sample.no_environment Sample.colab_of Sample.load Sample.dump 0 []
         Sample.unnamed Resolver.Sample.notebook Sample.disk).2
        !! (parent dst // PACKAGED_ENV_NAME)
      = Some (File env).
Proof.
  apply (create_colab_notebook_bundle Resolver.Sample.docs_root
           Resolver.Sample.never_bare Resolver.Sample.no_environment Sample.colab_of
           Sample.load Sample.dump 0 [] Sample.unnamed Resolver.Sample.notebook
           Sample.disk).
  apply injective_projections; [by vm_compute|reflexivity].
Defined.

End ColabFacts.
